(** * beryl-sql: the SQLite binding of the Beryl scripting language

    A shallow embedding of [beryl_sql.c].  The binding sits between two
    external components that are not part of the repository:

    - the SQLite engine, reached through [sqlite3_*] calls, and
    - the Beryl runtime ([beryl.h]): values, allocation, reference counts.

    Both are modelled as interfaces.  Every call of the binding into one of
    them is recorded in a trace, so that statements such as "the statement
    is finalized exactly once" or "nothing is prepared" can be expressed. *)

From Stdlib Require Import ZArith List String Ascii Bool Lia.
From Stdlib Require Import Floats.SpecFloat.
Import ListNotations.

Local Open Scope string_scope.
Local Open Scope Z_scope.

(** ** C and SQLite constants *)

(** [limits.h], 32-bit [int] (every platform SQLite builds on). *)
Definition INT_MAX : Z := 2147483647.
Definition INT_MIN : Z := -2147483648.
Definition UINT_MODULUS : Z := 4294967296.

(** Result codes and fundamental datatypes of [sqlite3.h]. *)
Definition SQLITE_OK : Z := 0.
Definition SQLITE_ERROR : Z := 1.
Definition SQLITE_BUSY : Z := 5.
Definition SQLITE_NOMEM : Z := 7.
Definition SQLITE_TOOBIG : Z := 18.
Definition SQLITE_MISUSE : Z := 21.
Definition SQLITE_RANGE : Z := 25.
Definition SQLITE_ROW : Z := 100.
Definition SQLITE_DONE : Z := 101.

Definition SQLITE_INTEGER : Z := 1.
Definition SQLITE_FLOAT : Z := 2.
Definition SQLITE_TEXT : Z := 3.
Definition SQLITE_BLOB : Z := 4.
Definition SQLITE_NULL : Z := 5.

(** [sqlite3.h]: the *category id* handed to [sqlite3_limit] to query or set
    the maximum parameter index.  It is not the limit itself. *)
Definition SQLITE_LIMIT_VARIABLE_NUMBER : Z := 9.

(** The engine's default compile-time upper bound on the number of
    parameters of one statement ([SQLITE_MAX_VARIABLE_NUMBER]); it was 999
    before SQLite 3.32. *)
Definition SQLITE_MAX_VARIABLE_NUMBER : Z := 32766.

(** ** Numbers

    [i_float] is a C [double]: IEEE 754 binary64, precision 53, [emax] 1024. *)

Definition i_float := spec_float.

Definition prec64 : Z := 53.
Definition emax64 : Z := 1024.

(** Conversion of a 64-bit integer to [double] (round to nearest, ties to
    even), as in [(double) v]. *)
Definition double_of_int64 (v : Z) : i_float :=
  binary_normalize prec64 emax64 v 0 false.

(** The integer part of a [double], rounding toward zero; [None] for
    infinities and NaN. *)
Definition trunc_double (x : i_float) : option Z :=
  match x with
  | S754_zero _ => Some 0
  | S754_finite s m e =>
      Some (cond_Zopp s
              (if 0 <=? e then Zpos m * 2 ^ e else Zpos m / 2 ^ (- e)))
  | S754_infinity _ | S754_nan => None
  end.

(** Conversion of a [double] to [int] in C (C11 6.3.1.4): the value is
    truncated toward zero; when the integral part cannot be represented in
    [int] the behaviour is undefined ([None]). *)
Definition double_to_int (x : i_float) : option Z :=
  match trunc_double x with
  | Some n => if (INT_MIN <=? n) && (n <=? INT_MAX) then Some n else None
  | None => None
  end.

(** The integer a [double] denotes, when it denotes one exactly. *)
Definition integer_value (x : i_float) : option Z :=
  match x with
  | S754_zero _ => Some 0
  | S754_finite s m e =>
      if 0 <=? e then Some (cond_Zopp s (Zpos m * 2 ^ e))
      else if Zpos m mod 2 ^ (- e) =? 0
           then Some (cond_Zopp s (Zpos m / 2 ^ (- e)))
           else None
  | S754_infinity _ | S754_nan => None
  end.

(** ** Strings

    Host strings are length-prefixed byte sequences; C strings stop at the
    first NUL byte. *)

Definition NUL : ascii := Ascii.zero.

Fixpoint c_str (s : string) : string :=
  match s with
  | EmptyString => EmptyString
  | String c r => if Ascii.eqb c NUL then EmptyString else String c (c_str r)
  end.

Definition strlen (s : string) : Z := Z.of_nat (String.length (c_str s)).

Fixpoint string_drop (n : nat) (s : string) : string :=
  match n, s with
  | O, _ => s
  | S n', EmptyString => EmptyString
  | S n', String _ r => string_drop n' r
  end.

Fixpoint string_take (n : nat) (s : string) : string :=
  match n, s with
  | O, _ => EmptyString
  | S n', EmptyString => EmptyString
  | S n', String c r => String c (string_take n' r)
  end.

Fixpoint replicate (n : nat) (c : ascii) : string :=
  match n with
  | O => EmptyString
  | S n' => String c (replicate n' c)
  end.

(** ** Host values ([struct i_val]) *)

(** Where a string's bytes live: a C literal, or a reference-counted block
    with an allocation identity. *)
Inductive storage : Type :=
| Static
| Managed (id : nat).

Inductive object_class : Type :=
| beryl_sqldb_object_class
| foreign_object_class (name : string).

#[warnings="-register-all"]
Inductive i_val : Type :=
| BERYL_NULL
| BERYL_NUMBER (x : i_float)
| BERYL_STR (st : storage) (s : string)
| BERYL_ARRAY (id : nat) (items : list i_val)
| BERYL_TABLE (id : nat) (entries : list (i_val * i_val))
| BERYL_ERR (msg : string)
| BERYL_EXT_FN (name : string)
| BERYL_OBJECT (cls : object_class) (addr : nat).

Inductive beryl_type : Type :=
| TYPE_NULL | TYPE_NUMBER | TYPE_STR | TYPE_ARRAY | TYPE_TABLE
| TYPE_ERR | TYPE_EXT_FN | TYPE_OBJECT.

Definition BERYL_TYPEOF (v : i_val) : beryl_type :=
  match v with
  | BERYL_NULL => TYPE_NULL
  | BERYL_NUMBER _ => TYPE_NUMBER
  | BERYL_STR _ _ => TYPE_STR
  | BERYL_ARRAY _ _ => TYPE_ARRAY
  | BERYL_TABLE _ _ => TYPE_TABLE
  | BERYL_ERR _ => TYPE_ERR
  | BERYL_EXT_FN _ => TYPE_EXT_FN
  | BERYL_OBJECT _ _ => TYPE_OBJECT
  end.

Definition type_eqb (a b : beryl_type) : bool :=
  match a, b with
  | TYPE_NULL, TYPE_NULL | TYPE_NUMBER, TYPE_NUMBER | TYPE_STR, TYPE_STR
  | TYPE_ARRAY, TYPE_ARRAY | TYPE_TABLE, TYPE_TABLE | TYPE_ERR, TYPE_ERR
  | TYPE_EXT_FN, TYPE_EXT_FN | TYPE_OBJECT, TYPE_OBJECT => true
  | _, _ => false
  end.

Definition BERYL_LENOF (v : i_val) : Z :=
  match v with
  | BERYL_STR _ s => Z.of_nat (String.length s)
  | BERYL_ARRAY _ l => Z.of_nat (List.length l)
  | BERYL_TABLE _ l => Z.of_nat (List.length l)
  | _ => 0
  end.

Definition beryl_get_raw_str (v : i_val) : string :=
  match v with
  | BERYL_STR _ s => s
  | _ => EmptyString
  end.

Definition beryl_as_num (v : i_val) : i_float :=
  match v with
  | BERYL_NUMBER x => x
  | _ => S754_zero false
  end.

Definition beryl_object_class_type (v : i_val) : option object_class :=
  match v with
  | BERYL_OBJECT c _ => Some c
  | _ => None
  end.

Definition beryl_as_object (v : i_val) : nat :=
  match v with
  | BERYL_OBJECT _ a => a
  | _ => O
  end.

Definition is_sqldb_class (c : option object_class) : bool :=
  match c with
  | Some beryl_sqldb_object_class => true
  | _ => false
  end.

(** The allocation a value stands for, if it is reference counted. *)
Definition managed_id (v : i_val) : option nat :=
  match v with
  | BERYL_STR (Managed id) _ => Some id
  | BERYL_ARRAY id _ => Some id
  | BERYL_TABLE id _ => Some id
  | _ => None
  end.

(** ** The two external interfaces *)

(** Handles of the engine: a connection ([sqlite3 *]) and a prepared
    statement ([sqlite3_stmt *]).  A C pointer that may be null is an
    [option]. *)
Definition conn := nat.
Definition stmt := nat.

(** The part of the SQLite API the binding calls, over an engine state [E].
    Calls that change the engine return the new state; column accessors and
    [sqlite3_errstr] only read.  [sqlite3_prepare_v2] returns the result
    code, the statement and the number of bytes of the text it consumed
    (the distance from the text to [*pzTail]). *)
Class Sqlite3 (E : Type) : Type := {
  sqlite3_open : string -> E -> (Z * option conn) * E;
  sqlite3_close : option conn -> E -> Z * E;
  sqlite3_close_v2 : option conn -> E -> Z * E;
  sqlite3_busy_timeout : option conn -> Z -> E -> Z * E;
  sqlite3_last_insert_rowid : option conn -> E -> Z;
  sqlite3_errstr : Z -> string;
  sqlite3_prepare_v2 : option conn -> string -> E -> (Z * option stmt * nat) * E;
  sqlite3_bind_text : option stmt -> Z -> string -> Z -> E -> Z * E;
  sqlite3_bind_null : option stmt -> Z -> E -> Z * E;
  sqlite3_bind_int : option stmt -> Z -> Z -> E -> Z * E;
  sqlite3_bind_double : option stmt -> Z -> i_float -> E -> Z * E;
  sqlite3_column_count : option stmt -> E -> Z;
  sqlite3_column_name : option stmt -> Z -> E -> option string;
  sqlite3_step : option stmt -> E -> Z * E;
  sqlite3_column_type : option stmt -> Z -> E -> Z;
  sqlite3_column_double : option stmt -> Z -> E -> i_float;
  sqlite3_column_bytes : option stmt -> Z -> E -> Z;
  sqlite3_column_blob : option stmt -> Z -> E -> option string;
  sqlite3_finalize : option stmt -> E -> Z * E
}.

(** What [beryl.h] fixes and the source does not show: the largest string
    or table length, the largest integer of the number type, and the
    "is an integer" test on numbers. *)
Class BerylHost : Type := {
  I_SIZE_MAX : Z;
  BERYL_NUM_MAX_INT : Z;
  sizeof_i_val : Z;
  beryl_is_integer : i_val -> bool
}.

(** ** Trace of calls leaving the binding *)

Inductive event : Type :=
| Ev_open (path : string)
| Ev_close (db : option conn)
| Ev_close_v2 (db : option conn)
| Ev_busy_timeout (db : option conn) (ms : Z)
| Ev_last_insert_rowid (db : option conn)
| Ev_prepare (db : option conn) (sql : string)
| Ev_bind_text (s : option stmt) (i : Z) (txt : string) (n : Z)
| Ev_bind_null (s : option stmt) (i : Z)
| Ev_bind_int (s : option stmt) (i : Z) (v : Z)
| Ev_bind_double (s : option stmt) (i : Z) (x : i_float)
| Ev_step (s : option stmt)
| Ev_finalize (s : option stmt)
| Ev_new (id : nat)
| Ev_talloc (id : nat)
| Ev_release (v : i_val)
| Ev_tfree (buf : option nat)
| Ev_blame (v : i_val).

(** ** The world the binding runs in *)

Record world (E : Type) : Type := mkWorld {
  engine : E;
  (** outcome of the coming host allocations, in order; once the list is
      used up every allocation succeeds *)
  heap_plan : list bool;
  (** next allocation identity *)
  next_id : nat;
  (** the [db] field of the [struct beryl_sqldb_object] at an address *)
  db_field : nat -> option conn;
  (** calls made so far, oldest first *)
  trace : list event
}.

Arguments mkWorld {E}.
Arguments engine {E}.
Arguments heap_plan {E}.
Arguments next_id {E}.
Arguments db_field {E}.
Arguments trace {E}.

(** Result of running a piece of the binding: it returns, or it runs into
    undefined behaviour of C (or a failed [assert]), or the model's loop
    budget is used up. *)
Inductive outcome (E A : Type) : Type :=
| Ret (a : A) (w : world E)
| Undefined (why : string)
| OutOfFuel.

Arguments Ret {E A}.
Arguments Undefined {E A}.
Arguments OutOfFuel {E A}.

Definition M (E A : Type) : Type := world E -> outcome E A.

Definition ret {E A} (a : A) : M E A := fun w => Ret a w.

Definition bind {E A B} (m : M E A) (k : A -> M E B) : M E B :=
  fun w =>
    match m w with
    | Ret a w' => k a w'
    | Undefined why => Undefined why
    | OutOfFuel => OutOfFuel
    end.

Definition undefined {E A} (why : string) : M E A := fun _ => Undefined why.
Definition out_of_fuel {E A} : M E A := fun _ => OutOfFuel.

Declare Scope beryl_scope.
Delimit Scope beryl_scope with beryl.
Notation "x <- m ;; k" := (bind m (fun x => k))
  (at level 100, m at next level, right associativity) : beryl_scope.
Notation "m ;; k" := (bind m (fun _ => k))
  (at level 100, right associativity) : beryl_scope.
Local Open Scope beryl_scope.

Definition log {E} (ev : event) : M E unit :=
  fun w => Ret tt (mkWorld (engine w) (heap_plan w) (next_id w) (db_field w)
                           (trace w ++ [ev])).

(** A call that changes the engine. *)
Definition engine_call {E A} (ev : event) (f : E -> A * E) : M E A :=
  fun w =>
    let '(a, e') := f (engine w) in
    Ret a (mkWorld e' (heap_plan w) (next_id w) (db_field w) (trace w ++ [ev])).

(** A call that reads the engine and is recorded. *)
Definition engine_query {E A} (ev : event) (f : E -> A) : M E A :=
  fun w =>
    Ret (f (engine w))
        (mkWorld (engine w) (heap_plan w) (next_id w) (db_field w)
                 (trace w ++ [ev])).

(** A column accessor: reads the engine, not recorded. *)
Definition engine_read {E A} (f : E -> A) : M E A :=
  fun w => Ret (f (engine w)) w.

Definition read_db {E} (obj : nat) : M E (option conn) :=
  fun w => Ret (db_field w obj) w.

Definition write_db {E} (obj : nat) (db : option conn) : M E unit :=
  fun w =>
    Ret tt (mkWorld (engine w) (heap_plan w) (next_id w)
                    (fun a => if Nat.eqb a obj then db else db_field w a)
                    (trace w)).

(** One request to the host allocator: [Some id] with a fresh identity, or
    [None] when the allocator is out of memory. *)
Definition host_alloc {E} : M E (option nat) :=
  fun w =>
    match heap_plan w with
    | false :: plan =>
        Ret None (mkWorld (engine w) plan (next_id w) (db_field w) (trace w))
    | true :: plan =>
        Ret (Some (next_id w))
            (mkWorld (engine w) plan (S (next_id w)) (db_field w) (trace w))
    | [] =>
        Ret (Some (next_id w))
            (mkWorld (engine w) [] (S (next_id w)) (db_field w) (trace w))
    end.

(** ** Services of the Beryl runtime *)

Section Runtime.
Context {E : Type}.

Definition BERYL_CONST_STR (s : string) : i_val := BERYL_STR Static s.

Definition is_type (v : i_val) (t : beryl_type) : bool :=
  type_eqb (BERYL_TYPEOF v) t.

(** Modelled from the spec: [beryl_new_string(len, src)] of the runtime
    ("String: length-prefixed byte sequence"; allocation is a service that
    may fail).  It yields [BERYL_NULL] when the allocator fails and
    otherwise a fresh string holding the first [len] bytes at [src];
    reading [len > 0] bytes from a null or shorter source is undefined. *)
Definition beryl_new_string (len : Z) (src : option string) : M E i_val :=
  a <- host_alloc ;;
  match a with
  | None => ret BERYL_NULL
  | Some id =>
      let bytes := match src with Some s => s | None => EmptyString end in
      if len <=? Z.of_nat (String.length bytes)
      then log (Ev_new id) ;;
           ret (BERYL_STR (Managed id) (string_take (Z.to_nat len) bytes))
      else undefined "beryl_new_string: read past the end of the source"
  end.

(** Modelled from the spec: [beryl_new_array(0, NULL, cap, false)], a
    fresh empty growable array, or [BERYL_NULL] when out of memory. *)
Definition beryl_new_array (cap : Z) : M E i_val :=
  a <- host_alloc ;;
  match a with
  | None => ret BERYL_NULL
  | Some id => log (Ev_new id) ;; ret (BERYL_ARRAY id [])
  end.

(** Modelled from the spec: [beryl_new_table(cap, padding)], a fresh empty
    table, or [BERYL_NULL] when out of memory. *)
Definition beryl_new_table (cap : Z) : M E i_val :=
  a <- host_alloc ;;
  match a with
  | None => ret BERYL_NULL
  | Some id => log (Ev_new id) ;; ret (BERYL_TABLE id [])
  end.

(** Modelled from the spec: [beryl_array_push(&array, val)] appends at the
    end ("Array: ordered, growable"); growing may fail, and then the array
    is unchanged and [false] is returned. *)
Definition beryl_array_push (array val : i_val) : M E (bool * i_val) :=
  a <- host_alloc ;;
  match a, array with
  | Some _, BERYL_ARRAY id items => ret (true, BERYL_ARRAY id (items ++ [val]))
  | _, _ => ret (false, array)
  end.

(** Modelled from the spec: [beryl_table_insert(&table, key, val, replace)]
    on a table with room left ("Table: ordered mapping from Host Value key
    to Host Value, insertion order preserved, keys need not be unique at
    the API"): the entry goes at the end. *)
Definition beryl_table_insert (table key val : i_val) (replace : bool) : i_val :=
  match table with
  | BERYL_TABLE id entries => BERYL_TABLE id (entries ++ [(key, val)])
  | _ => table
  end.

(** [beryl_release], [beryl_tfree], [beryl_blame_arg]: recorded. *)
Definition beryl_release (v : i_val) : M E unit := log (Ev_release v).
Definition beryl_tfree (buf : option nat) : M E unit := log (Ev_tfree buf).
Definition beryl_blame_arg (v : i_val) : M E unit := log (Ev_blame v).

(** Modelled from the spec: [beryl_talloc(size)], the scoped allocation
    service ("allocate(n) -> buffer | failure"). *)
Definition beryl_talloc (size : Z) : M E (option nat) :=
  a <- host_alloc ;;
  match a with
  | None => ret None
  | Some id => log (Ev_talloc id) ;; ret (Some id)
  end.

(** Modelled from the spec: [beryl_new_object(class)], a fresh object of
    the class, or [BERYL_NULL] when out of memory. *)
Definition beryl_new_object (cls : object_class) : M E i_val :=
  a <- host_alloc ;;
  match a with
  | None => ret BERYL_NULL
  | Some id => log (Ev_new id) ;; ret (BERYL_OBJECT cls id)
  end.

(** [for (k = 0; k < n; k++) body] with the counter starting at [i]. *)
Fixpoint for_range (i : Z) (n : nat) (body : Z -> M E unit) : M E unit :=
  match n with
  | O => ret tt
  | S n' => body i ;; for_range (i + 1) n' body
  end.

(** [array[i]] for a C array of known extent. *)
Definition array_get (a : list i_val) (i : Z) : M E i_val :=
  match nth_error a (Z.to_nat i) with
  | Some v => if 0 <=? i then ret v else undefined "array index below 0"
  | None => undefined "array index out of bounds"
  end.
End Runtime.

(** ** The binding: [beryl_sql.c] *)

Section Binding.
Context {E : Type} {SQL : Sqlite3 E} {HOST : BerylHost}.

Definition to_unsigned (n : Z) : Z := n mod UINT_MODULUS.

(** [beryl_str_to_cstr]: a NUL-terminated copy in a [beryl_talloc] buffer,
    or a null pointer. *)
Definition beryl_str_to_cstr (val : i_val) : M E (option (nat * string)) :=
  if is_type val TYPE_STR then
    let str := beryl_get_raw_str val in
    let len := BERYL_LENOF val in
    cstr <- beryl_talloc (len + 1) ;;
    match cstr with
    | None => ret None
    | Some buf => ret (Some (buf, c_str str))
    end
  else undefined "assert(BERYL_TYPEOF(val) == TYPE_STR)".

(** [beryl_sqldb_object_free] *)
Definition beryl_sqldb_object_free (obj : nat) : M E unit :=
  db <- read_db obj ;;
  _ <- engine_call (Ev_close_v2 db) (sqlite3_close_v2 db) ;;
  ret tt.

(** [blame_sql_error] *)
Definition blame_sql_error (err : Z) : M E unit :=
  let msg := sqlite3_errstr err in
  err_str <- beryl_new_string (strlen msg) (Some msg) ;;
  if is_type err_str TYPE_NULL then
    beryl_blame_arg
      (BERYL_CONST_STR
         "Unable to show error message (out of memory, unable to allocate string)")
  else
    beryl_blame_arg err_str ;;
    beryl_release err_str.

(** [bind_i_val_as_sql_param].  The integer case passes a [double] where
    [sqlite3_bind_int] takes an [int]: C converts implicitly. *)
Definition bind_i_val_as_sql_param (s : option stmt) (i : Z) (val : i_val)
  : M E Z :=
  match BERYL_TYPEOF val with
  | TYPE_STR =>
      if INT_MAX <? BERYL_LENOF val then ret SQLITE_TOOBIG
      else
        let txt := beryl_get_raw_str val in
        let n := BERYL_LENOF val in
        engine_call (Ev_bind_text s i txt n) (sqlite3_bind_text s i txt n)
  | TYPE_NULL =>
      engine_call (Ev_bind_null s i) (sqlite3_bind_null s i)
  | TYPE_NUMBER =>
      if beryl_is_integer val then
        match double_to_int (beryl_as_num val) with
        | Some v => engine_call (Ev_bind_int s i v) (sqlite3_bind_int s i v)
        | None => undefined "conversion of an out-of-range double to int"
        end
      else
        let x := beryl_as_num val in
        engine_call (Ev_bind_double s i x) (sqlite3_bind_double s i x)
  | _ =>
      engine_call (Ev_bind_text s i "Unkown" (-1))
                  (sqlite3_bind_text s i "Unkown" (-1))
  end.

(** [cstr_to_beryl_str] *)
Definition cstr_to_beryl_str (cstr : option string) : M E i_val :=
  match cstr with
  | None => ret BERYL_NULL
  | Some c =>
      let len := strlen c in
      if I_SIZE_MAX <? len then ret BERYL_NULL
      else beryl_new_string len (Some c)
  end.

(** The value of one column of the current row: the [switch] of
    [create_table_from_row].  [inl] is an early [return] of the function. *)
Definition column_value (s : option stmt) (i : Z) (table : i_val)
  : M E (i_val + i_val) :=
  ty <- engine_read (sqlite3_column_type s i) ;;
  if ty =? SQLITE_NULL then ret (inr BERYL_NULL)
  else if (ty =? SQLITE_INTEGER) || (ty =? SQLITE_FLOAT) then
    x <- engine_read (sqlite3_column_double s i) ;;
    ret (inr (BERYL_NUMBER x))
  else if (ty =? SQLITE_TEXT) || (ty =? SQLITE_BLOB) then
    len <- engine_read (sqlite3_column_bytes s i) ;;
    if I_SIZE_MAX <? to_unsigned len then
      beryl_release table ;;
      ret (inl (BERYL_ERR "Text/blob too large"))
    else
      blob <- engine_read (sqlite3_column_blob s i) ;;
      column_val <- beryl_new_string len blob ;;
      if is_type column_val TYPE_NULL then
        beryl_release table ;;
        ret (inl (BERYL_ERR "Out of memory"))
      else ret (inr column_val)
  else undefined "assert(false)".

(** The [for] loop of [create_table_from_row], from column [i] on, with
    [todo] columns left. *)
Fixpoint fill_table (s : option stmt) (column_names : list i_val)
         (i : Z) (todo : nat) (table : i_val) : M E i_val :=
  match todo with
  | O => ret table
  | S todo' =>
      cv <- column_value s i table ;;
      match cv with
      | inl err => ret err
      | inr column_val =>
          key <- array_get column_names i ;;
          fill_table s column_names (i + 1) todo'
                     (beryl_table_insert table key column_val false)
      end
  end.

(** [create_table_from_row] *)
Definition create_table_from_row (s : option stmt) (n_columns : Z)
           (column_names : list i_val) : M E i_val :=
  if I_SIZE_MAX <? to_unsigned n_columns then
    ret (BERYL_ERR "Too many columns")
  else
    table <- beryl_new_table n_columns ;;
    if is_type table TYPE_NULL then ret (BERYL_ERR "Out of memory")
    else fill_table s column_names 0 (Z.to_nat n_columns) table.

(** How a loop inside [beryl_sqldb_object_call] is left: by a [return] of
    the function, or by falling through with the rows collected so far. *)
Inductive loop_exit : Type :=
| Returned (v : i_val)
| Completed (rows : i_val).

(** [for (i = 1; i < n_args; i++)]: binds [args[i]], [args[i+1]], ...;
    the first non-zero result code stops the loop. *)
Fixpoint bind_params (s : option stmt) (i : Z) (params : list i_val)
  : M E Z :=
  match params with
  | [] => ret 0
  | val :: rest =>
      err <- bind_i_val_as_sql_param s i val ;;
      if err =? 0 then bind_params s (i + 1) rest else ret err
  end.

(** [for (i = 0; i < n_columns; i++) beryl_release(column_names[i]);] *)
Definition release_columns (n_columns : Z) (column_names : list i_val)
  : M E unit :=
  for_range 0 (Z.to_nat n_columns)
            (fun i => v <- array_get column_names i ;; beryl_release v).

(** The loop that fills [column_names], from column [i] on.  [inl i] is
    the index at which [cstr_to_beryl_str] gave [BERYL_NULL]; the array
    returned with it already holds that entry. *)
Fixpoint fill_column_names (s : option stmt) (i : Z) (todo : nat)
         (column_names : list i_val) : M E (option Z * list i_val) :=
  match todo with
  | O => ret (None, column_names)
  | S todo' =>
      column_name_str <- engine_read (sqlite3_column_name s i) ;;
      v <- cstr_to_beryl_str column_name_str ;;
      let column_names' := (column_names ++ [v])%list in
      if is_type v TYPE_NULL then ret (Some i, column_names')
      else fill_column_names s (i + 1) todo' column_names'
  end.

(** [while ((res = sqlite3_step(stmt)) != SQLITE_DONE)] *)
Fixpoint step_rows (fuel : nat) (s : option stmt) (n_columns : Z)
         (buf : nat) (column_names : list i_val) (rows : i_val)
  : M E loop_exit :=
  match fuel with
  | O => out_of_fuel
  | S fuel' =>
      res <- engine_call (Ev_step s) (sqlite3_step s) ;;
      if res =? SQLITE_DONE then ret (Completed rows)
      else if res =? SQLITE_BUSY then
        _ <- engine_call (Ev_finalize s) (sqlite3_finalize s) ;;
        beryl_release rows ;;
        release_columns n_columns column_names ;;
        beryl_tfree (Some buf) ;;
        ret (Returned (BERYL_ERR "Database is busy (timeout)"))
      else if negb (res =? SQLITE_ROW) then
        _ <- engine_call (Ev_finalize s) (sqlite3_finalize s) ;;
        beryl_release rows ;;
        release_columns n_columns column_names ;;
        beryl_tfree (Some buf) ;;
        blame_sql_error res ;;
        ret (Returned (BERYL_ERR "SQL error"))
      else
        row <- create_table_from_row s n_columns column_names ;;
        pushed <- (if is_type row TYPE_ERR then ret (row, rows)
                   else
                     r <- beryl_array_push rows row ;;
                     if fst r then ret (BERYL_NULL, snd r)
                     else ret (BERYL_ERR "Out of memory", snd r)) ;;
        let '(err, rows') := pushed in
        if is_type err TYPE_ERR then
          _ <- engine_call (Ev_finalize s) (sqlite3_finalize s) ;;
          beryl_release rows' ;;
          release_columns n_columns column_names ;;
          ret (Returned err)
        else step_rows fuel' s n_columns buf column_names rows'
  end.

(** [while (expr != expr_end)]: one statement per iteration, on the text
    not yet consumed. *)
Fixpoint run_script (fuel : nat) (obj : nat) (params : list i_val)
         (expr : string) (rows : i_val) : M E i_val :=
  match fuel with
  | O => out_of_fuel
  | S fuel' =>
      match expr with
      | EmptyString => ret rows
      | _ =>
          db <- read_db obj ;;
          p <- engine_call (Ev_prepare db expr) (sqlite3_prepare_v2 db expr) ;;
          let '(err, s, consumed) := p in
          if negb (err =? SQLITE_OK) then
            blame_sql_error err ;;
            ret (BERYL_ERR "SQL compiler error")
          else
            berr <- bind_params s 1 params ;;
            if negb (berr =? 0) then
              _ <- engine_call (Ev_finalize s) (sqlite3_finalize s) ;;
              beryl_release rows ;;
              blame_sql_error berr ;;
              ret (BERYL_ERR "SQL parameter error")
            else
              n_columns <- engine_read (sqlite3_column_count s) ;;
              column_names <- beryl_talloc (sizeof_i_val * n_columns) ;;
              match column_names with
              | None =>
                  _ <- engine_call (Ev_finalize s) (sqlite3_finalize s) ;;
                  beryl_release rows ;;
                  ret (BERYL_ERR "Out of memory")
              | Some buf =>
                  filled <- fill_column_names s 0 (Z.to_nat n_columns) [] ;;
                  match filled with
                  | (Some i, names) =>
                      for_range 0 (Z.to_nat i)
                        (fun _ => v <- array_get names i ;; beryl_release v) ;;
                      beryl_tfree (Some buf) ;;
                      _ <- engine_call (Ev_finalize s) (sqlite3_finalize s) ;;
                      beryl_release rows ;;
                      ret (BERYL_ERR "Out of memory")
                  | (None, names) =>
                      r <- step_rows fuel' s n_columns buf names rows ;;
                      match r with
                      | Returned v => ret v
                      | Completed rows' =>
                          release_columns n_columns names ;;
                          _ <- engine_call (Ev_finalize s) (sqlite3_finalize s) ;;
                          run_script fuel' obj params
                                     (string_drop consumed expr) rows'
                      end
                  end
              end
      end
  end.

(** [beryl_sqldb_object_call]: the handle used as a callable. *)
Definition beryl_sqldb_object_call (fuel : nat) (obj : nat)
           (args : list i_val) : M E i_val :=
  db <- read_db obj ;;
  match db with
  | None => ret (BERYL_ERR "Database has been closed")
  | Some _ =>
      match args with
      | [] => undefined "args[0] read with no argument"
      | arg0 :: params =>
          if negb (is_type arg0 TYPE_STR) then
            beryl_blame_arg arg0 ;;
            ret (BERYL_ERR "Expected SQL query (a string) as first argument")
          else
            let n_params := Z.of_nat (List.length params) in
            if SQLITE_LIMIT_VARIABLE_NUMBER <? n_params then
              ret (BERYL_ERR "Too many parameters")
            else
              let expr := beryl_get_raw_str arg0 in
              rows <- beryl_new_array 4 ;;
              if is_type rows TYPE_NULL then ret (BERYL_ERR "Out of memory")
              else run_script fuel obj params expr rows
      end
  end.

(** [close_callback] *)
Definition close_callback (args : list i_val) : M E i_val :=
  match args with
  | [] => undefined "args[0] read with no argument"
  | arg0 :: _ =>
      if negb (is_sqldb_class (beryl_object_class_type arg0)) then
        beryl_blame_arg arg0 ;;
        ret (BERYL_ERR "Expected database object as argument for 'close'")
      else
        let obj := beryl_as_object arg0 in
        db <- read_db obj ;;
        err <- engine_call (Ev_close db) (sqlite3_close db) ;;
        if negb (err =? SQLITE_OK) then
          ret (BERYL_ERR "Unable to close database")
        else
          write_db obj None ;;
          ret BERYL_NULL
  end.

(** [open_callback] *)
Definition open_callback (args : list i_val) : M E i_val :=
  match args with
  | [] => undefined "args[0] read with no argument"
  | arg0 :: _ =>
      if negb (is_type arg0 TYPE_STR) then
        beryl_blame_arg arg0 ;;
        ret (BERYL_ERR "Expected string path as first argument for 'sql.open'")
      else
        path <- beryl_str_to_cstr arg0 ;;
        match path with
        | None => ret (BERYL_ERR "Out of memory")
        | Some (buf, cpath) =>
            o <- engine_call (Ev_open cpath) (sqlite3_open cpath) ;;
            let '(err, db) := o in
            beryl_tfree (Some buf) ;;
            if negb (err =? 0) then
              _ <- engine_call (Ev_close db) (sqlite3_close db) ;;
              beryl_blame_arg arg0 ;;
              blame_sql_error err ;;
              ret (BERYL_ERR "Unable to open database")
            else
              _ <- engine_call (Ev_busy_timeout db 1000)
                               (sqlite3_busy_timeout db 1000) ;;
              db_obj <- beryl_new_object beryl_sqldb_object_class ;;
              if is_type db_obj TYPE_NULL then
                _ <- engine_call (Ev_close db) (sqlite3_close db) ;;
                ret (BERYL_ERR "Out of memory")
              else
                write_db (beryl_as_object db_obj) db ;;
                ret db_obj
        end
  end.

(** [get_last_insert_rowid_callback] *)
Definition get_last_insert_rowid_callback (args : list i_val) : M E i_val :=
  match args with
  | [] => undefined "args[0] read with no argument"
  | arg0 :: _ =>
      if negb (is_sqldb_class (beryl_object_class_type arg0)) then
        beryl_blame_arg arg0 ;;
        ret (BERYL_ERR "Expected database object as argument for 'close'")
      else
        let obj := beryl_as_object arg0 in
        db <- read_db obj ;;
        id <- engine_query (Ev_last_insert_rowid db)
                           (sqlite3_last_insert_rowid db) ;;
        if BERYL_NUM_MAX_INT <? id then ret (BERYL_ERR "Id out of range")
        else ret (BERYL_NUMBER (double_of_int64 id))
  end.
End Binding.

(** ** A reference engine

    A small executable engine with the documented behaviour of SQLite on a
    fixed catalogue of statements.  It is the instance on which concrete
    runs of the binding are evaluated. *)

Module Sim.

Inductive sql_value : Type :=
| V_null
| V_int (n : Z)
| V_real (x : i_float)
| V_text (s : string)
| V_blob (s : string).

(** One statement the engine knows: its text (terminator included), the
    result code of compiling it, its number of parameters, the names of
    its result columns ([None]: the engine could not allocate the name),
    and the results of its successive steps, given the bound values. *)
Record program : Type := mkProgram {
  p_text : string;
  p_code : Z;
  p_params : nat;
  p_columns : list (option string);
  p_steps : list sql_value -> list (Z * list sql_value)
}.

Record statement : Type := mkStatement {
  st_conn : conn;
  st_prog : program;
  st_bound : list sql_value;
  st_todo : option (list (Z * list sql_value));
  st_row : list sql_value
}.

Record state : Type := mkState {
  catalogue : list program;
  limit_length : Z;
  connections : list conn;
  statements : list (stmt * statement);
  next_handle : nat;
  last_rowid : Z
}.

Definition find_statement (s : option stmt) (e : state) : option statement :=
  match s with
  | None => None
  | Some h =>
      match find (fun p => Nat.eqb (fst p) h) (statements e) with
      | Some p => Some (snd p)
      | None => None
      end
  end.

Definition put_statement (h : stmt) (st : statement) (e : state) : state :=
  mkState (catalogue e) (limit_length e) (connections e)
          ((h, st) :: filter (fun p => negb (Nat.eqb (fst p) h)) (statements e))
          (next_handle e) (last_rowid e).

Fixpoint is_prefix (p s : string) : bool :=
  match p, s with
  | EmptyString, _ => true
  | String a p', String b s' => Ascii.eqb a b && is_prefix p' s'
  | String _ _, EmptyString => false
  end.

Definition is_space (c : ascii) : bool :=
  match nat_of_ascii c with
  | 32%nat | 9%nat | 10%nat | 13%nat | 12%nat => true
  | _ => false
  end.

Fixpoint all_space (s : string) : bool :=
  match s with
  | EmptyString => true
  | String c r => is_space c && all_space r
  end.

Definition open (path : string) (e : state) : (Z * option conn) * state :=
  let c := next_handle e in
  ((SQLITE_OK, Some c),
   mkState (catalogue e) (limit_length e) (c :: connections e)
           (statements e) (S c) (last_rowid e)).

(** [sqlite3_close]: a null connection is a harmless no-op; a connection
    with statements not yet finalized stays open and the call reports
    [SQLITE_BUSY]. *)
Definition close (db : option conn) (e : state) : Z * state :=
  match db with
  | None => (SQLITE_OK, e)
  | Some c =>
      if existsb (fun p => Nat.eqb (st_conn (snd p)) c) (statements e)
      then (SQLITE_BUSY, e)
      else (SQLITE_OK,
            mkState (catalogue e) (limit_length e)
                    (filter (fun c' => negb (Nat.eqb c' c)) (connections e))
                    (statements e) (next_handle e) (last_rowid e))
  end.

(** [sqlite3_close_v2]: never busy; a connection with live statements
    becomes a zombie, here simply dropped. *)
Definition close_v2 (db : option conn) (e : state) : Z * state :=
  match db with
  | None => (SQLITE_OK, e)
  | Some c =>
      (SQLITE_OK,
       mkState (catalogue e) (limit_length e)
               (filter (fun c' => negb (Nat.eqb c' c)) (connections e))
               (statements e) (next_handle e) (last_rowid e))
  end.

Definition busy_timeout (db : option conn) (ms : Z) (e : state) : Z * state :=
  match db with
  | None => (SQLITE_MISUSE, e)
  | Some _ => (SQLITE_OK, e)
  end.

(** With a null connection the engine reports misuse and answers 0 (a
    build without that check reads through the null pointer). *)
Definition last_insert_rowid (db : option conn) (e : state) : Z :=
  match db with
  | None => 0
  | Some _ => last_rowid e
  end.

Definition errstr (code : Z) : string :=
  if code =? SQLITE_OK then "not an error"
  else if code =? SQLITE_ERROR then "SQL logic error"
  else if code =? SQLITE_BUSY then "database is locked"
  else if code =? SQLITE_NOMEM then "out of memory"
  else if code =? SQLITE_TOOBIG then "string or blob too big"
  else if code =? SQLITE_MISUSE then "bad parameter or other API misuse"
  else if code =? SQLITE_RANGE then "column index out of range"
  else "unknown error".

(** [sqlite3_prepare_v2]: compiles the first statement of the text.  Text
    made of white space only compiles to no statement at all. *)
Definition prepare (db : option conn) (sql : string) (e : state)
  : (Z * option stmt * nat) * state :=
  match db with
  | None => ((SQLITE_MISUSE, None, O), e)
  | Some c =>
      match find (fun p => is_prefix (p_text p) sql) (catalogue e) with
      | Some p =>
          if p_code p =? SQLITE_OK then
            let h := next_handle e in
            let st := mkStatement c p (repeat V_null (p_params p)) None [] in
            ((SQLITE_OK, Some h, String.length (p_text p)),
             mkState (catalogue e) (limit_length e) (connections e)
                     ((h, st) :: statements e) (S h) (last_rowid e))
          else ((p_code p, None, String.length (p_text p)), e)
      | None =>
          if all_space sql then ((SQLITE_OK, None, String.length sql), e)
          else ((SQLITE_ERROR, None, O), e)
      end
  end.

Fixpoint set_nth {A} (n : nat) (x : A) (l : list A) : list A :=
  match n, l with
  | _, [] => []
  | O, _ :: r => x :: r
  | S n', y :: r => y :: set_nth n' x r
  end.

(** Binding parameter [i] (counted from 1). *)
Definition bind_value (s : option stmt) (i : Z) (v : sql_value) (e : state)
  : Z * state :=
  match s, find_statement s e with
  | Some h, Some st =>
      if (1 <=? i) && (i <=? Z.of_nat (p_params (st_prog st))) then
        (SQLITE_OK,
         put_statement h
           (mkStatement (st_conn st) (st_prog st)
                        (set_nth (Z.to_nat (i - 1)) v (st_bound st))
                        (st_todo st) (st_row st)) e)
      else (SQLITE_RANGE, e)
  | _, _ => (SQLITE_MISUSE, e)
  end.

(** [sqlite3_bind_text]: [n] bytes, or up to the first NUL when [n] is
    negative; more than the length limit is refused. *)
Definition bind_text (s : option stmt) (i : Z) (txt : string) (n : Z)
           (e : state) : Z * state :=
  let bytes := if n <? 0 then c_str txt else string_take (Z.to_nat n) txt in
  if limit_length e <? Z.of_nat (String.length bytes) then (SQLITE_TOOBIG, e)
  else bind_value s i (V_text bytes) e.

Definition bind_null (s : option stmt) (i : Z) (e : state) : Z * state :=
  bind_value s i V_null e.

Definition bind_int (s : option stmt) (i : Z) (v : Z) (e : state) : Z * state :=
  bind_value s i (V_int v) e.

(** A NaN is stored as NULL. *)
Definition bind_double (s : option stmt) (i : Z) (x : i_float) (e : state)
  : Z * state :=
  match x with
  | S754_nan => bind_value s i V_null e
  | _ => bind_value s i (V_real x) e
  end.

Definition column_count (s : option stmt) (e : state) : Z :=
  match find_statement s e with
  | Some st => Z.of_nat (List.length (p_columns (st_prog st)))
  | None => 0
  end.

Definition column_name (s : option stmt) (i : Z) (e : state) : option string :=
  match find_statement s e with
  | Some st =>
      if i <? 0 then None
      else nth (Z.to_nat i) (p_columns (st_prog st)) None
  | None => None
  end.

Definition step (s : option stmt) (e : state) : Z * state :=
  match s, find_statement s e with
  | Some h, Some st =>
      let todo := match st_todo st with
                  | Some t => t
                  | None => p_steps (st_prog st) (st_bound st)
                  end in
      match todo with
      | [] =>
          (SQLITE_DONE,
           put_statement h
             (mkStatement (st_conn st) (st_prog st) (st_bound st) (Some []) []) e)
      | (code, row) :: rest =>
          (code,
           put_statement h
             (mkStatement (st_conn st) (st_prog st) (st_bound st) (Some rest) row)
             e)
      end
  | _, _ => (SQLITE_MISUSE, e)
  end.

Definition column (s : option stmt) (i : Z) (e : state) : sql_value :=
  match find_statement s e with
  | Some st => if i <? 0 then V_null else nth (Z.to_nat i) (st_row st) V_null
  | None => V_null
  end.

Definition column_type (s : option stmt) (i : Z) (e : state) : Z :=
  match column s i e with
  | V_null => SQLITE_NULL
  | V_int _ => SQLITE_INTEGER
  | V_real _ => SQLITE_FLOAT
  | V_text _ => SQLITE_TEXT
  | V_blob _ => SQLITE_BLOB
  end.

(** Numeric reading of a column.  The conversion of text to a number is
    not modelled (the binding asks for it on numeric columns only). *)
Definition column_double (s : option stmt) (i : Z) (e : state) : i_float :=
  match column s i e with
  | V_int n => double_of_int64 n
  | V_real x => x
  | _ => S754_zero false
  end.

(** Size of a column in bytes.  The text rendering of a number is not
    modelled (the binding asks for it on text and blob columns only). *)
Definition column_bytes (s : option stmt) (i : Z) (e : state) : Z :=
  match column s i e with
  | V_text t | V_blob t => Z.of_nat (String.length t)
  | _ => 0
  end.

(** Bytes of a column; a zero-length value gives a null pointer. *)
Definition column_blob (s : option stmt) (i : Z) (e : state) : option string :=
  match column s i e with
  | V_text t | V_blob t =>
      match t with
      | EmptyString => None
      | _ => Some t
      end
  | _ => None
  end.

Definition finalize (s : option stmt) (e : state) : Z * state :=
  match s with
  | None => (SQLITE_OK, e)
  | Some h =>
      (SQLITE_OK,
       mkState (catalogue e) (limit_length e) (connections e)
               (filter (fun p => negb (Nat.eqb (fst p) h)) (statements e))
               (next_handle e) (last_rowid e))
  end.

#[global] Instance api : Sqlite3 state := {
  sqlite3_open := open;
  sqlite3_close := close;
  sqlite3_close_v2 := close_v2;
  sqlite3_busy_timeout := busy_timeout;
  sqlite3_last_insert_rowid := last_insert_rowid;
  sqlite3_errstr := errstr;
  sqlite3_prepare_v2 := prepare;
  sqlite3_bind_text := bind_text;
  sqlite3_bind_null := bind_null;
  sqlite3_bind_int := bind_int;
  sqlite3_bind_double := bind_double;
  sqlite3_column_count := column_count;
  sqlite3_column_name := column_name;
  sqlite3_step := step;
  sqlite3_column_type := column_type;
  sqlite3_column_double := column_double;
  sqlite3_column_bytes := column_bytes;
  sqlite3_column_blob := column_blob;
  sqlite3_finalize := finalize
}.

(** [SELECT ?]: one parameter, one column named after the expression, one
    row holding the bound value. *)
Definition select_param : program :=
  mkProgram "SELECT ?" SQLITE_OK 1 [Some "?"]
            (fun bound => [(SQLITE_ROW, [nth 0 bound V_null])]).

(** A statement the parser rejects. *)
Definition syntax_error : program :=
  mkProgram "SELEC 1" SQLITE_ERROR 0 [] (fun _ => []).

(** [SELECT 1;] *)
Definition select_one : program :=
  mkProgram "SELECT 1;" SQLITE_OK 0 [Some "1"]
            (fun _ => [(SQLITE_ROW, [V_int 1])]).

(** A row with an INTEGER, a TEXT and a NULL column. *)
Definition select_mixed : program :=
  mkProgram "SELECT a, b, c FROM t" SQLITE_OK 0 [Some "a"; Some "b"; Some "c"]
            (fun _ => [(SQLITE_ROW, [V_int 1; V_text "x"; V_null])]).

(** [2^54], an INTEGER beyond [2^53] that is a [double]. *)
Definition select_2_54 : program :=
  mkProgram "SELECT 18014398509481984" SQLITE_OK 0
            [Some "18014398509481984"]
            (fun _ => [(SQLITE_ROW, [V_int 18014398509481984])]).

(** [2^53 + 1], the first INTEGER that is not a [double]. *)
Definition select_2_53_1 : program :=
  mkProgram "SELECT 9007199254740993" SQLITE_OK 0
            [Some "9007199254740993"]
            (fun _ => [(SQLITE_ROW, [V_int 9007199254740993])]).

Definition initial : state :=
  mkState [select_param; select_one; select_mixed; select_2_54;
           select_2_53_1; syntax_error]
          1000000000 [] [] 1 0.

End Sim.

(** ** A reference host *)

(** Modelled from the spec: the "is integer" predicate of a Number
    ("Number: double-precision, with an is-integer predicate"): the value is
    finite and has no fractional part. *)
Definition number_is_integer (v : i_val) : bool :=
  match v with
  | BERYL_NUMBER x =>
      match integer_value x with
      | Some _ => true
      | None => false
      end
  | _ => false
  end.

(** A host with 32-bit unsigned lengths and integers exact up to [2^53]. *)
Definition host32 : BerylHost := {|
  I_SIZE_MAX := 4294967295;
  BERYL_NUM_MAX_INT := 9007199254740992;
  sizeof_i_val := 16;
  beryl_is_integer := number_is_integer
|}.

(** The state of the program before anything ran, with an allocation plan. *)
Definition fresh_world {E} (e : E) (plan : list bool) : world E :=
  mkWorld e plan 1%nat (fun _ => None) [].

(** ** Reading results and traces *)

Definition closed_error : i_val := BERYL_ERR "Database has been closed".

(** A Database Handle value: the object of class "sqldb" at an address. *)
Definition handle (obj : nat) : i_val :=
  BERYL_OBJECT beryl_sqldb_object_class obj.

Definition is_tfree_of (buf : nat) (ev : event) : bool :=
  match ev with
  | Ev_tfree (Some b) => Nat.eqb b buf
  | _ => false
  end.

Definition is_release_of (id : nat) (ev : event) : bool :=
  match ev with
  | Ev_release v =>
      match managed_id v with
      | Some i => Nat.eqb i id
      | None => false
      end
  | _ => false
  end.

Definition count (p : event -> bool) (t : list event) : nat :=
  List.length (filter p t).

(** The world with another trace. *)
Definition with_trace {E} (w : world E) (t : list event) : world E :=
  mkWorld (engine w) (heap_plan w) (next_id w) (db_field w) t.

(** The value a run returned, and the trace it left. *)
Definition returned {E A} (o : outcome E A) : option A :=
  match o with
  | Ret a _ => Some a
  | _ => None
  end.

Definition trace_of {E A} (o : outcome E A) : list event :=
  match o with
  | Ret _ w => trace w
  | _ => []
  end.

(** The bytes behind a pointer returned by the engine. *)
Definition bytes_at (p : option string) : string :=
  match p with
  | Some b => b
  | None => EmptyString
  end.

(** What row decoding makes of column [i] of the current row of [s]:
    Null for NULL, a Number holding the engine's [double] reading for
    INTEGER and FLOAT, and for TEXT and BLOB a fresh String holding the
    column's bytes. *)
Definition decoded_column {E} {SQL : Sqlite3 E} (e : E) (s : option stmt)
           (i : Z) (v : i_val) : Prop :=
  let ty := sqlite3_column_type s i e in
  (ty = SQLITE_NULL /\ v = BERYL_NULL) \/
  ((ty = SQLITE_INTEGER \/ ty = SQLITE_FLOAT) /\
   v = BERYL_NUMBER (sqlite3_column_double s i e)) \/
  ((ty = SQLITE_TEXT \/ ty = SQLITE_BLOB) /\
   let len := sqlite3_column_bytes s i e in
   let blob := bytes_at (sqlite3_column_blob s i e) in
   len <= Z.of_nat (String.length blob) /\
   exists id, v = BERYL_STR (Managed id) (string_take (Z.to_nat len) blob)).

(** ** Loading the module: [init_lib], [beryl_lib_load] *)

(** The callbacks the module exports. *)
Inductive callback : Type :=
| Cb_open
| Cb_close
| Cb_get_last_insert_rowid.

(** [struct beryl_external_fn], as the [FN] macro fills it: arity, the
    flag the macro sets to [false], name and function. *)
Record beryl_external_fn : Type := mkExternalFn {
  fn_arity : Z;
  fn_flag : bool;
  fn_name : string;
  fn_callback : callback
}.

(** The array [fns] of [init_lib]. *)
Definition fns : list beryl_external_fn :=
  [mkExternalFn 1 false "open" Cb_open;
   mkExternalFn 1 false "close" Cb_close;
   mkExternalFn 1 false "get-last-insert-rowid" Cb_get_last_insert_rowid].

(** The file-level variables [loaded] and [lib_val]; [lib_refs] counts the
    references to [lib_val] handed out through [beryl_retain]. *)
Record module_state : Type := mkModule {
  loaded : bool;
  lib_val : i_val;
  lib_refs : nat
}.

Section Module.
Context {E : Type} {SQL : Sqlite3 E} {HOST : BerylHost}.

(** The function behind an exported callback. *)
Definition run_callback (cb : callback) (args : list i_val) : M E i_val :=
  match cb with
  | Cb_open => open_callback args
  | Cb_close => close_callback args
  | Cb_get_last_insert_rowid => get_last_insert_rowid_callback args
  end.

(** [init_lib]: the value it leaves in [lib_val]. *)
Definition init_lib : M E i_val :=
  table <- beryl_new_table (Z.of_nat (List.length fns)) ;;
  if is_type table TYPE_NULL then ret (BERYL_ERR "Out of memory")
  else
    ret (fold_left
           (fun t f =>
              beryl_table_insert t (BERYL_STR Static (fn_name f))
                                 (BERYL_EXT_FN (fn_name f)) false)
           fns table).

(** [beryl_lib_load].  [ok_version] is what the macro
    [BERYL_LIB_CHECK_VERSION("0", "0")] of [beryl.h] evaluates to. *)
Definition beryl_lib_load (ok_version : bool) (g : module_state)
  : M E (i_val * module_state) :=
  if negb ok_version then
    ret (BERYL_ERR "Library `BerylSQL` only works for version 0:0:x", g)
  else
    g' <- (if negb (loaded g) then
             v <- init_lib ;;
             ret (mkModule true v (lib_refs g))
           else ret g) ;;
    ret (lib_val g', mkModule (loaded g') (lib_val g') (S (lib_refs g'))).
End Module.

(** The test each callback makes on its first argument. *)
Definition accepts (cb : callback) (v : i_val) : bool :=
  match cb with
  | Cb_open => is_type v TYPE_STR
  | Cb_close => is_sqldb_class (beryl_object_class_type v)
  | Cb_get_last_insert_rowid => is_sqldb_class (beryl_object_class_type v)
  end.

(** ** Kinds of calls in a trace *)

(** The calls that are counted: those that create, advance and destroy a
    statement, those on a connection, the releases of an Array, and those
    that allocate and free a scoped buffer. *)
Inductive call_kind : Type :=
| K_prepare
| K_finalize
| K_step
| K_connection
| K_array_release
| K_buffer_alloc
| K_buffer_free.

Definition has_kind (k : call_kind) (ev : event) : bool :=
  match k, ev with
  | K_prepare, Ev_prepare _ _ => true
  | K_finalize, Ev_finalize _ => true
  | K_step, Ev_step _ => true
  | K_connection, Ev_open _ => true
  | K_connection, Ev_close _ => true
  | K_connection, Ev_close_v2 _ => true
  | K_connection, Ev_busy_timeout _ _ => true
  | K_connection, Ev_last_insert_rowid _ => true
  | K_array_release, Ev_release (BERYL_ARRAY _ _) => true
  | K_buffer_alloc, Ev_talloc _ => true
  | K_buffer_free, Ev_tfree _ => true
  | _, _ => false
  end.

Definition tally (k : call_kind) (t : list event) : Z :=
  Z.of_nat (count (has_kind k) t).

(** Number of calls of a kind made between two worlds of one run. *)
Definition calls {E} (k : call_kind) (w w' : world E) : Z :=
  tally k (trace w') - tally k (trace w).

(** A computation is silent when it leaves the handles alone and makes no
    call of any of these kinds. *)
Definition silent_run {E A} (m : M E A) : Prop :=
  forall (w w' : world E) (a : A),
    m w = Ret a w' ->
    db_field w' = db_field w /\
    forall k, tally k (trace w') = tally k (trace w).

Definition is_array (v : i_val) : bool :=
  match v with
  | BERYL_ARRAY _ _ => true
  | _ => false
  end.

Definition no_array (l : list i_val) : bool :=
  forallb (fun v => negb (is_array v)) l.

Definition is_table (v : i_val) : bool :=
  match v with
  | BERYL_TABLE _ _ => true
  | _ => false
  end.

Definition is_release (ev : event) : bool :=
  match ev with
  | Ev_release _ => true
  | _ => false
  end.

(** The messages of the Errors a script can end with once it started. *)
Definition script_errors : list string :=
  ["SQL compiler error"; "SQL parameter error"; "Out of memory";
   "Database is busy (timeout)"; "SQL error"; "Too many columns";
   "Text/blob too large"].

(** The messages of the Errors an invocation of a handle can return. *)
Definition invocation_errors : list string :=
  "Database has been closed"
  :: "Expected SQL query (a string) as first argument"
  :: "Too many parameters"
  :: script_errors.

Definition compile_error : i_val := BERYL_ERR "SQL compiler error".





(** ** Concrete runs on the reference engine *)

Definition world_after {A} (m : M Sim.state A) (w : world Sim.state)
  : world Sim.state :=
  match m w with
  | Ret _ w' => w'
  | _ => w
  end.

Definition memory_path : i_val := BERYL_STR Static ":memory:".

(** The world after [open(":memory:")]: the handle is the object at
    address 2, holding connection 1. *)
Definition opened_world : world Sim.state :=
  world_after (open_callback [memory_path]) (fresh_world Sim.initial []).

(** The world after [open] and a successful [close] of that handle. *)
Definition closed_world : world Sim.state :=
  world_after (close_callback [handle 2]) opened_world.

(** A world where the connection of the handle still has a statement that
    was not finalized, so that the engine refuses to close it. *)
Definition busy_world : world Sim.state :=
  world_after (engine_call (Ev_prepare (Some 1%nat) "SELECT ?")
                           (Sim.prepare (Some 1%nat) "SELECT ?"))
              opened_world.

(** The world once [SELECT a, b, c FROM t] is prepared (statement 2) and
    stepped to its row. *)
Definition row_world : world Sim.state :=
  world_after (engine_call (Ev_step (Some 2%nat)) (Sim.step (Some 2%nat)))
    (world_after (engine_call (Ev_prepare (Some 1%nat) "SELECT a, b, c FROM t")
                              (Sim.prepare (Some 1%nat) "SELECT a, b, c FROM t"))
                 opened_world).

Definition row_names : list i_val :=
  [BERYL_STR (Managed 10) "a"; BERYL_STR (Managed 11) "b";
   BERYL_STR (Managed 12) "c"].

(** The world once [SELECT 9007199254740993] is prepared (statement 2) and
    stepped to its row. *)
Definition big_row_world : world Sim.state :=
  world_after (engine_call (Ev_step (Some 2%nat)) (Sim.step (Some 2%nat)))
    (world_after (engine_call (Ev_prepare (Some 1%nat) "SELECT 9007199254740993")
                              (Sim.prepare (Some 1%nat) "SELECT 9007199254740993"))
                 opened_world).

Definition row_table : i_val :=
  BERYL_TABLE 3
    [(BERYL_STR (Managed 10) "a", BERYL_NUMBER (double_of_int64 1));
     (BERYL_STR (Managed 11) "b", BERYL_STR (Managed 4) "x");
     (BERYL_STR (Managed 12) "c", BERYL_NULL)].

(** [h(sql)] on the handle of [opened_world]. *)
Definition script_run (sql : string) : M Sim.state i_val :=
  beryl_sqldb_object_call (HOST := host32) 3 2 [BERYL_STR Static sql].

(** A statement whose first step finds the database locked. *)
Definition select_locked : Sim.program :=
  Sim.mkProgram "SELECT locked" SQLITE_OK 0 [Some "a"; Some "b"]
                (fun _ => [(SQLITE_BUSY, [])]).

(** An engine that knows [SELECT locked] and [SELECT 1;], opened once;
    the handle is again the object at address 2, on connection 1. *)
Definition locked_world : world Sim.state :=
  world_after (open_callback [memory_path])
    (fresh_world
       (Sim.mkState [select_locked; Sim.select_one] 1000000000 [] [] 1 0) []).

(** The world once [SELECT locked] is prepared (statement 2) on
    [locked_world]. *)
Definition locked_stmt_world : world Sim.state :=
  world_after (engine_call (Ev_prepare (Some 1%nat) "SELECT locked")
                           (Sim.prepare (Some 1%nat) "SELECT locked"))
              locked_world.

(** * Properties *)

(** ** Monad steps *)

Ltac step_monad :=
  unfold bind, ret, log, engine_call, engine_read, engine_query, read_db,
         write_db, beryl_blame_arg, beryl_release, beryl_tfree; cbn.

(** ** The closed handle *)

Section Closed.
Context {E : Type} {SQL : Sqlite3 E} {HOST : BerylHost}.

(** Invoking a closed handle fails with the "closed" error; the world,
    the engine included, is as before. *)
Lemma call_on_closed fuel obj args (w : world E) :
  db_field w obj = None ->
  beryl_sqldb_object_call fuel obj args w = Ret closed_error w.
Proof.
  intros Hdb. unfold beryl_sqldb_object_call. step_monad.
  rewrite Hdb. reflexivity.
Qed.

(** [get-last-insert-rowid] on a closed handle hands the null connection
    to the engine and answers from what the engine returns. *)
Lemma rowid_on_closed obj rest (w : world E) :
  db_field w obj = None ->
  get_last_insert_rowid_callback (handle obj :: rest) w =
  Ret (let id := sqlite3_last_insert_rowid None (engine w) in
       if BERYL_NUM_MAX_INT <? id then BERYL_ERR "Id out of range"
       else BERYL_NUMBER (double_of_int64 id))
      (mkWorld (engine w) (heap_plan w) (next_id w) (db_field w)
               (trace w ++ [Ev_last_insert_rowid None])).
Proof.
  intros Hdb. unfold get_last_insert_rowid_callback, handle. step_monad.
  rewrite Hdb.
  destruct (BERYL_NUM_MAX_INT <? _); reflexivity.
Qed.

(** [close] on a closed handle hands the null connection to the engine's
    close and reports what the engine reports. *)
Lemma close_on_closed obj rest (w : world E) :
  db_field w obj = None ->
  close_callback (handle obj :: rest) w =
  (let '(err, e') := sqlite3_close None (engine w) in
   let t := (trace w ++ [Ev_close None])%list in
   if err =? SQLITE_OK
   then Ret BERYL_NULL
            (mkWorld e' (heap_plan w) (next_id w)
                     (fun a => if Nat.eqb a obj then None else db_field w a) t)
   else Ret (BERYL_ERR "Unable to close database")
            (mkWorld e' (heap_plan w) (next_id w) (db_field w) t)).
Proof.
  intros Hdb. unfold close_callback, handle. step_monad.
  rewrite Hdb.
  destruct (sqlite3_close None (engine w)) as [err e'].
  destruct (err =? SQLITE_OK); reflexivity.
Qed.
End Closed.

(** C2 (the part that fails).  On a handle whose stored connection is null,
    invoking the handle fails with the "closed" error and leaves the world
    untouched, but [get-last-insert-rowid] does not: it passes the null
    connection to the engine and answers from the engine's result, never
    with the "closed" error. *)
Theorem closed_handle_rowid_reaches_engine
        {E : Type} {SQL : Sqlite3 E} {HOST : BerylHost}
        (fuel obj : nat) (args rest : list i_val) (w : world E) :
  db_field w obj = None ->
  beryl_sqldb_object_call fuel obj args w = Ret closed_error w /\
  exists r w',
    get_last_insert_rowid_callback (handle obj :: rest) w = Ret r w' /\
    r <> closed_error /\
    trace w' = (trace w ++ [Ev_last_insert_rowid None])%list.
Proof.
  intros Hdb. split.
  - apply call_on_closed; assumption.
  - rewrite (rowid_on_closed obj rest w Hdb).
    eexists. eexists. split; [reflexivity|]. split; [|reflexivity].
    cbv zeta. destruct (BERYL_NUM_MAX_INT <? _); unfold closed_error; discriminate.
Qed.

Lemma closed_handle_rowid_reaches_engine_witness :
  db_field closed_world 2%nat = None /\
  (beryl_sqldb_object_call (HOST := host32) 1 2 [BERYL_STR Static "SELECT 1;"]
                           closed_world = Ret closed_error closed_world /\
   exists r w',
     get_last_insert_rowid_callback (HOST := host32) [handle 2] closed_world
     = Ret r w' /\
     r <> closed_error /\
     trace w' = (trace closed_world ++ [Ev_last_insert_rowid None])%list).
Proof.
  split; [reflexivity|].
  apply (closed_handle_rowid_reaches_engine (HOST := host32)).
  reflexivity.
Defined.

(** C3, as amended.  A second [close], on a handle whose stored connection
    is already null, does not release the native connection a second time:
    what goes to the engine's close is the null connection.  The call
    returns Null as soon as the engine reports success for it, and never the
    "closed" error. *)
Theorem second_close_reaches_engine
        {E : Type} {SQL : Sqlite3 E}
        (obj : nat) (rest : list i_val) (w : world E) :
  db_field w obj = None ->
  exists r w',
    close_callback (handle obj :: rest) w = Ret r w' /\
    r <> closed_error /\
    trace w' = (trace w ++ [Ev_close None])%list /\
    (fst (sqlite3_close None (engine w)) = SQLITE_OK -> r = BERYL_NULL).
Proof.
  intros Hdb. rewrite (close_on_closed obj rest w Hdb).
  destruct (sqlite3_close None (engine w)) as [err e'].
  destruct (err =? SQLITE_OK) eqn:Herr.
  - eexists. eexists. split; [reflexivity|].
    split; [unfold closed_error; discriminate|]. split; reflexivity.
  - eexists. eexists. split; [reflexivity|].
    split; [unfold closed_error; discriminate|]. split; [reflexivity|].
    cbn. intros ->. discriminate.
Qed.

Lemma second_close_reaches_engine_witness :
  db_field closed_world 2%nat = None /\
  exists r w',
    close_callback [handle 2] closed_world = Ret r w' /\
    r <> closed_error /\
    trace w' = (trace closed_world ++ [Ev_close None])%list /\
    (fst (sqlite3_close None (engine closed_world)) = SQLITE_OK ->
     r = BERYL_NULL).
Proof.
  split; [reflexivity|].
  apply (second_close_reaches_engine 2 [] closed_world).
  reflexivity.
Defined.

(** C3 as stated fails: after [open] and a successful [close], the second
    [close] returns Null, not an Error; the engine saw the connection once
    and then the null connection. *)
Lemma second_close_returns_null :
  returned (close_callback [handle 2] closed_world) = Some BERYL_NULL /\
  trace_of (close_callback [handle 2] closed_world)
  = [Ev_talloc 1; Ev_open ":memory:"; Ev_tfree (Some 1%nat);
     Ev_busy_timeout (Some 1%nat) 1000; Ev_new 2;
     Ev_close (Some 1%nat); Ev_close None].
Proof. split; vm_compute; reflexivity. Qed.

(** ** The parameter-count check *)

Section ParameterCount.
Context {E : Type} {SQL : Sqlite3 E} {HOST : BerylHost}.

(** More than [SQLITE_LIMIT_VARIABLE_NUMBER] parameters: the call fails
    at once; the world, trace included, is unchanged, so nothing was
    prepared. *)
Lemma too_many_parameters fuel obj c st sql params (w : world E) :
  db_field w obj = Some c ->
  SQLITE_LIMIT_VARIABLE_NUMBER < Z.of_nat (List.length params) ->
  beryl_sqldb_object_call fuel obj (BERYL_STR st sql :: params) w
  = Ret (BERYL_ERR "Too many parameters") w.
Proof.
  intros Hdb Hn. unfold beryl_sqldb_object_call. step_monad.
  rewrite Hdb. apply Z.ltb_lt in Hn. rewrite Hn. reflexivity.
Qed.

(** At most [SQLITE_LIMIT_VARIABLE_NUMBER] parameters: the check is
    passed and the call goes on to allocate the result array and run the
    script. *)
Lemma parameter_check_passed fuel obj c st sql params (w : world E) :
  db_field w obj = Some c ->
  Z.of_nat (List.length params) <= SQLITE_LIMIT_VARIABLE_NUMBER ->
  beryl_sqldb_object_call fuel obj (BERYL_STR st sql :: params) w
  = bind (beryl_new_array 4)
         (fun rows =>
            if is_type rows TYPE_NULL then ret (BERYL_ERR "Out of memory")
            else run_script fuel obj params sql rows) w.
Proof.
  intros Hdb Hn. unfold beryl_sqldb_object_call.
  unfold bind at 1. unfold read_db. rewrite Hdb. cbn [is_type BERYL_TYPEOF type_eqb negb].
  apply Z.ltb_ge in Hn. rewrite Hn. reflexivity.
Qed.
End ParameterCount.

(** C5 (the part that fails).  A call with ten parameters, a count within
    the engine's maximum number of bindable parameters, is refused with
    "Too many parameters" before anything is prepared: the bound the code
    compares with is the limit's category id, 9. *)
Theorem parameter_limit_is_category_id
        {E : Type} {SQL : Sqlite3 E} {HOST : BerylHost}
        (fuel obj : nat) (c : conn) (st : storage) (sql : string)
        (params : list i_val) (w : world E) :
  db_field w obj = Some c ->
  Z.of_nat (List.length params) = 10 ->
  Z.of_nat (List.length params) <= SQLITE_MAX_VARIABLE_NUMBER /\
  beryl_sqldb_object_call fuel obj (BERYL_STR st sql :: params) w
  = Ret (BERYL_ERR "Too many parameters") w.
Proof.
  intros Hdb Hn. split.
  - rewrite Hn. unfold SQLITE_MAX_VARIABLE_NUMBER. lia.
  - apply too_many_parameters with (c := c); [assumption|].
    rewrite Hn. unfold SQLITE_LIMIT_VARIABLE_NUMBER. lia.
Qed.

Lemma parameter_limit_is_category_id_witness :
  db_field opened_world 2%nat = Some 1%nat /\
  Z.of_nat (List.length (repeat BERYL_NULL 10)) = 10 /\
  Z.of_nat (List.length (repeat BERYL_NULL 10)) <= SQLITE_MAX_VARIABLE_NUMBER /\
  beryl_sqldb_object_call (HOST := host32) 5 2
    (BERYL_STR Static "SELECT ?" :: repeat BERYL_NULL 10) opened_world
  = Ret (BERYL_ERR "Too many parameters") opened_world.
Proof.
  split; [reflexivity|]. split; [reflexivity|].
  apply (parameter_limit_is_category_id (HOST := host32) 5 2 1%nat Static
           "SELECT ?" (repeat BERYL_NULL 10) opened_world); reflexivity.
Defined.

(** ** Parameter encoding *)

(** C6 (as the code has it).  A value that is neither a String, nor Null,
    nor a Number is bound as the text literal of the source, which is
    spelled "Unkown" and not "Unknown"; the result code is the engine's. *)
Theorem other_variant_binds_placeholder
        {E : Type} {SQL : Sqlite3 E} {HOST : BerylHost}
        (s : option stmt) (i : Z) (val : i_val) (w : world E) :
  BERYL_TYPEOF val <> TYPE_STR ->
  BERYL_TYPEOF val <> TYPE_NULL ->
  BERYL_TYPEOF val <> TYPE_NUMBER ->
  bind_i_val_as_sql_param s i val w
  = engine_call (Ev_bind_text s i "Unkown" (-1))
                (sqlite3_bind_text s i "Unkown" (-1)) w /\
  "Unkown" <> "Unknown".
Proof.
  intros Hs Hn Hf. split; [|discriminate].
  unfold bind_i_val_as_sql_param.
  destruct val; cbn in *; try reflexivity; congruence.
Qed.

Lemma other_variant_binds_placeholder_witness :
  BERYL_TYPEOF (BERYL_ARRAY 7 []) <> TYPE_STR /\
  BERYL_TYPEOF (BERYL_ARRAY 7 []) <> TYPE_NULL /\
  BERYL_TYPEOF (BERYL_ARRAY 7 []) <> TYPE_NUMBER /\
  bind_i_val_as_sql_param (HOST := host32) (Some 2%nat) 1 (BERYL_ARRAY 7 [])
                          busy_world
  = engine_call (Ev_bind_text (Some 2%nat) 1 "Unkown" (-1))
                (sqlite3_bind_text (Some 2%nat) 1 "Unkown" (-1)) busy_world /\
  "Unkown" <> "Unknown".
Proof.
  split; [discriminate|]. split; [discriminate|]. split; [discriminate|].
  apply (other_variant_binds_placeholder (HOST := host32)); discriminate.
Defined.

(** ** A close the engine refuses *)

(** C9.  On an open handle, when the engine's close reports a failure,
    [close] returns "Unable to close database" and the stored connection
    stays as it was, not null; a later invocation therefore passes the
    "closed" test and goes on to inspect its first argument. *)
Theorem failed_close_keeps_connection
        {E : Type} {SQL : Sqlite3 E} {HOST : BerylHost}
        (obj : nat) (c : conn) (rest : list i_val) (w : world E) :
  db_field w obj = Some c ->
  fst (sqlite3_close (Some c) (engine w)) <> SQLITE_OK ->
  exists w',
    close_callback (handle obj :: rest) w
    = Ret (BERYL_ERR "Unable to close database") w' /\
    db_field w' = db_field w /\
    db_field w' obj = Some c /\
    trace w' = (trace w ++ [Ev_close (Some c)])%list /\
    forall fuel arg0 params,
      is_type arg0 TYPE_STR = false ->
      returned (beryl_sqldb_object_call fuel obj (arg0 :: params) w')
      = Some (BERYL_ERR "Expected SQL query (a string) as first argument").
Proof.
  intros Hdb Herr. unfold close_callback, handle. step_monad.
  rewrite Hdb.
  destruct (sqlite3_close (Some c) (engine w)) as [err e'] eqn:Hclose.
  cbn in Herr. apply Z.eqb_neq in Herr. rewrite Herr. cbn.
  eexists. split; [reflexivity|]. cbn.
  split; [reflexivity|]. split; [assumption|]. split; [reflexivity|].
  intros fuel arg0 params Hty.
  unfold beryl_sqldb_object_call. step_monad. rewrite Hdb, Hty. reflexivity.
Qed.

Lemma failed_close_keeps_connection_witness :
  db_field busy_world 2%nat = Some 1%nat /\
  fst (sqlite3_close (Some 1%nat) (engine busy_world)) <> SQLITE_OK /\
  exists w',
    close_callback [handle 2] busy_world
    = Ret (BERYL_ERR "Unable to close database") w' /\
    db_field w' = db_field busy_world /\
    db_field w' 2%nat = Some 1%nat /\
    trace w' = (trace busy_world ++ [Ev_close (Some 1%nat)])%list /\
    forall fuel arg0 params,
      is_type arg0 TYPE_STR = false ->
      returned (beryl_sqldb_object_call (HOST := host32) fuel 2
                                        (arg0 :: params) w')
      = Some (BERYL_ERR "Expected SQL query (a string) as first argument").
Proof.
  split; [reflexivity|]. split; [vm_compute; discriminate|].
  apply (failed_close_keeps_connection (HOST := host32) 2 1%nat [] busy_world).
  - reflexivity.
  - vm_compute. discriminate.
Defined.


(** ** Row decoding *)

Section RowDecoding.
Context {E : Type} {SQL : Sqlite3 E} {HOST : BerylHost}.

Lemma host_alloc_engine (w w' : world E) a :
  host_alloc w = Ret a w' -> engine w' = engine w.
Proof.
  unfold host_alloc. destruct (heap_plan w) as [|[] plan];
    intros H; inversion H; reflexivity.
Qed.

Lemma beryl_new_string_inv len src (w w' : world E) v :
  beryl_new_string len src w = Ret v w' ->
  engine w' = engine w /\
  (v = BERYL_NULL \/
   len <= Z.of_nat (String.length (bytes_at src)) /\
   exists id, v = BERYL_STR (Managed id)
                            (string_take (Z.to_nat len) (bytes_at src))).
Proof.
  unfold beryl_new_string, bind.
  destruct (host_alloc w) as [a w1| |] eqn:Ha; try discriminate.
  apply host_alloc_engine in Ha.
  destruct a as [id|].
  - fold (bytes_at src).
    destruct (len <=? Z.of_nat (String.length (bytes_at src))) eqn:Hlen.
    + cbn. intros H. inversion H; subst. cbn. split; [assumption|].
      right. split; [apply Z.leb_le; assumption|]. exists id. reflexivity.
    + discriminate.
  - cbn. intros H. inversion H; subst. split; [assumption|]. left. reflexivity.
Qed.

Lemma beryl_new_table_inv n (w w' : world E) v :
  beryl_new_table n w = Ret v w' ->
  engine w' = engine w /\ (v = BERYL_NULL \/ exists id, v = BERYL_TABLE id []).
Proof.
  unfold beryl_new_table, bind.
  destruct (host_alloc w) as [a w1| |] eqn:Ha; try discriminate.
  apply host_alloc_engine in Ha.
  destruct a as [id|]; cbn; intros H; inversion H; subst; cbn.
  - split; [assumption|]. right. exists id. reflexivity.
  - split; [assumption|]. left. reflexivity.
Qed.

(** One column: either the function returns an Error, or the column value
    is the decoding of the column; the engine is only read. *)
Lemma column_value_inv s i table (w w' : world E) r :
  column_value s i table w = Ret r w' ->
  engine w' = engine w /\
  match r with
  | inl err => is_type err TYPE_ERR = true
  | inr v => decoded_column (engine w) s i v
  end.
Proof.
  unfold column_value, decoded_column. unfold bind at 1. unfold engine_read at 1.
  destruct (sqlite3_column_type s i (engine w) =? SQLITE_NULL) eqn:Hnull.
  { intros H. inversion H; subst. split; [reflexivity|].
    left. split; [apply Z.eqb_eq; assumption|reflexivity]. }
  destruct ((sqlite3_column_type s i (engine w) =? SQLITE_INTEGER)
            || (sqlite3_column_type s i (engine w) =? SQLITE_FLOAT)) eqn:Hnum.
  { cbn. intros H. inversion H; subst. split; [reflexivity|].
    right. left. split; [|reflexivity].
    apply orb_true_iff in Hnum. rewrite !Z.eqb_eq in Hnum. assumption. }
  destruct ((sqlite3_column_type s i (engine w) =? SQLITE_TEXT)
            || (sqlite3_column_type s i (engine w) =? SQLITE_BLOB)) eqn:Htxt;
    [|discriminate].
  apply orb_true_iff in Htxt. rewrite !Z.eqb_eq in Htxt.
  unfold bind at 1. unfold engine_read at 1.
  destruct (I_SIZE_MAX <? to_unsigned (sqlite3_column_bytes s i (engine w))).
  { cbn. intros H. inversion H; subst. split; reflexivity. }
  unfold bind at 1. unfold engine_read at 1. unfold bind at 1.
  destruct (beryl_new_string _ _ w) as [v w1| |] eqn:Hnew; try discriminate.
  apply beryl_new_string_inv in Hnew. destruct Hnew as [He Hv].
  destruct Hv as [-> | [Hlen [id ->]]]; cbn; intros H; inversion H; subst; cbn.
  - split; [assumption|reflexivity].
  - split; [assumption|]. right. right. split; [assumption|].
    split; [assumption|]. exists id. reflexivity.
Qed.

Lemma array_get_inv (a : list i_val) i (w w' : world E) v :
  array_get a i w = Ret v w' ->
  w' = w /\ 0 <= i /\ nth_error a (Z.to_nat i) = Some v.
Proof.
  unfold array_get. destruct (nth_error a (Z.to_nat i)) as [x|]; [|discriminate].
  destruct (0 <=? i) eqn:Hi; [|discriminate].
  cbn. intros H. inversion H; subst.
  split; [reflexivity|]. split; [apply Z.leb_le; assumption|reflexivity].
Qed.

Lemma firstn_skipn_cons {A} (l : list A) (n k : nat) (x : A) :
  nth_error l n = Some x ->
  firstn (S k) (skipn n l) = x :: firstn k (skipn (S n) l).
Proof.
  revert n. induction l as [|y l IH]; intros [|n] H; cbn in *;
    try discriminate.
  - inversion H; subst. reflexivity.
  - apply IH. assumption.
Qed.

(** The loop of [create_table_from_row]: when it ends with something
    other than an Error, [todo] entries were appended, keyed by the next
    [todo] column names in order, each holding its column's decoding. *)
Lemma fill_table_inv s names todo :
  forall i id acc (w w' : world E) v,
    0 <= i ->
    fill_table s names i todo (BERYL_TABLE id acc) w = Ret v w' ->
    is_type v TYPE_ERR = false ->
    engine w' = engine w /\
    exists new,
      v = BERYL_TABLE id (acc ++ new) /\
      List.length new = todo /\
      map fst new = firstn todo (skipn (Z.to_nat i) names) /\
      forall k key val,
        nth_error new k = Some (key, val) ->
        decoded_column (engine w) s (i + Z.of_nat k) val.
Proof.
  induction todo as [|todo IH]; intros i id acc w w' v Hi Hrun Hok.
  - cbn in Hrun. inversion Hrun; subst. split; [reflexivity|].
    exists []. rewrite app_nil_r. repeat split; try reflexivity.
    intros [|k] key val Hk; discriminate.
  - cbn [fill_table] in Hrun. unfold bind at 1 in Hrun.
    destruct (column_value s i (BERYL_TABLE id acc) w) as [r w1| |] eqn:Hcol;
      try discriminate.
    apply column_value_inv in Hcol. destruct Hcol as [He1 Hr].
    destruct r as [err|cv].
    + cbn in Hrun. inversion Hrun; subst. congruence.
    + unfold bind at 1 in Hrun.
      destruct (array_get names i w1) as [key w2| |] eqn:Hget; try discriminate.
      apply array_get_inv in Hget. destruct Hget as [-> [_ Hkey]].
      cbn [beryl_table_insert] in Hrun.
      apply IH in Hrun; [|lia|assumption].
      destruct Hrun as [He2 [new [-> [Hlen [Hkeys Hvals]]]]].
      split; [congruence|].
      exists ((key, cv) :: new). rewrite <- app_assoc. cbn [app].
      split; [reflexivity|]. split; [cbn; congruence|]. split.
      * cbn [map fst]. rewrite (firstn_skipn_cons names (Z.to_nat i) todo key Hkey).
        f_equal. rewrite Hkeys. f_equal. f_equal. lia.
      * intros [|k] key' val' Hk; cbn in Hk.
        -- inversion Hk; subst. rewrite Z.add_0_r. assumption.
        -- apply Hvals in Hk. rewrite He1 in Hk.
           replace (i + Z.of_nat (S k)) with (i + 1 + Z.of_nat k) by lia.
           assumption.
Qed.
End RowDecoding.

(** C7.  When [create_table_from_row] decodes a row of [n_columns] columns
    without an Error, the result is a Table with exactly [n_columns]
    entries; the keys are the first [n_columns] column descriptors, in
    column order; the value at position [i] is the decoding of column [i]:
    Null for NULL, a Number for INTEGER and FLOAT, a fresh copy of the bytes
    for TEXT and BLOB. *)
Theorem row_table_entries
        {E : Type} {SQL : Sqlite3 E} {HOST : BerylHost}
        (s : option stmt) (n_columns : Z) (column_names : list i_val)
        (w w' : world E) (v : i_val) :
  0 <= n_columns ->
  create_table_from_row s n_columns column_names w = Ret v w' ->
  is_type v TYPE_ERR = false ->
  exists id entries,
    v = BERYL_TABLE id entries /\
    Z.of_nat (List.length entries) = n_columns /\
    map fst entries = firstn (Z.to_nat n_columns) column_names /\
    forall i key val,
      nth_error entries i = Some (key, val) ->
      decoded_column (engine w) s (Z.of_nat i) val.
Proof.
  intros Hn Hrun Hok. unfold create_table_from_row in Hrun.
  destruct (I_SIZE_MAX <? to_unsigned n_columns).
  { inversion Hrun; subst. discriminate. }
  unfold bind at 1 in Hrun.
  destruct (beryl_new_table n_columns w) as [t w1| |] eqn:Hnew; try discriminate.
  apply beryl_new_table_inv in Hnew. destruct Hnew as [He [-> | [id ->]]].
  { cbn in Hrun. inversion Hrun; subst. discriminate. }
  cbn [is_type BERYL_TYPEOF type_eqb] in Hrun.
  apply fill_table_inv in Hrun; [|lia|assumption].
  destruct Hrun as [_ [new [-> [Hlen [Hkeys Hvals]]]]].
  exists id, new. cbn [app]. split; [reflexivity|].
  split; [lia|]. split; [exact Hkeys|].
  intros i key val Hi. apply Hvals in Hi. rewrite He in Hi. exact Hi.
Qed.


(** ** Integers and doubles *)

Lemma digits2_pos_bounds (p : positive) :
  2 ^ (Zpos (digits2_pos p) - 1) <= Zpos p < 2 ^ Zpos (digits2_pos p).
Proof.
  induction p as [p IH|p IH|]; cbn [digits2_pos].
  - rewrite Pos2Z.inj_succ.
    replace (Z.succ (Zpos (digits2_pos p)) - 1) with (Z.succ (Zpos (digits2_pos p) - 1)) by lia.
    rewrite !Z.pow_succ_r by lia. lia.
  - rewrite Pos2Z.inj_succ.
    replace (Z.succ (Zpos (digits2_pos p)) - 1) with (Z.succ (Zpos (digits2_pos p) - 1)) by lia.
    rewrite !Z.pow_succ_r by lia. lia.
  - cbn. lia.
Qed.

Lemma iter_xO_value (p q : positive) :
  Zpos (Pos.iter xO p q) = Zpos p * 2 ^ Zpos q.
Proof.
  induction q as [|q IH] using Pos.peano_ind.
  - cbn. lia.
  - rewrite Pos.iter_succ, Pos2Z.inj_succ, Z.pow_succ_r by lia.
    rewrite Pos2Z.inj_xO, IH. lia.
Qed.

Lemma iter_xO_digits (p q : positive) :
  digits2_pos (Pos.iter xO p q) = (digits2_pos p + q)%positive.
Proof.
  induction q as [|q IH] using Pos.peano_ind.
  - cbn. lia.
  - rewrite Pos.iter_succ. cbn [digits2_pos]. rewrite IH. lia.
Qed.

Lemma binary_round_aux_exact sx (m : positive) (e : Z) :
  Zpos (digits2_pos m) = prec64 ->
  -1074 <= e <= 971 ->
  binary_round_aux prec64 emax64 sx (Zpos m) e loc_Exact = S754_finite sx m e.
Proof.
  intros Hd He. unfold binary_round_aux.
  assert (Hshr : shr_fexp prec64 emax64 (Zpos m) e loc_Exact
                 = (Build_shr_record (Zpos m) false false, e)).
  { unfold shr_fexp, shr. cbn [Zdigits2 shr_record_of_loc]. rewrite Hd.
    unfold fexp, emin, prec64, emax64.
    replace (Z.max (53 + e - 53) (3 - 1024 - 53) - e) with 0 by lia.
    reflexivity. }
  rewrite Hshr. cbn [shr_m loc_of_shr_record round_nearest_even].
  rewrite Hshr. cbn [shr_m].
  unfold emax64, prec64.
  destruct (e <=? 1024 - 53) eqn:Hle; [reflexivity|].
  apply Z.leb_gt in Hle. lia.
Qed.

Lemma binary_round_small sx (p : positive) :
  Zpos p < 2 ^ 53 ->
  integer_value (binary_round prec64 emax64 sx p 0) = Some (cond_Zopp sx (Zpos p)).
Proof.
  intros Hp. pose proof (digits2_pos_bounds p) as [Hlo _].
  assert (Hd : Zpos (digits2_pos p) <= 53).
  { destruct (Z_le_gt_dec (Zpos (digits2_pos p)) 53) as [H|H]; [assumption|].
    assert (2 ^ 53 <= 2 ^ (Zpos (digits2_pos p) - 1))
      by (apply Z.pow_le_mono_r; lia).
    lia. }
  unfold binary_round, shl_align.
  assert (Hf : fexp prec64 emax64 (Zpos (digits2_pos p) + 0)
               = Zpos (digits2_pos p) - 53).
  { unfold fexp, emin, prec64, emax64. lia. }
  rewrite Hf.
  destruct (Zpos (digits2_pos p) - 53 - 0) as [|q|q] eqn:Hq; try lia.
  - (* 53 digits already *)
    rewrite binary_round_aux_exact by (unfold prec64; lia).
    unfold integer_value. cbn [Z.leb Z.compare]. rewrite Z.pow_0_r, Z.mul_1_r. reflexivity.
  - (* shifted left by q *)
    rewrite binary_round_aux_exact.
    + unfold integer_value.
      destruct (0 <=? Zpos (digits2_pos p) - 53) eqn:Hs; [apply Z.leb_le in Hs; lia|].
      replace (- (Zpos (digits2_pos p) - 53)) with (Zpos q) by lia.
      rewrite iter_xO_value.
      rewrite Z.mod_mul by (apply Z.pow_nonzero; lia).
      cbn [Z.eqb]. rewrite Z.div_mul by (apply Z.pow_nonzero; lia).
      reflexivity.
    + rewrite iter_xO_digits. unfold prec64. lia.
    + lia.
Qed.

Lemma double_of_int64_exact (v : Z) :
  Z.abs v <= 2 ^ 53 ->
  integer_value (double_of_int64 v) = Some v.
Proof.
  intros Hv. unfold double_of_int64, binary_normalize.
  destruct v as [|p|p].
  - reflexivity.
  - destruct (Z.eq_dec (Zpos p) (2 ^ 53)) as [Heq|Hne].
    + inversion Heq. reflexivity.
    + apply (binary_round_small false). cbn in Hv. lia.
  - destruct (Z.eq_dec (Zpos p) (2 ^ 53)) as [Heq|Hne].
    + inversion Heq. reflexivity.
    + apply (binary_round_small true). cbn in Hv. lia.
Qed.

Lemma shr_fexp_exponent m e l :
  e <= snd (shr_fexp prec64 emax64 m e l).
Proof.
  unfold shr_fexp, shr.
  destruct (fexp prec64 emax64 (Zdigits2 m + e) - e) as [|q|q]; cbn [snd]; lia.
Qed.

Lemma integer_value_even sx (m : positive) (e n : Z) :
  1 <= e ->
  integer_value (S754_finite sx m e) = Some n -> Z.even n = true.
Proof.
  intros He H.
  assert (Hn : n = cond_Zopp sx (Zpos m * 2 ^ e)).
  { unfold integer_value in H.
    destruct (0 <=? e) eqn:H0; [congruence|apply Z.leb_gt in H0; lia]. }
  rewrite Hn. clear H Hn.
  replace e with (Z.succ (e - 1)) by lia.
  rewrite Z.pow_succ_r by lia.
  destruct sx; cbn [cond_Zopp]; rewrite ?Z.even_opp, Z.even_mul, Z.even_mul;
    change (Z.even 2) with true; cbn [orb]; apply orb_true_r.
Qed.

Lemma binary_round_large_even sx (p : positive) n :
  2 ^ 53 < Zpos p ->
  integer_value (binary_round prec64 emax64 sx p 0) = Some n ->
  Z.even n = true.
Proof.
  intros Hp. pose proof (digits2_pos_bounds p) as [_ Hhi].
  assert (Hd : 54 <= Zpos (digits2_pos p)).
  { destruct (Z_le_gt_dec 54 (Zpos (digits2_pos p))) as [H|H]; [assumption|].
    assert (2 ^ Zpos (digits2_pos p) <= 2 ^ 53)
      by (apply Z.pow_le_mono_r; lia).
    lia. }
  unfold binary_round, shl_align.
  assert (Hf : fexp prec64 emax64 (Zpos (digits2_pos p) + 0)
               = Zpos (digits2_pos p) - 53).
  { unfold fexp, emin, prec64, emax64. lia. }
  rewrite Hf.
  destruct (Zpos (digits2_pos p) - 53 - 0) as [|q|q] eqn:Hq; try lia.
  unfold binary_round_aux.
  assert (Hs : shr_fexp prec64 emax64 (Zpos p) 0 loc_Exact
               = (iter_pos shr_1 q (Build_shr_record (Zpos p) false false),
                  Zpos q)).
  { unfold shr_fexp, shr. cbn [Zdigits2 shr_record_of_loc].
    rewrite Hf. replace (Zpos (digits2_pos p) - 53 - 0) with (Zpos q) by lia.
    reflexivity. }
  rewrite Hs.
  set (mrs' := iter_pos shr_1 q _).
  pose proof (shr_fexp_exponent
                (round_nearest_even (shr_m mrs') (loc_of_shr_record mrs'))
                (Zpos q) loc_Exact) as H2.
  destruct (shr_fexp prec64 emax64 _ (Zpos q) loc_Exact) as [mrs'' e''].
  cbn [snd] in H2.
  destruct (shr_m mrs'') as [|m|m].
  - cbn. intros H. inversion H. reflexivity.
  - destruct (e'' <=? emax64 - prec64).
    + apply integer_value_even. lia.
    + discriminate.
  - discriminate.
Qed.

Lemma double_of_int64_odd (v : Z) :
  2 ^ 53 < Z.abs v -> Z.odd v = true ->
  integer_value (double_of_int64 v) <> Some v.
Proof.
  intros Hv Hodd Heq. unfold double_of_int64, binary_normalize in Heq.
  assert (Z.even v = true) as Hev.
  { destruct v as [|p|p]; [cbn in Hv; lia| |];
      eapply binary_round_large_even; try exact Heq; cbn in Hv; lia. }
  rewrite <- Z.negb_even, Hev in Hodd. discriminate.
Qed.

Lemma integer_value_trunc (x : i_float) (n : Z) :
  integer_value x = Some n -> trunc_double x = Some n.
Proof.
  destruct x as [sx|sx| |sx m e]; cbn; try congruence.
  destruct (0 <=? e); [congruence|].
  destruct (Zpos m mod 2 ^ (- e) =? 0); congruence.
Qed.

(** An integer-flagged Number within the range of [int] is bound with
    [sqlite3_bind_int], at its own value. *)
Lemma integer_bind_in_range
      {E : Type} {SQL : Sqlite3 E} {HOST : BerylHost}
      (s : option stmt) (i : Z) (x : i_float) (n : Z) (w : world E) :
  beryl_is_integer (BERYL_NUMBER x) = true ->
  integer_value x = Some n ->
  INT_MIN <= n <= INT_MAX ->
  bind_i_val_as_sql_param s i (BERYL_NUMBER x) w
  = engine_call (Ev_bind_int s i n) (sqlite3_bind_int s i n) w.
Proof.
  intros Hint Hval Hn. unfold bind_i_val_as_sql_param.
  cbn [BERYL_TYPEOF beryl_as_num]. rewrite Hint.
  unfold double_to_int. rewrite (integer_value_trunc x n Hval).
  destruct (INT_MIN <=? n) eqn:H1; [|apply Z.leb_gt in H1; lia].
  destruct (n <=? INT_MAX) eqn:H2; [|apply Z.leb_gt in H2; lia].
  reflexivity.
Qed.

(** C4 (the part that fails).  An integer-flagged Number whose value does
    not fit the C type [int] is handed to [sqlite3_bind_int], which takes an
    [int]: the conversion is undefined, so nothing guarantees that the same
    integer is stored and read back. *)
Theorem integer_bind_narrows_to_int
        {E : Type} {SQL : Sqlite3 E} {HOST : BerylHost}
        (s : option stmt) (i : Z) (x : i_float) (n : Z) (w : world E) :
  beryl_is_integer (BERYL_NUMBER x) = true ->
  integer_value x = Some n ->
  INT_MAX < n \/ n < INT_MIN ->
  bind_i_val_as_sql_param s i (BERYL_NUMBER x) w
  = Undefined "conversion of an out-of-range double to int".
Proof.
  intros Hint Hval Hn. unfold bind_i_val_as_sql_param.
  cbn [BERYL_TYPEOF beryl_as_num]. rewrite Hint.
  unfold double_to_int. rewrite (integer_value_trunc x n Hval).
  destruct Hn as [Hn|Hn].
  - destruct (n <=? INT_MAX) eqn:H2; [apply Z.leb_le in H2; lia|].
    rewrite andb_false_r. reflexivity.
  - destruct (INT_MIN <=? n) eqn:H1; [apply Z.leb_le in H1; lia|].
    reflexivity.
Qed.

Lemma integer_bind_narrows_to_int_witness :
  beryl_is_integer (BerylHost := host32)
                   (BERYL_NUMBER (double_of_int64 2147483648)) = true /\
  integer_value (double_of_int64 2147483648) = Some 2147483648 /\
  (INT_MAX < 2147483648 \/ 2147483648 < INT_MIN) /\
  bind_i_val_as_sql_param (HOST := host32) (Some 2%nat) 1
    (BERYL_NUMBER (double_of_int64 2147483648)) busy_world
  = Undefined "conversion of an out-of-range double to int".
Proof.
  split; [reflexivity|]. split; [reflexivity|].
  split; [left; reflexivity|].
  apply (integer_bind_narrows_to_int (HOST := host32) (Some 2%nat) 1
           (double_of_int64 2147483648) 2147483648 busy_world).
  - reflexivity.
  - reflexivity.
  - left. reflexivity.
Defined.

(** The whole call [h("SELECT ?", 2147483648)] on the reference engine. *)
Example select_2147483648 :
  beryl_sqldb_object_call (HOST := host32) 3 2
    [BERYL_STR Static "SELECT ?"; BERYL_NUMBER (double_of_int64 2147483648)]
    opened_world
  = Undefined "conversion of an out-of-range double to int".
Proof. vm_compute. reflexivity. Qed.

(** The whole call [h("SELECT ?", 5)] on the reference engine. *)
Example select_5 :
  returned (beryl_sqldb_object_call (HOST := host32) 3 2
              [BERYL_STR Static "SELECT ?"; BERYL_NUMBER (double_of_int64 5)]
              opened_world)
  = Some (BERYL_ARRAY 3
            [BERYL_TABLE 6 [(BERYL_STR (Managed 5) "?",
                             BERYL_NUMBER (double_of_int64 5))]]).
Proof. vm_compute. reflexivity. Qed.

(** C10, as amended.  An INTEGER column is decoded through the engine's
    [double] reading.  When the column holds the 64-bit integer [v], read
    as C converts it, the Host Number is [(double) v]: exactly [v] when the
    magnitude of [v] is at most [2^53], and never [v] when that magnitude is
    larger and [v] is odd. *)
Theorem integer_column_read_as_double
        {E : Type} {SQL : Sqlite3 E} {HOST : BerylHost}
        (s : option stmt) (i : Z) (table : i_val) (v : Z) (w : world E) :
  sqlite3_column_type s i (engine w) = SQLITE_INTEGER ->
  sqlite3_column_double s i (engine w) = double_of_int64 v ->
  column_value s i table w = Ret (inr (BERYL_NUMBER (double_of_int64 v))) w /\
  (Z.abs v <= 2 ^ 53 -> integer_value (double_of_int64 v) = Some v) /\
  (2 ^ 53 < Z.abs v -> Z.odd v = true ->
   integer_value (double_of_int64 v) <> Some v).
Proof.
  intros Hty Hdbl. split; [|split].
  - unfold column_value, bind, engine_read. rewrite Hty.
    change (SQLITE_INTEGER =? SQLITE_NULL) with false.
    change (SQLITE_INTEGER =? SQLITE_INTEGER) with true.
    cbn [orb]. rewrite Hdbl. reflexivity.
  - apply double_of_int64_exact.
  - apply double_of_int64_odd.
Qed.

Lemma integer_column_read_as_double_witness :
  sqlite3_column_type (Some 2%nat) 0 (engine big_row_world) = SQLITE_INTEGER /\
  sqlite3_column_double (Some 2%nat) 0 (engine big_row_world)
  = double_of_int64 9007199254740993 /\
  column_value (HOST := host32) (Some 2%nat) 0 (BERYL_TABLE 6 []) big_row_world
  = Ret (inr (BERYL_NUMBER (double_of_int64 9007199254740993))) big_row_world /\
  (Z.abs 9007199254740993 <= 2 ^ 53 ->
   integer_value (double_of_int64 9007199254740993) = Some 9007199254740993) /\
  (2 ^ 53 < Z.abs 9007199254740993 -> Z.odd 9007199254740993 = true ->
   integer_value (double_of_int64 9007199254740993) <> Some 9007199254740993).
Proof.
  split; [reflexivity|]. split; [reflexivity|].
  apply (integer_column_read_as_double (HOST := host32) (Some 2%nat) 0
           (BERYL_TABLE 6 []) 9007199254740993 big_row_world); reflexivity.
Defined.

(** C10 as stated fails: [2^54] exceeds [2^53] in magnitude and a query
    returning it as an INTEGER column gives a Host Number that is exactly
    [2^54]. *)
Lemma integer_2_54_returned_exactly :
  2 ^ 53 < Z.abs 18014398509481984 /\
  exists x,
    returned (beryl_sqldb_object_call (HOST := host32) 3 2
                [BERYL_STR Static "SELECT 18014398509481984"] opened_world)
    = Some (BERYL_ARRAY 3
              [BERYL_TABLE 6 [(BERYL_STR (Managed 5) "18014398509481984",
                               BERYL_NUMBER x)]]) /\
    integer_value x = Some 18014398509481984.
Proof.
  split; [reflexivity|].
  exists (double_of_int64 18014398509481984).
  split; vm_compute; reflexivity.
Qed.

(** [2^53 + 1] comes back as [2^53]. *)
Example integer_2_53_1_rounded :
  exists x,
    returned (beryl_sqldb_object_call (HOST := host32) 3 2
                [BERYL_STR Static "SELECT 9007199254740993"] opened_world)
    = Some (BERYL_ARRAY 3
              [BERYL_TABLE 6 [(BERYL_STR (Managed 5) "9007199254740993",
                               BERYL_NUMBER x)]]) /\
    integer_value x = Some 9007199254740992.
Proof.
  exists (double_of_int64 9007199254740993).
  split; vm_compute; reflexivity.
Qed.

Lemma row_table_entries_witness :
  0 <= 3 /\
  create_table_from_row (HOST := host32) (Some 2%nat) 3 row_names row_world
  = Ret row_table
        (world_after (create_table_from_row (HOST := host32) (Some 2%nat) 3
                                            row_names)
                     row_world) /\
  is_type row_table TYPE_ERR = false /\
  exists id entries,
    row_table = BERYL_TABLE id entries /\
    Z.of_nat (List.length entries) = 3 /\
    map fst entries = firstn (Z.to_nat 3) row_names /\
    forall i key val,
      nth_error entries i = Some (key, val) ->
      decoded_column (engine row_world) (Some 2%nat) (Z.of_nat i) val.
Proof.
  split; [lia|]. split; [vm_compute; reflexivity|]. split; [reflexivity|].
  apply (row_table_entries (HOST := host32) (Some 2%nat) 3 row_names row_world
           (world_after (create_table_from_row (HOST := host32) (Some 2%nat) 3
                                               row_names) row_world)
           row_table).
  - lia.
  - vm_compute. reflexivity.
  - reflexivity.
Defined.

(** ** Cleanup on the failure paths *)

Lemma c_str_length (s : string) :
  (String.length (c_str s) <= String.length s)%nat.
Proof.
  induction s as [|c r IH]; cbn; [lia|].
  destruct (Ascii.eqb c NUL); cbn; lia.
Qed.

Section Cleanup.
Context {E : Type} {SQL : Sqlite3 E} {HOST : BerylHost}.

(** [blame_sql_error] always returns; it leaves engine and handles alone.
    It blames either a static text, or a message string that it allocates
    and then releases. *)
Lemma blame_sql_error_effect err (w : world E) :
  exists w' evs,
    blame_sql_error err w = Ret tt w' /\
    engine w' = engine w /\
    db_field w' = db_field w /\
    trace w' = (trace w ++ evs)%list /\
    ((exists txt, evs = [Ev_blame (BERYL_CONST_STR txt)]) \/
     (exists msg,
        evs = [Ev_new (next_id w);
               Ev_blame (BERYL_STR (Managed (next_id w)) msg);
               Ev_release (BERYL_STR (Managed (next_id w)) msg)])).
Proof.
  unfold blame_sql_error, beryl_new_string, bind.
  assert (Hlen : (strlen (sqlite3_errstr err)
                  <=? Z.of_nat (String.length (sqlite3_errstr err))) = true).
  { apply Z.leb_le. unfold strlen. apply Nat2Z.inj_le. apply c_str_length. }
  unfold host_alloc.
  destruct (heap_plan w) as [|[] plan]; rewrite ?Hlen; cbn.
  - eexists. eexists. split; [reflexivity|]. cbn.
    split; [reflexivity|]. split; [reflexivity|].
    rewrite <- !app_assoc. split; [reflexivity|].
    right. eexists. reflexivity.
  - eexists. eexists. split; [reflexivity|]. cbn.
    split; [reflexivity|]. split; [reflexivity|].
    rewrite <- !app_assoc. split; [reflexivity|].
    right. eexists. reflexivity.
  - eexists. eexists. split; [reflexivity|]. cbn.
    split; [reflexivity|]. split; [reflexivity|].
    split; [reflexivity|].
    left. eexists. reflexivity.
Qed.

(** The compile-error exit of the statement loop: the function returns
    "SQL compiler error"; the engine was asked to prepare, the error was
    blamed, and nothing releases the Result Collection the loop holds. *)
Lemma run_script_compile_error fuel obj c params expr id items (w : world E) :
  db_field w obj = Some c ->
  expr <> EmptyString ->
  fst (fst (fst (sqlite3_prepare_v2 (Some c) expr (engine w)))) <> SQLITE_OK ->
  (id < next_id w)%nat ->
  exists w' evs,
    run_script (S fuel) obj params expr (BERYL_ARRAY id items) w
    = Ret (BERYL_ERR "SQL compiler error") w' /\
    trace w' = (trace w ++ Ev_prepare (Some c) expr :: evs)%list /\
    count (is_release_of id) evs = O.
Proof.
  intros Hdb Hexpr Herr Hid.
  destruct expr as [|ch rest]; [contradiction|].
  cbn [run_script]. unfold bind at 1. unfold read_db. rewrite Hdb.
  unfold bind at 1. unfold engine_call at 1.
  destruct (sqlite3_prepare_v2 (Some c) (String ch rest) (engine w))
    as [[[err s] consumed] e'].
  cbn [fst] in Herr. apply Z.eqb_neq in Herr. rewrite Herr. cbn [negb].
  unfold bind at 1.
  destruct (blame_sql_error_effect err
              (mkWorld e' (heap_plan w) (next_id w) (db_field w)
                       (trace w ++ [Ev_prepare (Some c) (String ch rest)])))
    as [w' [evs [Hrun [_ [_ [Htr Hevs]]]]]].
  rewrite Hrun. exists w', evs. split; [reflexivity|].
  split.
  - rewrite Htr. cbn [trace]. rewrite <- app_assoc. reflexivity.
  - cbn [next_id] in Hevs.
    destruct Hevs as [[txt ->] | [msg ->]]; cbn; [reflexivity|].
    destruct (Nat.eqb_spec (next_id w) id); [lia|reflexivity].
Qed.
End Cleanup.

(** C1 (the path that fails).  When the engine rejects the first statement
    of the script, the call returns "SQL compiler error" although the
    Result Collection it allocated (the array numbered [next_id w]) is
    still unreleased: the events of the call contain its allocation and no
    release of it. *)
Theorem compile_error_leaves_rows_unreleased
        {E : Type} {SQL : Sqlite3 E} {HOST : BerylHost}
        (fuel obj : nat) (c : conn) (st : storage) (sql : string)
        (params : list i_val) (w : world E) :
  db_field w obj = Some c ->
  sql <> EmptyString ->
  Z.of_nat (List.length params) <= SQLITE_LIMIT_VARIABLE_NUMBER ->
  hd true (heap_plan w) = true ->
  fst (fst (fst (sqlite3_prepare_v2 (Some c) sql (engine w)))) <> SQLITE_OK ->
  exists w' evs,
    beryl_sqldb_object_call (S fuel) obj (BERYL_STR st sql :: params) w
    = Ret (BERYL_ERR "SQL compiler error") w' /\
    trace w' = (trace w ++ evs)%list /\
    In (Ev_new (next_id w)) evs /\
    count (is_release_of (next_id w)) evs = O.
Proof.
  intros Hdb Hsql Hn Hplan Hprep.
  rewrite (parameter_check_passed (S fuel) obj c st sql params w Hdb Hn).
  unfold bind at 1. unfold beryl_new_array, bind, host_alloc.
  destruct (heap_plan w) as [|b plan] eqn:Hp.
  - cbn [log is_type BERYL_TYPEOF type_eqb].
    edestruct (run_script_compile_error fuel obj c params sql (next_id w) []
                 (mkWorld (engine w) [] (S (next_id w)) (db_field w)
                          (trace w ++ [Ev_new (next_id w)])))
      as [w' [evs [Hrun [Htr Hrel]]]]; cbn; try eassumption; try lia.
    exists w', (Ev_new (next_id w) :: Ev_prepare (Some c) sql :: evs).
    split; [exact Hrun|]. split.
    + rewrite Htr. cbn [trace]. rewrite <- app_assoc. reflexivity.
    + split; [left; reflexivity|]. cbn. exact Hrel.
  - cbn in Hplan. subst b.
    cbn [log is_type BERYL_TYPEOF type_eqb].
    edestruct (run_script_compile_error fuel obj c params sql (next_id w) []
                 (mkWorld (engine w) plan (S (next_id w)) (db_field w)
                          (trace w ++ [Ev_new (next_id w)])))
      as [w' [evs [Hrun [Htr Hrel]]]]; cbn; try eassumption; try lia.
    exists w', (Ev_new (next_id w) :: Ev_prepare (Some c) sql :: evs).
    split; [exact Hrun|]. split.
    + rewrite Htr. cbn [trace]. rewrite <- app_assoc. reflexivity.
    + split; [left; reflexivity|]. cbn. exact Hrel.
Qed.

Lemma compile_error_leaves_rows_unreleased_witness :
  db_field opened_world 2%nat = Some 1%nat /\
  "SELEC 1" <> EmptyString /\
  Z.of_nat (List.length (@nil i_val)) <= SQLITE_LIMIT_VARIABLE_NUMBER /\
  hd true (heap_plan opened_world) = true /\
  fst (fst (fst (sqlite3_prepare_v2 (Some 1%nat) "SELEC 1"
                                    (engine opened_world)))) <> SQLITE_OK /\
  exists w' evs,
    beryl_sqldb_object_call (HOST := host32) 3 2 [BERYL_STR Static "SELEC 1"]
                            opened_world
    = Ret (BERYL_ERR "SQL compiler error") w' /\
    trace w' = (trace opened_world ++ evs)%list /\
    In (Ev_new (next_id opened_world)) evs /\
    count (is_release_of (next_id opened_world)) evs = O.
Proof.
  split; [reflexivity|]. split; [discriminate|].
  split; [vm_compute; discriminate|]. split; [reflexivity|].
  split; [vm_compute; discriminate|].
  apply (compile_error_leaves_rows_unreleased (HOST := host32) 2 2 1%nat Static
           "SELEC 1" [] opened_world).
  - reflexivity.
  - discriminate.
  - vm_compute. discriminate.
  - reflexivity.
  - vm_compute. discriminate.
Defined.

(** [h("SELECT 1;SELEC 1")] on the reference engine: the second statement
    does not compile; the array 3, holding the row of the first statement,
    is never released. *)
Example compile_error_after_a_row :
  returned (beryl_sqldb_object_call (HOST := host32) 3 2
              [BERYL_STR Static "SELECT 1;SELEC 1"] opened_world)
  = Some (BERYL_ERR "SQL compiler error") /\
  trace_of (beryl_sqldb_object_call (HOST := host32) 3 2
              [BERYL_STR Static "SELECT 1;SELEC 1"] opened_world)
  = (trace opened_world ++
     [Ev_new 3; Ev_prepare (Some 1%nat) "SELECT 1;SELEC 1"; Ev_talloc 4;
      Ev_new 5; Ev_step (Some 2%nat); Ev_new 6; Ev_step (Some 2%nat);
      Ev_release (BERYL_STR (Managed 5) "1"); Ev_finalize (Some 2%nat);
      Ev_prepare (Some 1%nat) "SELEC 1"; Ev_new 8;
      Ev_blame (BERYL_STR (Managed 8) "SQL logic error");
      Ev_release (BERYL_STR (Managed 8) "SQL logic error")])%list.
Proof. split; vm_compute; reflexivity. Qed.

(** A row that cannot be materialized (the allocation of its table, the
    fourth of the call, fails): statement, rows and column name are
    released, the buffer 4 of the column names is not freed. *)
Example row_failure_keeps_buffer :
  let run := beryl_sqldb_object_call (HOST := host32) 3 2
               [BERYL_STR Static "SELECT 1;"]
               (mkWorld (engine opened_world) [true; true; true; false]
                        (next_id opened_world) (db_field opened_world)
                        (trace opened_world)) in
  returned run = Some (BERYL_ERR "Out of memory") /\
  trace_of run
  = (trace opened_world ++
     [Ev_new 3; Ev_prepare (Some 1%nat) "SELECT 1;"; Ev_talloc 4; Ev_new 5;
      Ev_step (Some 2%nat); Ev_finalize (Some 2%nat);
      Ev_release (BERYL_ARRAY 3 []);
      Ev_release (BERYL_STR (Managed 5) "1")])%list /\
  count (is_tfree_of 4) (trace_of run) = O.
Proof. cbv zeta. repeat split; vm_compute; reflexivity. Qed.

(** A column name that cannot be allocated (the second of three; the
    allocation is the fourth of the call): the cleanup loop releases the
    null entry once and the first column name, string 5, not at all. *)
Example column_name_failure_keeps_names :
  let run := beryl_sqldb_object_call (HOST := host32) 3 2
               [BERYL_STR Static "SELECT a, b, c FROM t"]
               (mkWorld (engine opened_world) [true; true; true; false]
                        (next_id opened_world) (db_field opened_world)
                        (trace opened_world)) in
  returned run = Some (BERYL_ERR "Out of memory") /\
  trace_of run
  = (trace opened_world ++
     [Ev_new 3; Ev_prepare (Some 1%nat) "SELECT a, b, c FROM t"; Ev_talloc 4;
      Ev_new 5; Ev_release BERYL_NULL; Ev_tfree (Some 4%nat);
      Ev_finalize (Some 2%nat); Ev_release (BERYL_ARRAY 3 [])])%list /\
  count (is_release_of 5) (trace_of run) = O.
Proof. cbv zeta. repeat split; vm_compute; reflexivity. Qed.

(** ** Round trips through [SELECT ?] on the reference engine *)

Lemma string_take_all (s : string) : string_take (String.length s) s = s.
Proof.
  induction s as [|c r IH]; cbn; [reflexivity|]. rewrite IH. reflexivity.
Qed.

Lemma replicate_length (n : nat) (c : ascii) :
  String.length (replicate n c) = n.
Proof. induction n as [|n IH]; cbn; [reflexivity|]. rewrite IH. reflexivity. Qed.

Lemma blob_bytes (s : string) :
  match match s with
        | EmptyString => None
        | String _ _ => Some s
        end with
  | Some b => b
  | None => EmptyString
  end = s.
Proof. destruct s; reflexivity. Qed.

(** Unfolds the monad and the runtime services and evaluates as far as the
    next test on a symbolic value. *)
Ltac run_binding :=
  unfold bind, ret, log, engine_call, engine_read, engine_query, read_db,
    write_db, beryl_blame_arg, beryl_release, beryl_tfree, beryl_talloc,
    beryl_new_string, beryl_new_table, beryl_new_array, beryl_array_push,
    host_alloc, array_get, release_columns, cstr_to_beryl_str,
    create_table_from_row, column_value, blame_sql_error;
  cbn.

(** A String longer than [INT_MAX] bytes is refused by the binding itself:
    the call fails with "SQL parameter error". *)
Lemma string_too_long (st : storage) (s : string) (f : nat) :
  INT_MAX < Z.of_nat (String.length s) ->
  returned (beryl_sqldb_object_call (HOST := host32) (3 + f) 2
              [BERYL_STR Static "SELECT ?"; BERYL_STR st s] opened_world)
  = Some (BERYL_ERR "SQL parameter error").
Proof.
  intros H1. apply Z.ltb_lt in H1.
  rewrite (parameter_check_passed (HOST := host32) (3 + f) 2 1%nat Static
             "SELECT ?" [BERYL_STR st s] opened_world eq_refl)
    by (cbn; unfold SQLITE_LIMIT_VARIABLE_NUMBER; lia).
  cbn [Nat.add]. cbn. rewrite H1. run_binding. reflexivity.
Qed.

(** C8, as amended.  A String of at most [INT_MAX] bytes that the engine
    accepts (its length limit is not exceeded) is selected back byte for
    byte: the call returns one row whose only column holds a fresh String
    with the bytes of the parameter. *)
Theorem string_round_trip (st : storage) (s : string) (f : nat) :
  Z.of_nat (String.length s) <= INT_MAX ->
  Z.of_nat (String.length s) <= Sim.limit_length (engine opened_world) ->
  returned (beryl_sqldb_object_call (HOST := host32) (3 + f) 2
              [BERYL_STR Static "SELECT ?"; BERYL_STR st s] opened_world)
  = Some (BERYL_ARRAY 3
            [BERYL_TABLE 6 [(BERYL_STR (Managed 5) "?",
                             BERYL_STR (Managed 7) s)]]).
Proof.
  intros H1 H2.
  change (Sim.limit_length (engine opened_world)) with 1000000000 in H2.
  assert (H0 : (Z.of_nat (String.length s) <? 0) = false)
    by (apply Z.ltb_ge; lia).
  assert (H3 : (4294967295 <? to_unsigned (Z.of_nat (String.length s))) = false).
  { apply Z.ltb_ge. unfold to_unsigned, UINT_MODULUS.
    rewrite Z.mod_small; lia. }
  assert (H4 : (Z.of_nat (String.length s) <=? Z.of_nat (String.length s)) = true)
    by apply Z.leb_refl.
  apply Z.leb_le in H1, H2. rewrite Z.leb_antisym in H1, H2.
  apply negb_true_iff in H1, H2.
  rewrite (parameter_check_passed (HOST := host32) (3 + f) 2 1%nat Static
             "SELECT ?" [BERYL_STR st s] opened_world eq_refl)
    by (cbn; unfold SQLITE_LIMIT_VARIABLE_NUMBER; lia).
  cbn [Nat.add]. cbn.
  (* binding the parameter *)
  rewrite H1. unfold Sim.bind_text. rewrite H0, Nat2Z.id, string_take_all.
  unfold bind at 1 2 3, engine_call at 1. cbn. rewrite H2. cbn.
  (* column names, first step *)
  change (Pos.to_nat 1) with 1%nat. cbn [fill_column_names]. run_binding.
  change (Pos.to_nat 1) with 1%nat. cbn [fill_table for_range].
  (* decoding the row *)
  run_binding. rewrite H3. run_binding.
  rewrite !blob_bytes, H4, Nat2Z.id, string_take_all.
  (* second step, cleanup *)
  run_binding. reflexivity.
Qed.

Lemma string_round_trip_witness :
  Z.of_nat (String.length "hello") <= INT_MAX /\
  Z.of_nat (String.length "hello") <= Sim.limit_length (engine opened_world) /\
  returned (beryl_sqldb_object_call (HOST := host32) (3 + 0) 2
              [BERYL_STR Static "SELECT ?"; BERYL_STR Static "hello"]
              opened_world)
  = Some (BERYL_ARRAY 3
            [BERYL_TABLE 6 [(BERYL_STR (Managed 5) "?",
                             BERYL_STR (Managed 7) "hello")]]).
Proof.
  split; [vm_compute; discriminate|]. split; [vm_compute; discriminate|].
  apply (string_round_trip Static "hello" 0); vm_compute; discriminate.
Defined.

(** C8 as stated fails: a String of [2^31] bytes, one more than [INT_MAX],
    is a Host String (its length is within [I_SIZE_MAX]), and selecting it
    back fails with "SQL parameter error". *)
Lemma long_string_not_selected_back :
  Z.of_nat (String.length (replicate (Z.to_nat 2147483648) "a"))
  <= I_SIZE_MAX (BerylHost := host32) /\
  returned (beryl_sqldb_object_call (HOST := host32) 3 2
              [BERYL_STR Static "SELECT ?";
               BERYL_STR Static (replicate (Z.to_nat 2147483648) "a")]
              opened_world)
  = Some (BERYL_ERR "SQL parameter error").
Proof.
  assert (Hlen : Z.of_nat (String.length (replicate (Z.to_nat 2147483648) "a"))
                 = 2147483648).
  { rewrite replicate_length. apply Z2Nat.id. discriminate. }
  split.
  - rewrite Hlen. discriminate.
  - apply (string_too_long Static _ 0). rewrite Hlen. reflexivity.
Qed.

#[local] Arguments double_of_int64 : simpl never.

(** An integer-flagged Number within the range of [int] is selected back
    as the Number of the same integer value. *)
Lemma integer_round_trip (x : i_float) (n : Z) (f : nat) :
  integer_value x = Some n ->
  INT_MIN <= n <= INT_MAX ->
  returned (beryl_sqldb_object_call (HOST := host32) (3 + f) 2
              [BERYL_STR Static "SELECT ?"; BERYL_NUMBER x] opened_world)
  = Some (BERYL_ARRAY 3
            [BERYL_TABLE 6 [(BERYL_STR (Managed 5) "?",
                             BERYL_NUMBER (double_of_int64 n))]]) /\
  integer_value (double_of_int64 n) = Some n.
Proof.
  intros Hval Hn. split.
  2:{ apply double_of_int64_exact. unfold INT_MIN, INT_MAX in Hn. lia. }
  rewrite (parameter_check_passed (HOST := host32) (3 + f) 2 1%nat Static
             "SELECT ?" [BERYL_NUMBER x] opened_world eq_refl)
    by (cbn; unfold SQLITE_LIMIT_VARIABLE_NUMBER; lia).
  cbn [Nat.add]. cbn.
  unfold double_to_int. rewrite Hval, (integer_value_trunc x n Hval).
  destruct (INT_MIN <=? n) eqn:H1; [|apply Z.leb_gt in H1; lia].
  destruct (n <=? INT_MAX) eqn:H2; [|apply Z.leb_gt in H2; lia].
  cbn [andb].
  run_binding.
  change (Pos.to_nat 1) with 1%nat. cbn [fill_column_names]. run_binding.
  change (Pos.to_nat 1) with 1%nat. cbn [fill_table for_range].
  run_binding. reflexivity.
Qed.

(** A Number that is not an integer, and not a NaN, is selected back as
    the very same [double]. *)
Lemma fraction_round_trip (x : i_float) (f : nat) :
  integer_value x = None ->
  x <> S754_nan ->
  returned (beryl_sqldb_object_call (HOST := host32) (3 + f) 2
              [BERYL_STR Static "SELECT ?"; BERYL_NUMBER x] opened_world)
  = Some (BERYL_ARRAY 3
            [BERYL_TABLE 6 [(BERYL_STR (Managed 5) "?", BERYL_NUMBER x)]]).
Proof.
  intros Hval Hnan.
  rewrite (parameter_check_passed (HOST := host32) (3 + f) 2 1%nat Static
             "SELECT ?" [BERYL_NUMBER x] opened_world eq_refl)
    by (cbn; unfold SQLITE_LIMIT_VARIABLE_NUMBER; lia).
  cbn [Nat.add]. cbn. rewrite Hval.
  destruct x as [sx|sx| |sx m e]; try discriminate; try contradiction.
  - run_binding.
    change (Pos.to_nat 1) with 1%nat. cbn [fill_column_names]. run_binding.
    change (Pos.to_nat 1) with 1%nat. cbn [fill_table for_range].
    run_binding. reflexivity.
  - run_binding.
    change (Pos.to_nat 1) with 1%nat. cbn [fill_column_names]. run_binding.
    change (Pos.to_nat 1) with 1%nat. cbn [fill_table for_range].
    run_binding. reflexivity.
Qed.

(** ** A failure exit that cleans up *)

(** [h("SELECT 1;", 7)]: the statement has no parameter, the engine refuses
    the bind, and this exit finalizes the statement and releases the
    Result Collection, each once, before the Error is returned. *)
Example bind_error_releases_rows :
  let run := beryl_sqldb_object_call (HOST := host32) 3 2
               [BERYL_STR Static "SELECT 1;"; BERYL_NUMBER (double_of_int64 7)]
               opened_world in
  returned run = Some (BERYL_ERR "SQL parameter error") /\
  count (is_release_of 3) (trace_of run) = 1%nat /\
  count (fun ev => match ev with
                   | Ev_finalize (Some 2%nat) => true
                   | _ => false
                   end) (trace_of run) = 1%nat.
Proof. cbv zeta. repeat split; vm_compute; reflexivity. Qed.

(** * Further properties of the binding *)

(** ** Reasoning about runs *)

Lemma bind_inv {E A B} (m : M E A) (k : A -> M E B) (w w' : world E) (b : B) :
  bind m k w = Ret b w' ->
  exists a w1, m w = Ret a w1 /\ k a w1 = Ret b w'.
Proof.
  unfold bind. destruct (m w) as [a w1| |]; try discriminate.
  intros H. exists a, w1. split; [reflexivity|assumption].
Qed.

Lemma tally_app k t u : tally k (t ++ u) = tally k t + tally k u.
Proof.
  unfold tally, count. rewrite filter_app, length_app. lia.
Qed.

Lemma tally_snoc k t ev :
  tally k (t ++ [ev]) = tally k t + (if has_kind k ev then 1 else 0).
Proof.
  rewrite tally_app. unfold tally at 2, count. cbn.
  destruct (has_kind k ev); reflexivity.
Qed.

Section Silent.
Context {E : Type}.

Lemma silent_ret {A} (a : A) : silent_run (@ret E A a).
Proof. intros w w' a' H. inversion H; subst. split; reflexivity. Qed.

Lemma silent_undefined {A} why : silent_run (@undefined E A why).
Proof. intros w w' a H. discriminate. Qed.

Lemma silent_bind {A B} (m : M E A) (k : A -> M E B) :
  silent_run m -> (forall a, silent_run (k a)) -> silent_run (bind m k).
Proof.
  intros Hm Hk w w' b H. apply bind_inv in H.
  destruct H as (a & w1 & H1 & H2).
  apply Hm in H1. apply Hk in H2.
  destruct H1 as [Hd1 Ht1], H2 as [Hd2 Ht2].
  split; [congruence|]. intros k0. rewrite Ht2. apply Ht1.
Qed.

Lemma silent_log ev :
  (forall k, has_kind k ev = false) -> silent_run (@log E ev).
Proof.
  intros Hev w w' a H. unfold log in H. inversion H; subst. cbn.
  split; [reflexivity|]. intros k. rewrite tally_snoc, Hev. lia.
Qed.

Lemma silent_engine_call {A} ev (f : E -> A * E) :
  (forall k, has_kind k ev = false) -> silent_run (engine_call ev f).
Proof.
  intros Hev w w' a H. unfold engine_call in H.
  destruct (f (engine w)) as [a0 e']. inversion H; subst. cbn.
  split; [reflexivity|]. intros k. rewrite tally_snoc, Hev. lia.
Qed.

Lemma silent_engine_read {A} (f : E -> A) : silent_run (engine_read f).
Proof. intros w w' a H. inversion H; subst. split; reflexivity. Qed.

Lemma silent_host_alloc : silent_run (@host_alloc E).
Proof.
  intros w w' a H. unfold host_alloc in H.
  destruct (heap_plan w) as [|[] plan]; inversion H; subst; cbn;
    split; reflexivity.
Qed.

Lemma silent_array_get a i : silent_run (@array_get E a i).
Proof.
  unfold array_get. destruct (nth_error a (Z.to_nat i)).
  - destruct (0 <=? i); [apply silent_ret|apply silent_undefined].
  - apply silent_undefined.
Qed.
End Silent.

(** Proves that a computation built from the runtime services is silent. *)
Ltac silent :=
  repeat first
    [ apply silent_ret
    | apply silent_undefined
    | apply silent_engine_read
    | apply silent_host_alloc
    | apply silent_array_get
    | apply silent_log; intros []; reflexivity
    | apply silent_engine_call; intros []; reflexivity
    | apply silent_bind; [|intros ?]
    | match goal with
      | |- silent_run (if ?b then _ else _) => destruct b
      | |- silent_run (match ?x with _ => _ end) => destruct x
      | |- silent_run (let '(_, _) := ?x in _) => destruct x
      end ].

Section SilentServices.
Context {E : Type} {SQL : Sqlite3 E} {HOST : BerylHost}.

Lemma silent_new_string len src : silent_run (@beryl_new_string E len src).
Proof. unfold beryl_new_string. silent. Qed.

Lemma silent_new_table n : silent_run (@beryl_new_table E n).
Proof. unfold beryl_new_table. silent. Qed.

Lemma silent_new_array n : silent_run (@beryl_new_array E n).
Proof. unfold beryl_new_array. silent. Qed.

Lemma silent_array_push a v : silent_run (@beryl_array_push E a v).
Proof. unfold beryl_array_push. silent. Qed.

Lemma silent_release v :
  is_array v = false -> silent_run (@beryl_release E v).
Proof.
  intros Hv. unfold beryl_release. apply silent_log.
  intros []; destruct v; try reflexivity; discriminate.
Qed.

Lemma silent_bind_post {A B} (P : A -> Prop) (m : M E A) (k : A -> M E B) :
  (forall w w' a, m w = Ret a w' -> P a) ->
  silent_run m -> (forall a, P a -> silent_run (k a)) ->
  silent_run (bind m k).
Proof.
  intros HP Hm Hk w w' b H. apply bind_inv in H.
  destruct H as (a & w1 & H1 & H2).
  pose proof (HP _ _ _ H1) as Ha.
  apply Hm in H1. apply (Hk a Ha) in H2.
  destruct H1 as [Hd1 Ht1], H2 as [Hd2 Ht2].
  split; [congruence|]. intros k0. rewrite Ht2. apply Ht1.
Qed.

Lemma new_string_no_array len src (w w' : world E) v :
  beryl_new_string len src w = Ret v w' -> is_array v = false.
Proof.
  intros H. apply beryl_new_string_inv in H.
  destruct H as [_ [-> | [_ [id ->]]]]; reflexivity.
Qed.

Lemma new_table_no_array n (w w' : world E) v :
  beryl_new_table n w = Ret v w' -> is_array v = false.
Proof.
  intros H. apply beryl_new_table_inv in H.
  destruct H as [_ [-> | [id ->]]]; reflexivity.
Qed.

Lemma silent_blame_arg v : silent_run (@beryl_blame_arg E v).
Proof. unfold beryl_blame_arg. silent. Qed.

Lemma silent_blame_sql_error err : silent_run (blame_sql_error err).
Proof.
  unfold blame_sql_error.
  apply (silent_bind_post (fun v => is_array v = false));
    [apply new_string_no_array|apply silent_new_string|intros v Hv].
  destruct (is_type v TYPE_NULL).
  - apply silent_blame_arg.
  - apply silent_bind;
      [apply silent_blame_arg|intros _; apply silent_release; assumption].
Qed.

Lemma silent_for_range n : forall i (body : Z -> M E unit),
  (forall j, silent_run (body j)) -> silent_run (for_range i n body).
Proof.
  induction n as [|n IH]; intros i body Hb; cbn.
  - apply silent_ret.
  - apply silent_bind; [apply Hb|intros _; apply IH; assumption].
Qed.

Lemma array_get_no_array names i (w w' : world E) v :
  no_array names = true ->
  array_get names i w = Ret v w' -> is_array v = false.
Proof.
  intros Hn H. apply array_get_inv in H. destruct H as (_ & _ & Hnth).
  apply nth_error_In in Hnth. unfold no_array in Hn.
  rewrite forallb_forall in Hn. apply Hn in Hnth.
  apply negb_true_iff. assumption.
Qed.

Lemma silent_release_entry names i :
  no_array names = true ->
  silent_run (bind (@array_get E names i) (fun v => beryl_release v)).
Proof.
  intros Hn.
  apply (silent_bind_post (fun v => is_array v = false)).
  - intros w w' v. apply array_get_no_array. assumption.
  - apply silent_array_get.
  - intros v Hv. apply silent_release. assumption.
Qed.

Lemma silent_release_columns n names :
  no_array names = true -> silent_run (@release_columns E n names).
Proof.
  intros Hn. unfold release_columns. apply silent_for_range. intros j.
  apply silent_release_entry. assumption.
Qed.

Lemma silent_cstr_to_beryl_str c : silent_run (cstr_to_beryl_str (E := E) c).
Proof.
  unfold cstr_to_beryl_str. destruct c; [|apply silent_ret].
  destruct (I_SIZE_MAX <? strlen s); [apply silent_ret|apply silent_new_string].
Qed.

Lemma silent_fill_column_names s todo : forall i names,
  silent_run (fill_column_names s i todo names).
Proof.
  induction todo as [|todo IH]; intros i names; cbn.
  - apply silent_ret.
  - apply silent_bind; [apply silent_engine_read|intros c].
    apply silent_bind; [apply silent_cstr_to_beryl_str|intros v].
    destruct (is_type v TYPE_NULL); [apply silent_ret|apply IH].
Qed.

Lemma cstr_to_beryl_str_no_array c (w w' : world E) v :
  cstr_to_beryl_str c w = Ret v w' -> is_array v = false.
Proof.
  unfold cstr_to_beryl_str. destruct c as [c|].
  - destruct (I_SIZE_MAX <? strlen c).
    + intros H. inversion H; subst. reflexivity.
    + apply new_string_no_array.
  - intros H. inversion H; subst. reflexivity.
Qed.

Lemma no_array_snoc names v :
  no_array names = true -> is_array v = false ->
  no_array (names ++ [v]) = true.
Proof.
  intros Hn Hv. unfold no_array in *. rewrite forallb_app, Hn. cbn.
  rewrite Hv. reflexivity.
Qed.

Lemma fill_column_names_no_array s todo :
  forall i names (w w' : world E) o names',
    no_array names = true ->
    fill_column_names s i todo names w = Ret (o, names') w' ->
    no_array names' = true.
Proof.
  induction todo as [|todo IH]; intros i names w w' o names' Hn H;
    cbn [fill_column_names] in H.
  - inversion H; subst. assumption.
  - apply bind_inv in H. destruct H as (c & w1 & _ & H).
    apply bind_inv in H. destruct H as (v & w2 & Hv & H).
    apply cstr_to_beryl_str_no_array in Hv.
    destruct (is_type v TYPE_NULL).
    + inversion H; subst. apply no_array_snoc; assumption.
    + eapply IH; [|exact H]. apply no_array_snoc; assumption.
Qed.

Lemma silent_column_value s i table :
  is_array table = false -> silent_run (column_value s i table).
Proof.
  intros Htab.
  unfold column_value.
  apply silent_bind; [apply silent_engine_read|intros ty].
  destruct (ty =? SQLITE_NULL); [apply silent_ret|].
  destruct ((ty =? SQLITE_INTEGER) || (ty =? SQLITE_FLOAT)).
  { apply silent_bind; [apply silent_engine_read|intros x; apply silent_ret]. }
  destruct ((ty =? SQLITE_TEXT) || (ty =? SQLITE_BLOB));
    [|apply silent_undefined].
  apply silent_bind; [apply silent_engine_read|intros len].
  destruct (I_SIZE_MAX <? to_unsigned len).
  { apply silent_bind;
      [apply silent_release; assumption|intros _; apply silent_ret]. }
  apply silent_bind; [apply silent_engine_read|intros blob].
  apply silent_bind; [apply silent_new_string|intros v].
  destruct (is_type v TYPE_NULL); [|apply silent_ret].
  apply silent_bind;
    [apply silent_release; assumption|intros _; apply silent_ret].
Qed.

Lemma silent_fill_table s names todo : forall i id acc,
  silent_run (fill_table s names i todo (BERYL_TABLE id acc)).
Proof.
  induction todo as [|todo IH]; intros i id acc; cbn [fill_table].
  - apply silent_ret.
  - apply silent_bind;
      [apply silent_column_value; reflexivity|intros [err|v]].
    + apply silent_ret.
    + apply silent_bind; [apply silent_array_get|intros key; apply IH].
Qed.

Lemma silent_create_table_from_row s n names :
  silent_run (create_table_from_row s n names).
Proof.
  unfold create_table_from_row.
  destruct (I_SIZE_MAX <? to_unsigned n); [apply silent_ret|].
  apply (silent_bind_post
           (fun t => t = BERYL_NULL \/ exists id, t = BERYL_TABLE id [])).
  - intros w w' t H. apply beryl_new_table_inv in H. tauto.
  - apply silent_new_table.
  - intros t [-> | [id ->]]; cbn [is_type BERYL_TYPEOF type_eqb];
      [apply silent_ret|apply silent_fill_table].
Qed.

Lemma silent_bind_i_val s i val : silent_run (bind_i_val_as_sql_param s i val).
Proof.
  unfold bind_i_val_as_sql_param.
  destruct (BERYL_TYPEOF val);
    try (apply silent_engine_call; intros []; reflexivity).
  - destruct (beryl_is_integer val).
    + destruct (double_to_int (beryl_as_num val));
        [apply silent_engine_call; intros []; reflexivity
        |apply silent_undefined].
    + apply silent_engine_call; intros []; reflexivity.
  - destruct (INT_MAX <? BERYL_LENOF val); [apply silent_ret|].
    apply silent_engine_call; intros []; reflexivity.
Qed.

Lemma silent_bind_params s params : forall i,
  silent_run (bind_params s i params).
Proof.
  induction params as [|val rest IH]; intros i; cbn.
  - apply silent_ret.
  - apply silent_bind; [apply silent_bind_i_val|intros err].
    destruct (err =? 0); [apply IH|apply silent_ret].
Qed.
End SilentServices.

(** ** What a script call does to statements, handles and rows *)

Lemma engine_call_inv {E A} ev (f : E -> A * E) (w w' : world E) (a : A) :
  engine_call ev f w = Ret a w' ->
  db_field w' = db_field w /\
  (forall k, tally k (trace w')
             = tally k (trace w) + (if has_kind k ev then 1 else 0)) /\
  a = fst (f (engine w)).
Proof.
  unfold engine_call. destruct (f (engine w)) as [a0 e'].
  intros H. inversion H; subst. cbn.
  split; [reflexivity|]. split; [|reflexivity].
  intros k. apply tally_snoc.
Qed.

Lemma log_inv {E} ev (w w' : world E) u :
  log ev w = Ret u w' ->
  db_field w' = db_field w /\
  forall k, tally k (trace w')
            = tally k (trace w) + (if has_kind k ev then 1 else 0).
Proof.
  unfold log. intros H. inversion H; subst. cbn.
  split; [reflexivity|]. intros k. apply tally_snoc.
Qed.

Lemma talloc_inv {E} size (w w' : world E) (a : option nat) :
  beryl_talloc size w = Ret a w' ->
  db_field w' = db_field w /\
  forall k, tally k (trace w')
            = tally k (trace w)
              + (match a with
                 | Some id => if has_kind k (Ev_talloc id) then 1 else 0
                 | None => 0
                 end).
Proof.
  unfold beryl_talloc, bind, host_alloc, log, ret.
  destruct (heap_plan w) as [|[] plan]; intros H; inversion H; subst;
    cbn [db_field trace]; (split; [reflexivity|]); intros k;
    try apply tally_snoc; lia.
Qed.

Tactic Notation "inv_bind" hyp(H) "as" ident(a) ident(w) ident(Hm) :=
  apply bind_inv in H; destruct H as (a & w & Hm & H).

Tactic Notation "inv_call" hyp(H) "as" ident(Hd) ident(Ht) ident(Ha) :=
  apply engine_call_inv in H; destruct H as (Hd & Ht & Ha).

Tactic Notation "inv_release" hyp(H) "as" ident(Hd) ident(Ht) :=
  unfold beryl_release in H; apply log_inv in H; destruct H as (Hd & Ht).

Tactic Notation "inv_tfree" hyp(H) "as" ident(Hd) ident(Ht) :=
  unfold beryl_tfree in H; apply log_inv in H; destruct H as (Hd & Ht).

Tactic Notation "inv_silent" hyp(H) "by" constr(lem) "as" ident(Hd) ident(Ht) :=
  apply lem in H; destruct H as (Hd & Ht).

Ltac tally_solve :=
  unfold calls in *;
  repeat match goal with
         | H : forall k : call_kind, _ |- _ =>
             pose proof (H K_prepare); pose proof (H K_finalize);
             pose proof (H K_step); pose proof (H K_connection);
             pose proof (H K_array_release);
             pose proof (H K_buffer_alloc); pose proof (H K_buffer_free);
             clear H
         end;
  cbn [has_kind] in *; lia.

Section ScriptRuns.
Context {E : Type} {SQL : Sqlite3 E} {HOST : BerylHost}.

(** The column loop gives back the table it was given, longer, or an
    Error of row decoding. *)
Lemma column_value_error s i table (w w' : world E) err :
  column_value s i table w = Ret (inl err) w' ->
  err = BERYL_ERR "Text/blob too large" \/ err = BERYL_ERR "Out of memory".
Proof.
  unfold column_value. intros H. inv_bind H as ty w1 Hty.
  destruct (ty =? SQLITE_NULL); [discriminate|].
  destruct ((ty =? SQLITE_INTEGER) || (ty =? SQLITE_FLOAT)).
  { inv_bind H as x w2 Hx. discriminate. }
  destruct ((ty =? SQLITE_TEXT) || (ty =? SQLITE_BLOB)); [|discriminate].
  inv_bind H as len w2 Hlen. destruct (I_SIZE_MAX <? to_unsigned len).
  { inv_bind H as u w3 Hu. inversion H; subst. left. reflexivity. }
  inv_bind H as blob w3 Hblob. inv_bind H as cv w4 Hcv.
  destruct (is_type cv TYPE_NULL); [|discriminate].
  inv_bind H as u w5 Hu. inversion H; subst. right. reflexivity.
Qed.

(** The column loop gives back the table it was given, longer, or an
    Error of row decoding. *)
Lemma fill_table_result s names todo : forall i id acc (w w' : world E) v,
  fill_table s names i todo (BERYL_TABLE id acc) w = Ret v w' ->
  is_table v = true \/
  (v = BERYL_ERR "Text/blob too large" \/ v = BERYL_ERR "Out of memory").
Proof.
  induction todo as [|todo IH]; intros i id acc w w' v H; cbn in H.
  - inversion H; subst. left. reflexivity.
  - inv_bind H as cv w1 Hcv. destruct cv as [err|cv].
    + inversion H; subst. right. eapply column_value_error. exact Hcv.
    + inv_bind H as key w2 Hkey. cbn [beryl_table_insert] in H.
      eapply IH. exact H.
Qed.

Lemma create_table_from_row_result s n names (w w' : world E) v :
  create_table_from_row s n names w = Ret v w' ->
  is_table v = true \/
  exists msg, In msg script_errors /\ v = BERYL_ERR msg /\
              msg <> "SQL compiler error".
Proof.
  unfold create_table_from_row.
  destruct (I_SIZE_MAX <? to_unsigned n).
  { intros H. inversion H; subst. right. exists "Too many columns".
    split; [cbn; tauto|]. split; [reflexivity|discriminate]. }
  intros H. inv_bind H as t w1 Ht.
  apply beryl_new_table_inv in Ht. destruct Ht as [_ [-> | [id ->]]].
  { inversion H; subst. right. exists "Out of memory".
    split; [cbn; tauto|]. split; [reflexivity|discriminate]. }
  cbn [is_type BERYL_TYPEOF type_eqb] in H.
  apply fill_table_result in H. destruct H as [H | [-> | ->]].
  - left. assumption.
  - right. exists "Text/blob too large".
    split; [cbn; tauto|]. split; [reflexivity|discriminate].
  - right. exists "Out of memory".
    split; [cbn; tauto|]. split; [reflexivity|discriminate].
Qed.

Lemma is_table_not_err v : is_table v = true -> is_type v TYPE_ERR = false.
Proof. destruct v; cbn; congruence. Qed.

(** The row loop of one statement.  Left by a [return], it has finalized
    the statement once and the value is an Error; left at [SQLITE_DONE], it
    has not finalized, and the rows grew by one Table per step but the
    last. *)
Lemma step_rows_inv fuel : forall s n buf names id items (w w' : world E) r,
  no_array names = true ->
  step_rows fuel s n buf names (BERYL_ARRAY id items) w = Ret r w' ->
  db_field w' = db_field w /\
  calls K_prepare w w' = 0 /\
  calls K_connection w w' = 0 /\
  match r with
  | Returned v =>
      calls K_finalize w w' = 1 /\
      calls K_array_release w w' = 1 /\
      calls K_buffer_alloc w w' = 0 /\
      calls K_buffer_free w w' <= 1 /\
      exists msg, In msg script_errors /\ v = BERYL_ERR msg /\
                  msg <> "SQL compiler error"
  | Completed rows' =>
      calls K_finalize w w' = 0 /\
      calls K_array_release w w' = 0 /\
      calls K_buffer_alloc w w' = 0 /\
      calls K_buffer_free w w' = 0 /\
      exists new,
        rows' = BERYL_ARRAY id (items ++ new) /\
        forallb is_table new = true /\
        calls K_step w w' = Z.of_nat (List.length new) + 1
  end.
Proof.
  induction fuel as [|fuel IH]; intros s n buf names id items w w' r Hnames H;
    [discriminate|].
  cbn [step_rows] in H. inv_bind H as res w1 Hstep.
  inv_call Hstep as Hd1 Ht1 Hres.
  destruct (res =? SQLITE_DONE).
  { inversion H; subst. split; [assumption|].
    split; [tally_solve|]. split; [tally_solve|]. split; [tally_solve|].
    split; [tally_solve|]. split; [tally_solve|]. split; [tally_solve|].
    exists []. rewrite app_nil_r. split; [reflexivity|].
    split; [reflexivity|]. cbn. tally_solve. }
  destruct (res =? SQLITE_BUSY).
  { inv_bind H as u2 w2 Hfin. inv_call Hfin as Hd2 Ht2 Hu2.
    inv_bind H as u3 w3 Hrel. inv_release Hrel as Hd3 Ht3.
    inv_bind H as u4 w4 Hcols.
    apply (silent_release_columns (E := E) _ _ Hnames) in Hcols.
    destruct Hcols as (Hd4 & Ht4).
    inv_bind H as u5 w5 Hfree. inv_tfree Hfree as Hd5 Ht5.
    inversion H; subst.
    split; [congruence|]. split; [tally_solve|]. split; [tally_solve|].
    split; [tally_solve|]. split; [tally_solve|].
    split; [tally_solve|]. split; [tally_solve|].
    exists "Database is busy (timeout)".
    split; [cbn; tauto|]. split; [reflexivity|discriminate]. }
  destruct (negb (res =? SQLITE_ROW)).
  { inv_bind H as u2 w2 Hfin. inv_call Hfin as Hd2 Ht2 Hu2.
    inv_bind H as u3 w3 Hrel. inv_release Hrel as Hd3 Ht3.
    inv_bind H as u4 w4 Hcols.
    apply (silent_release_columns (E := E) _ _ Hnames) in Hcols.
    destruct Hcols as (Hd4 & Ht4).
    inv_bind H as u5 w5 Hfree. inv_tfree Hfree as Hd5 Ht5.
    inv_bind H as u6 w6 Hbl. inv_silent Hbl by silent_blame_sql_error as Hd6 Ht6.
    inversion H; subst.
    split; [congruence|]. split; [tally_solve|]. split; [tally_solve|].
    split; [tally_solve|]. split; [tally_solve|].
    split; [tally_solve|]. split; [tally_solve|].
    exists "SQL error".
    split; [cbn; tauto|]. split; [reflexivity|discriminate]. }
  inv_bind H as row w2 Hrow.
  pose proof (create_table_from_row_result _ _ _ _ _ _ Hrow) as Hres2.
  inv_silent Hrow by silent_create_table_from_row as Hd2 Ht2.
  inv_bind H as pushed w3 Hpush. destruct pushed as [err rows'].
  assert (Hp :
            db_field w3 = db_field w2 /\
            (forall k, tally k (trace w3) = tally k (trace w2)) /\
            ((rows' = BERYL_ARRAY id items /\
              exists msg, In msg script_errors /\ err = BERYL_ERR msg /\
                          msg <> "SQL compiler error") \/
             (rows' = BERYL_ARRAY id (items ++ [row]) /\ is_table row = true /\
              err = BERYL_NULL))).
  { destruct Hres2 as [Htab | (msg & Hin & -> & Hmsg)].
    - rewrite (is_table_not_err _ Htab) in Hpush.
      inv_bind Hpush as pr w4 Hr. destruct pr as [ok arr]. cbn [fst snd] in Hpush.
      pose proof Hr as Hsil. apply silent_array_push in Hsil.
      destruct Hsil as [Hd4 Ht4].
      unfold beryl_array_push in Hr. inv_bind Hr as got w5 Hgot.
      destruct got as [i0|].
      + inversion Hr; subst. inversion Hpush; subst.
        split; [assumption|]. split; [assumption|]. right.
        split; [reflexivity|]. split; [assumption|reflexivity].
      + inversion Hr; subst. inversion Hpush; subst.
        split; [assumption|]. split; [assumption|]. left.
        split; [reflexivity|]. exists "Out of memory".
        split; [cbn; tauto|]. split; [reflexivity|discriminate].
    - cbn in Hpush. inversion Hpush; subst.
      split; [reflexivity|]. split; [reflexivity|]. left.
      split; [reflexivity|]. exists msg. repeat split; assumption. }
  destruct Hp as (Hd3 & Ht3 & [[-> (msg & Hin & -> & Hmsg)]
                              | [-> [Htab ->]]]).
  - cbn [is_type BERYL_TYPEOF type_eqb] in H.
    inv_bind H as u4 w4 Hfin. inv_call Hfin as Hd4 Ht4 Hu4.
    inv_bind H as u5 w5 Hrel. inv_release Hrel as Hd5 Ht5.
    inv_bind H as u6 w6 Hcols.
    apply (silent_release_columns (E := E) _ _ Hnames) in Hcols.
    destruct Hcols as (Hd6 & Ht6).
    inversion H; subst.
    split; [congruence|]. split; [tally_solve|]. split; [tally_solve|].
    split; [tally_solve|]. split; [tally_solve|].
    split; [tally_solve|]. split; [tally_solve|].
    exists msg. repeat split; assumption.
  - cbn [is_type BERYL_TYPEOF type_eqb] in H.
    apply IH in H; [|assumption]. destruct H as (Hd4 & Hpc & Hcc & Hr).
    split; [congruence|]. split; [tally_solve|]. split; [tally_solve|].
    destruct r as [v|rows''].
    + destruct Hr as (Hf & Hra & Hba & Hbf & Hmsg).
      split; [tally_solve|]. split; [tally_solve|].
      split; [tally_solve|]. split; [tally_solve|assumption].
    + destruct Hr as (Hf & Hra & Hba & Hbf & new & -> & Hnew & Hs).
      split; [tally_solve|]. split; [tally_solve|].
      split; [tally_solve|]. split; [tally_solve|].
      exists (row :: new). rewrite <- app_assoc. split; [reflexivity|].
      split; [cbn; rewrite Htab; assumption|].
      cbn [List.length]. rewrite Nat2Z.inj_succ. tally_solve.
Qed.

(** The statement loop.  Every statement that was prepared has been
    finalized once when the loop is left, whatever the exit; the only
    prepare without a finalize is the one that failed to compile. *)
Lemma run_script_inv fuel : forall obj params expr id items (w w' : world E) v,
  run_script fuel obj params expr (BERYL_ARRAY id items) w = Ret v w' ->
  db_field w' = db_field w /\
  calls K_connection w w' = 0 /\
  (calls K_buffer_free w w' <= calls K_buffer_alloc w w' /\
   calls K_buffer_free w w' <= 1 /\
   calls K_buffer_alloc w w' <= calls K_prepare w w') /\
  ((exists new,
       v = BERYL_ARRAY id (items ++ new) /\
       forallb is_table new = true /\
       calls K_finalize w w' = calls K_prepare w w' /\
       calls K_array_release w w' = 0 /\
       calls K_step w w' = Z.of_nat (List.length new) + calls K_prepare w w' /\
       calls K_buffer_alloc w w' = calls K_prepare w w' /\
       calls K_buffer_free w w' = 0) \/
   (v = compile_error /\
    calls K_finalize w w' + 1 = calls K_prepare w w' /\
    calls K_array_release w w' = 0) \/
   (exists msg,
       In msg script_errors /\ msg <> "SQL compiler error" /\
       v = BERYL_ERR msg /\
       calls K_finalize w w' = calls K_prepare w w' /\
       calls K_array_release w w' = 1)).
Proof.
  induction fuel as [|fuel IH]; intros obj params expr id items w w' v H;
    [discriminate|].
  cbn [run_script] in H. destruct expr as [|ch rest].
  { inversion H; subst. split; [reflexivity|]. split; [tally_solve|].
    split; [tally_solve|].
    left. exists []. rewrite app_nil_r. split; [reflexivity|].
    split; [reflexivity|]. repeat split; cbn; tally_solve. }
  inv_bind H as db w0 Hdb. unfold read_db in Hdb. inversion Hdb; subst w0 db.
  clear Hdb.
  inv_bind H as p w1 Hprep. inv_call Hprep as Hd1 Ht1 Hp.
  destruct p as [[err s] consumed]. clear Hp.
  destruct (negb (err =? SQLITE_OK)).
  { inv_bind H as u2 w2 Hbl. inv_silent Hbl by silent_blame_sql_error as Hd2 Ht2.
    inversion H; subst.
    split; [congruence|]. split; [tally_solve|]. split; [tally_solve|].
    right. left. split; [reflexivity|]. split; tally_solve. }
  inv_bind H as berr w2 Hbind.
  inv_silent Hbind by silent_bind_params as Hd2 Ht2.
  destruct (negb (berr =? 0)).
  { inv_bind H as u3 w3 Hfin. inv_call Hfin as Hd3 Ht3 Hu3.
    inv_bind H as u4 w4 Hrel. inv_release Hrel as Hd4 Ht4.
    inv_bind H as u5 w5 Hbl. inv_silent Hbl by silent_blame_sql_error as Hd5 Ht5.
    inversion H; subst.
    split; [congruence|]. split; [tally_solve|]. split; [tally_solve|].
    right. right. exists "SQL parameter error".
    split; [cbn; tauto|]. split; [discriminate|].
    split; [reflexivity|]. split; tally_solve. }
  inv_bind H as n_columns w3 Hn. unfold engine_read in Hn.
  inversion Hn; subst w3. clear Hn.
  inv_bind H as column_names w4 Hbuf.
  apply talloc_inv in Hbuf. destruct Hbuf as (Hd4 & Ht4).
  destruct column_names as [buf|].
  2:{ inv_bind H as u5 w5 Hfin. inv_call Hfin as Hd5 Ht5 Hu5.
      inv_bind H as u6 w6 Hrel. inv_release Hrel as Hd6 Ht6.
      inversion H; subst.
      split; [congruence|]. split; [tally_solve|]. split; [tally_solve|].
      right. right. exists "Out of memory".
      split; [cbn; tauto|]. split; [discriminate|].
      split; [reflexivity|]. split; tally_solve. }
  inv_bind H as filled w5 Hfill. destruct filled as [o names].
  assert (Hnames : no_array names = true)
    by (eapply fill_column_names_no_array; [|exact Hfill]; reflexivity).
  inv_silent Hfill by silent_fill_column_names as Hd5 Ht5.
  destruct o as [i|].
  { inv_bind H as u6 w6 Hloop.
    apply silent_for_range in Hloop;
      [|intros j; apply silent_release_entry; assumption].
    destruct Hloop as [Hd6 Ht6].
    inv_bind H as u7 w7 Hfree. inv_tfree Hfree as Hd7 Ht7.
    inv_bind H as u8 w8 Hfin. inv_call Hfin as Hd8 Ht8 Hu8.
    inv_bind H as u9 w9 Hrel. inv_release Hrel as Hd9 Ht9.
    inversion H; subst.
    split; [congruence|]. split; [tally_solve|]. split; [tally_solve|].
    right. right. exists "Out of memory".
    split; [cbn; tauto|]. split; [discriminate|].
    split; [reflexivity|]. split; tally_solve. }
  inv_bind H as r w6 Hrows. apply step_rows_inv in Hrows; [|assumption].
  destruct Hrows as (Hd6 & Hp6 & Hc6 & Hr).
  destruct r as [v0|rows'].
  { destruct Hr as (Hf6 & Hra6 & Hba6 & Hbf6 & msg & Hin & -> & Hmsg).
    inversion H; subst.
    split; [congruence|]. split; [tally_solve|]. split; [tally_solve|].
    right. right. exists msg.
    split; [assumption|]. split; [assumption|].
    split; [reflexivity|]. split; tally_solve. }
  destruct Hr as (Hf6 & Hra6 & Hba6 & Hbf6 & new & -> & Hnew & Hs6).
  inv_bind H as u7 w7 Hcols.
  apply (silent_release_columns (E := E) _ _ Hnames) in Hcols.
  destruct Hcols as (Hd7 & Ht7).
  inv_bind H as u8 w8 Hfin. inv_call Hfin as Hd8 Ht8 Hu8.
  apply IH in H. destruct H as (Hd9 & Hc9 & Hb9 & Hv).
  split; [congruence|]. split; [tally_solve|]. split; [tally_solve|].
  destruct Hv as [(new2 & -> & Hnew2 & Hf9 & Hra9 & Hs9 & Hba9 & Hbf9)
                 | [(-> & Hf9 & Hra9) | (msg & Hin & Hmsg & -> & Hf9 & Hra9)]].
  - left. exists (new ++ new2)%list. rewrite app_assoc. split; [reflexivity|].
    split; [rewrite forallb_app, Hnew, Hnew2; reflexivity|].
    rewrite length_app, Nat2Z.inj_add. repeat split; tally_solve.
  - right. left. split; [reflexivity|]. split; tally_solve.
  - right. right. exists msg. split; [assumption|]. split; [assumption|].
    split; [reflexivity|]. split; tally_solve.
Qed.
End ScriptRuns.

Section Invocation.
Context {E : Type} {SQL : Sqlite3 E} {HOST : BerylHost}.

(** An invocation either stops before the statement loop, with one of four
    Errors and no counted call at all, or is a run of the loop on a fresh
    empty array. *)
Lemma call_inv fuel obj args (w w' : world E) v :
  beryl_sqldb_object_call fuel obj args w = Ret v w' ->
  (db_field w' = db_field w /\
   (forall k, calls k w w' = 0) /\
   ((v = closed_error /\ db_field w obj = None) \/
    (db_field w obj <> None /\
     (v = BERYL_ERR "Expected SQL query (a string) as first argument" \/
      v = BERYL_ERR "Too many parameters" \/
      v = BERYL_ERR "Out of memory")))) \/
  (db_field w obj <> None /\
   exists id params expr w1,
     db_field w1 = db_field w /\
     (forall k, tally k (trace w1) = tally k (trace w)) /\
     run_script fuel obj params expr (BERYL_ARRAY id []) w1 = Ret v w').
Proof.
  unfold beryl_sqldb_object_call. intros H.
  inv_bind H as db w0 Hdb. unfold read_db in Hdb. inversion Hdb; subst w0 db.
  clear Hdb. destruct (db_field w obj) as [c|] eqn:Hc.
  2:{ inversion H; subst. left. split; [reflexivity|].
      split; [intros k; unfold calls; lia|]. left. split; reflexivity. }
  destruct args as [|arg0 params]; [discriminate|].
  destruct (negb (is_type arg0 TYPE_STR)).
  { inv_bind H as u w1 Hbl.
    inv_silent Hbl by (silent_blame_arg (E := E)) as Hd1 Ht1.
    inversion H; subst. left. split; [assumption|].
    split; [intros k; unfold calls; rewrite Ht1; lia|].
    right. split; [discriminate|]. left. reflexivity. }
  destruct (SQLITE_LIMIT_VARIABLE_NUMBER <? Z.of_nat (List.length params)).
  { inversion H; subst. left. split; [reflexivity|].
    split; [intros k; unfold calls; lia|].
    right. split; [discriminate|]. right. left. reflexivity. }
  inv_bind H as rows w1 Hrows.
  pose proof Hrows as Hsil. apply silent_new_array in Hsil.
  destruct Hsil as [Hd1 Ht1].
  unfold beryl_new_array in Hrows. inv_bind Hrows as got w2 Hgot.
  destruct got as [id|].
  - inv_bind Hrows as u w3 Hlog. inversion Hrows; subst.
    cbn [is_type BERYL_TYPEOF type_eqb] in H.
    right. split; [discriminate|].
    exists id, params, (beryl_get_raw_str arg0), w1.
    split; [assumption|]. split; [assumption|exact H].
  - inversion Hrows; subst. cbn in H. inversion H; subst.
    left. split; [assumption|].
    split; [intros k; unfold calls; rewrite Ht1; lia|].
    right. split; [discriminate|]. right. right. reflexivity.
Qed.

End Invocation.

(** X1.  The empty script: on an open handle, with the parameter count
    within the bound and memory for the result array, the call returns the
    empty array it has just allocated; the engine is not called. *)
Theorem empty_script_gives_empty_array
        {E : Type} {SQL : Sqlite3 E} {HOST : BerylHost}
        (fuel obj : nat) (c : conn) (st : storage) (params : list i_val)
        (w : world E) :
  db_field w obj = Some c ->
  Z.of_nat (List.length params) <= SQLITE_LIMIT_VARIABLE_NUMBER ->
  hd true (heap_plan w) = true ->
  beryl_sqldb_object_call (S fuel) obj (BERYL_STR st EmptyString :: params) w
  = Ret (BERYL_ARRAY (next_id w) [])
        (mkWorld (engine w) (tl (heap_plan w)) (S (next_id w)) (db_field w)
                 (trace w ++ [Ev_new (next_id w)])).
Proof.
  intros Hdb Hn Hplan.
  rewrite (parameter_check_passed (S fuel) obj c st EmptyString params w Hdb Hn).
  unfold bind, beryl_new_array, host_alloc, bind.
  destruct (heap_plan w) as [|b plan]; cbn in *.
  - reflexivity.
  - subst b. reflexivity.
Qed.

Lemma empty_script_gives_empty_array_witness :
  db_field opened_world 2%nat = Some 1%nat /\
  Z.of_nat (List.length [BERYL_NULL]) <= SQLITE_LIMIT_VARIABLE_NUMBER /\
  hd true (heap_plan opened_world) = true /\
  beryl_sqldb_object_call (HOST := host32) 1 2
    [BERYL_STR Static EmptyString; BERYL_NULL] opened_world
  = Ret (BERYL_ARRAY (next_id opened_world) [])
        (mkWorld (engine opened_world) (tl (heap_plan opened_world))
                 (S (next_id opened_world)) (db_field opened_world)
                 (trace opened_world ++ [Ev_new (next_id opened_world)])).
Proof.
  split; [reflexivity|]. split; [vm_compute; discriminate|].
  split; [reflexivity|].
  apply (empty_script_gives_empty_array (HOST := host32) 0 2 1%nat Static
           [BERYL_NULL] opened_world).
  - reflexivity.
  - vm_compute. discriminate.
  - reflexivity.
Defined.



(** X3.  An invocation works on the connection it is given and nothing
    else: whenever it returns, the stored connection of every handle is what
    it was, and no connection was opened, closed or queried. *)
Theorem invocation_keeps_connections
        {E : Type} {SQL : Sqlite3 E} {HOST : BerylHost}
        (fuel obj : nat) (args : list i_val) (w w' : world E) (v : i_val) :
  beryl_sqldb_object_call fuel obj args w = Ret v w' ->
  db_field w' = db_field w /\ calls K_connection w w' = 0.
Proof.
  intros H. apply call_inv in H.
  destruct H as [(Hd & Hk & Hv) | (Hopen & id & params & expr & w1 & Hd1 & Ht1 & H)].
  - split; [assumption|apply Hk].
  - apply run_script_inv in H. destruct H as (Hd & Hc & _ & _).
    split; [congruence|tally_solve].
Qed.

Lemma invocation_keeps_connections_witness :
  script_run "SELECT 1;" opened_world
  = Ret (BERYL_ARRAY 3
           [BERYL_TABLE 6 [(BERYL_STR (Managed 5) "1",
                            BERYL_NUMBER (double_of_int64 1))]])
        (world_after (script_run "SELECT 1;") opened_world) /\
  db_field (world_after (script_run "SELECT 1;") opened_world)
  = db_field opened_world /\
  calls K_connection opened_world
        (world_after (script_run "SELECT 1;") opened_world) = 0.
Proof.
  split; [vm_compute; reflexivity|].
  apply (invocation_keeps_connections (HOST := host32) 3 2
           [BERYL_STR Static "SELECT 1;"] opened_world
           (world_after (script_run "SELECT 1;") opened_world)
           (BERYL_ARRAY 3
              [BERYL_TABLE 6 [(BERYL_STR (Managed 5) "1",
                               BERYL_NUMBER (double_of_int64 1))]])).
  vm_compute. reflexivity.
Defined.

(** X4.  What an invocation returns is an Error or an Array.  The Array
    holds Tables only, one for each step that found a row: the steps made
    are the rows returned plus one closing step per statement; and the
    Array was not released. *)
Theorem invocation_returns_rows_or_error
        {E : Type} {SQL : Sqlite3 E} {HOST : BerylHost}
        (fuel obj : nat) (args : list i_val) (w w' : world E) (v : i_val) :
  beryl_sqldb_object_call fuel obj args w = Ret v w' ->
  (exists msg, v = BERYL_ERR msg) \/
  (exists id items,
      v = BERYL_ARRAY id items /\
      forallb is_table items = true /\
      calls K_step w w' = Z.of_nat (List.length items) + calls K_prepare w w' /\
      calls K_array_release w w' = 0).
Proof.
  intros H. apply call_inv in H.
  destruct H as [(Hd & Hk & Hv) | (Hopen & id & params & expr & w1 & Hd1 & Ht1 & H)].
  - left. destruct Hv as [[-> _] | [_ [-> | [-> | ->]]]]; eexists; reflexivity.
  - apply run_script_inv in H. destruct H as (Hd & Hc & Hb & Hv).
    destruct Hv as [(new & -> & Hnew & Hf & Hra & Hs)
                   | [(-> & _) | (msg & _ & _ & -> & _)]].
    + right. exists id, new. cbn [app]. split; [reflexivity|].
      split; [assumption|]. split; tally_solve.
    + left. eexists. reflexivity.
    + left. eexists. reflexivity.
Qed.

Lemma invocation_returns_rows_or_error_witness :
  script_run "SELECT 1;" opened_world
  = Ret (BERYL_ARRAY 3
           [BERYL_TABLE 6 [(BERYL_STR (Managed 5) "1",
                            BERYL_NUMBER (double_of_int64 1))]])
        (world_after (script_run "SELECT 1;") opened_world) /\
  ((exists msg,
       BERYL_ARRAY 3
         [BERYL_TABLE 6 [(BERYL_STR (Managed 5) "1",
                          BERYL_NUMBER (double_of_int64 1))]]
       = BERYL_ERR msg) \/
   (exists id items,
       BERYL_ARRAY 3
         [BERYL_TABLE 6 [(BERYL_STR (Managed 5) "1",
                          BERYL_NUMBER (double_of_int64 1))]]
       = BERYL_ARRAY id items /\
       forallb is_table items = true /\
       calls K_step opened_world
             (world_after (script_run "SELECT 1;") opened_world)
       = Z.of_nat (List.length items)
         + calls K_prepare opened_world
                 (world_after (script_run "SELECT 1;") opened_world) /\
       calls K_array_release opened_world
             (world_after (script_run "SELECT 1;") opened_world) = 0)).
Proof.
  split; [vm_compute; reflexivity|].
  apply (invocation_returns_rows_or_error (HOST := host32) 3 2
           [BERYL_STR Static "SELECT 1;"] opened_world
           (world_after (script_run "SELECT 1;") opened_world)).
  vm_compute. reflexivity.
Defined.

(** X5.  The Errors of an invocation: the message is one of ten, and it is
    "Database has been closed" exactly when the stored connection of the
    handle is null. *)
Theorem invocation_error_messages
        {E : Type} {SQL : Sqlite3 E} {HOST : BerylHost}
        (fuel obj : nat) (args : list i_val) (w w' : world E) (msg : string) :
  beryl_sqldb_object_call fuel obj args w = Ret (BERYL_ERR msg) w' ->
  In msg invocation_errors /\
  (msg = "Database has been closed" <-> db_field w obj = None).
Proof.
  intros H. apply call_inv in H.
  destruct H as [(Hd & Hk & Hv) | (Hopen & id & params & expr & w1 & Hd1 & Ht1 & H)].
  - destruct Hv as [[Hv Hnone] | [Hopen [Hv | [Hv | Hv]]]];
      inversion Hv; subst; (split; [cbn; tauto|]);
      split; intros; try discriminate; try reflexivity; try assumption;
      contradiction.
  - apply run_script_inv in H. destruct H as (Hd & Hc & Hb & Hv).
    assert (Hmsg : In msg script_errors).
    { destruct Hv as [(new & Hv & _) | [(Hv & _) | (m & Hin & _ & Hv & _)]].
      - discriminate.
      - inversion Hv; subst. cbn. tauto.
      - inversion Hv; subst. assumption. }
    split; [cbn; cbn in Hmsg; tauto|].
    split.
    + intros ->. cbn in Hmsg.
      repeat (destruct Hmsg as [Hmsg|Hmsg]; [discriminate|]). contradiction.
    + intros Hnone. contradiction.
Qed.

Lemma invocation_error_messages_witness :
  script_run "SELECT 1;SELEC 1" opened_world
  = Ret (BERYL_ERR "SQL compiler error")
        (world_after (script_run "SELECT 1;SELEC 1") opened_world) /\
  In "SQL compiler error" invocation_errors /\
  ("SQL compiler error" = "Database has been closed"
   <-> db_field opened_world 2%nat = None).
Proof.
  split; [vm_compute; reflexivity|].
  apply (invocation_error_messages (HOST := host32) 3 2
           [BERYL_STR Static "SELECT 1;SELEC 1"] opened_world
           (world_after (script_run "SELECT 1;SELEC 1") opened_world)).
  vm_compute. reflexivity.
Defined.



(** ** Row decoding and its partial table *)

Lemma count_snoc (f : event -> bool) t ev :
  count f (t ++ [ev]) = (count f t + (if f ev then 1 else 0))%nat.
Proof.
  unfold count. rewrite filter_app, length_app. cbn.
  destruct (f ev); reflexivity.
Qed.

Section PartialTable.
Context {E : Type} {SQL : Sqlite3 E} {HOST : BerylHost}.

Lemma new_string_trace len src (w w' : world E) v :
  beryl_new_string len src w = Ret v w' ->
  trace w' = trace w \/ exists n, trace w' = (trace w ++ [Ev_new n])%list.
Proof.
  unfold beryl_new_string. intros H. inv_bind H as got w1 Hgot.
  assert (Ht : trace w1 = trace w).
  { unfold host_alloc in Hgot.
    destruct (heap_plan w) as [|[] plan]; inversion Hgot; reflexivity. }
  destruct got as [n|].
  - destruct (len <=? _); [|discriminate].
    inv_bind H as u w2 Hlog. unfold log in Hlog.
    inversion Hlog; subst. inversion H; subst. cbn.
    right. exists n. rewrite Ht. reflexivity.
  - inversion H; subst. left. assumption.
Qed.

(** One column: a release happens exactly on the two early returns, and
    what is released is the table. *)
Lemma column_value_releases (f : event -> bool) s i table (w w' : world E) r :
  (forall n, f (Ev_new n) = false) ->
  column_value s i table w = Ret r w' ->
  count f (trace w')
  = (count f (trace w)
     + match r with
       | inl _ => if f (Ev_release table) then 1 else 0
       | inr _ => 0
       end)%nat.
Proof.
  intros Hf. unfold column_value. intros H. inv_bind H as ty w1 Hty.
  unfold engine_read in Hty. inversion Hty; subst w1 ty. clear Hty.
  destruct (_ =? SQLITE_NULL).
  { inversion H; subst. lia. }
  destruct ((_ =? SQLITE_INTEGER) || _).
  { inv_bind H as x w2 Hx. unfold engine_read in Hx.
    inversion Hx; subst. inversion H; subst. lia. }
  destruct ((_ =? SQLITE_TEXT) || _); [|discriminate].
  inv_bind H as len w2 Hlen. unfold engine_read in Hlen.
  inversion Hlen; subst w2 len. clear Hlen.
  destruct (I_SIZE_MAX <? _).
  { inv_bind H as u w3 Hrel. unfold beryl_release, log in Hrel.
    inversion Hrel; subst. inversion H; subst. cbn [trace].
    apply count_snoc. }
  inv_bind H as blob w3 Hblob. unfold engine_read in Hblob.
  inversion Hblob; subst w3 blob. clear Hblob.
  inv_bind H as cv w4 Hcv. apply new_string_trace in Hcv.
  assert (Hc : count f (trace w4) = count f (trace w)).
  { destruct Hcv as [-> | [n ->]]; [reflexivity|].
    rewrite count_snoc, Hf. lia. }
  destruct (is_type cv TYPE_NULL).
  - inv_bind H as u w5 Hrel. unfold beryl_release, log in Hrel.
    inversion Hrel; subst. inversion H; subst. cbn [trace].
    rewrite count_snoc, Hc. reflexivity.
  - inversion H; subst. lia.
Qed.

Lemma fill_table_releases (f : event -> bool) s names todo :
  (forall n, f (Ev_new n) = false) ->
  (forall id acc, f (Ev_release (BERYL_TABLE id acc)) = true) ->
  forall i id acc (w w' : world E) v,
    fill_table s names i todo (BERYL_TABLE id acc) w = Ret v w' ->
    count f (trace w')
    = (count f (trace w) + (if is_type v TYPE_ERR then 1 else 0))%nat.
Proof.
  intros Hnew Hrel.
  induction todo as [|todo IH]; intros i id acc w w' v H; cbn [fill_table] in H.
  - inversion H; subst. cbn. lia.
  - inv_bind H as cv w1 Hcv.
    destruct cv as [err|cv].
    + pose proof (column_value_error _ _ _ _ _ _ Hcv) as Herr.
      apply (column_value_releases f) in Hcv; [|assumption].
      inversion H; subst. rewrite Hcv, Hrel.
      destruct Herr as [-> | ->]; reflexivity.
    + apply (column_value_releases f) in Hcv; [|assumption].
      inv_bind H as key w2 Hkey. apply array_get_inv in Hkey.
      destruct Hkey as [-> _]. cbn [beryl_table_insert] in H.
      apply IH in H. lia.
Qed.
End PartialTable.

(** X7.  The column loop of row decoding releases the table it is building
    exactly once when it stops with an Error, and releases nothing when it
    completes: at every exit the number of releases, and of releases of
    that table, has grown by one for an Error and by none for a Table. *)
Theorem partial_table_released_once
        {E : Type} {SQL : Sqlite3 E} {HOST : BerylHost}
        (s : option stmt) (names : list i_val) (i : Z) (todo id : nat)
        (acc : list (i_val * i_val)) (w w' : world E) (v : i_val) :
  fill_table s names i todo (BERYL_TABLE id acc) w = Ret v w' ->
  count is_release (trace w')
  = (count is_release (trace w) + (if is_type v TYPE_ERR then 1 else 0))%nat /\
  count (is_release_of id) (trace w')
  = (count (is_release_of id) (trace w)
     + (if is_type v TYPE_ERR then 1 else 0))%nat /\
  (is_type v TYPE_ERR = false -> is_table v = true).
Proof.
  intros H. split; [|split].
  - eapply fill_table_releases; [| |exact H]; reflexivity.
  - (* the releases of this table *)
    assert (Hgen : forall todo i acc w w' v,
               fill_table s names i todo (BERYL_TABLE id acc) w = Ret v w' ->
               count (is_release_of id) (trace w')
               = (count (is_release_of id) (trace w)
                  + (if is_type v TYPE_ERR then 1 else 0))%nat).
    { clear. induction todo as [|todo IH]; intros i acc w w' v H;
        cbn [fill_table] in H.
      - inversion H; subst. cbn. lia.
      - inv_bind H as cv w1 Hcv. destruct cv as [err|cv].
        + pose proof (column_value_error _ _ _ _ _ _ Hcv) as Herr.
          apply (column_value_releases (is_release_of id)) in Hcv;
            [|reflexivity].
          inversion H; subst. rewrite Hcv. cbn. rewrite Nat.eqb_refl.
          destruct Herr as [-> | ->]; reflexivity.
        + apply (column_value_releases (is_release_of id)) in Hcv;
            [|reflexivity].
          inv_bind H as key w2 Hkey. apply array_get_inv in Hkey.
          destruct Hkey as [-> _]. cbn [beryl_table_insert] in H.
          apply IH in H. lia. }
    eapply Hgen. exact H.
  - intros Hok. apply fill_table_result in H.
    destruct H as [H | [-> | ->]]; [assumption|discriminate|discriminate].
Qed.

Lemma partial_table_released_once_witness :
  fill_table (HOST := host32) (Some 2%nat) row_names 0 3 (BERYL_TABLE 3 [])
             (mkWorld (engine row_world) [false] 4 (db_field row_world)
                      (trace row_world))
  = Ret (BERYL_ERR "Out of memory")
        (mkWorld (engine row_world) [] 4 (db_field row_world)
                 (trace row_world
                  ++ [Ev_release
                        (BERYL_TABLE 3
                           [(BERYL_STR (Managed 10) "a",
                             BERYL_NUMBER (double_of_int64 1))])])) /\
  count is_release
        (trace row_world
         ++ [Ev_release
               (BERYL_TABLE 3
                  [(BERYL_STR (Managed 10) "a",
                    BERYL_NUMBER (double_of_int64 1))])])
  = (count is_release (trace row_world) + 1)%nat.
Proof.
  split; [vm_compute; reflexivity|].
  apply (partial_table_released_once (HOST := host32) (Some 2%nat) row_names
           0 3 3 []
           (mkWorld (engine row_world) [false] 4 (db_field row_world)
                    (trace row_world))
           (mkWorld (engine row_world) [] 4 (db_field row_world)
                    (trace row_world
                     ++ [Ev_release
                           (BERYL_TABLE 3
                              [(BERYL_STR (Managed 10) "a",
                                BERYL_NUMBER (double_of_int64 1))])]))
           (BERYL_ERR "Out of memory")).
  vm_compute. reflexivity.
Defined.

(** ** The life of a handle *)

(** X8.  A [close] that returns Null has nulled the stored connection of
    that handle and of no other, after one call of the engine's close on
    the connection that was stored.  From then on every invocation of the
    handle fails with "Database has been closed" and changes nothing, and
    the release of the object passes the null connection, not the closed
    one, to [sqlite3_close_v2]. *)
Theorem close_then_use
        {E : Type} {SQL : Sqlite3 E} {HOST : BerylHost}
        (arg0 : i_val) (rest : list i_val) (w w1 : world E) :
  close_callback (arg0 :: rest) w = Ret BERYL_NULL w1 ->
  let obj := beryl_as_object arg0 in
  arg0 = handle obj /\
  trace w1 = (trace w ++ [Ev_close (db_field w obj)])%list /\
  db_field w1 obj = None /\
  (forall a, a <> obj -> db_field w1 a = db_field w a) /\
  (forall fuel args,
      beryl_sqldb_object_call fuel obj args w1 = Ret closed_error w1) /\
  exists w2,
    beryl_sqldb_object_free obj w1 = Ret tt w2 /\
    trace w2 = (trace w1 ++ [Ev_close_v2 None])%list.
Proof.
  intros H obj. unfold close_callback in H.
  destruct arg0 as [| | | | | | |cls addr];
    cbn [beryl_object_class_type is_sqldb_class negb beryl_as_object] in H;
    try (inv_bind H as u wb Hb; unfold ret in H; discriminate).
  destruct cls;
    cbn [beryl_object_class_type is_sqldb_class negb beryl_as_object] in H;
    [|inv_bind H as u wb Hb; unfold ret in H; discriminate].
  inv_bind H as db w0 Hdb. unfold read_db in Hdb. inversion Hdb; subst w0 db.
  clear Hdb. inv_bind H as err w2 Hclose.
  unfold engine_call in Hclose.
  destruct (sqlite3_close (db_field w addr) (engine w)) as [err0 e'].
  inversion Hclose; subst err0 w2. clear Hclose.
  destruct (negb (err =? SQLITE_OK)); [discriminate|].
  inv_bind H as u w3 Hwrite. unfold write_db in Hwrite.
  inversion Hwrite; subst w3 u. clear Hwrite. inversion H; subst w1. clear H.
  subst obj. cbn [beryl_as_object db_field trace].
  split; [reflexivity|]. split; [reflexivity|].
  split; [rewrite Nat.eqb_refl; reflexivity|].
  split.
  { intros a Ha. apply Nat.eqb_neq in Ha. rewrite Ha. reflexivity. }
  split.
  { intros fuel args. apply call_on_closed. cbn.
    rewrite Nat.eqb_refl. reflexivity. }
  unfold beryl_sqldb_object_free, bind, read_db, engine_call, ret.
  cbn [db_field]. rewrite Nat.eqb_refl.
  destruct (sqlite3_close_v2 None _) as [r e2].
  eexists. split; reflexivity.
Qed.

Lemma close_then_use_witness :
  close_callback [handle 2] opened_world = Ret BERYL_NULL closed_world /\
  handle 2 = handle (beryl_as_object (handle 2)) /\
  trace closed_world
  = (trace opened_world
     ++ [Ev_close (db_field opened_world (beryl_as_object (handle 2)))])%list.
Proof.
  split; [vm_compute; reflexivity|].
  pose proof (close_then_use (HOST := host32) (handle 2) [] opened_world
                closed_world) as H.
  cbv zeta in H. split; apply H; vm_compute; reflexivity.
Defined.



(** ** Binding the parameters *)

Section BindOrder.
Context {E : Type} {SQL : Sqlite3 E} {HOST : BerylHost}.

End BindOrder.



(** ** Diagnostics *)

Lemma string_take_c_str (s : string) :
  string_take (String.length (c_str s)) s = c_str s.
Proof.
  induction s as [|c r IH]; cbn; [reflexivity|].
  destruct (Ascii.eqb c NUL); cbn; [reflexivity|]. rewrite IH. reflexivity.
Qed.

(** What [blame_sql_error] does, by the first entry of the heap plan. *)
Lemma blame_sql_error_runs
        {E : Type} {SQL : Sqlite3 E} (err : Z) (w : world E) :
  exists w',
    blame_sql_error err w = Ret tt w' /\
    engine w' = engine w /\
    db_field w' = db_field w /\
    (if hd true (heap_plan w) then
       let msg := BERYL_STR (Managed (next_id w)) (c_str (sqlite3_errstr err)) in
       trace w'
       = (trace w ++ [Ev_new (next_id w); Ev_blame msg; Ev_release msg])%list
     else
       next_id w' = next_id w /\
       trace w'
       = (trace w
          ++ [Ev_blame
                (BERYL_CONST_STR
                   "Unable to show error message (out of memory, unable to allocate string)")])%list).
Proof.
  unfold blame_sql_error, beryl_new_string, bind.
  assert (Hlen : (strlen (sqlite3_errstr err)
                  <=? Z.of_nat (String.length (sqlite3_errstr err))) = true).
  { apply Z.leb_le. unfold strlen. apply Nat2Z.inj_le. apply c_str_length. }
  assert (Htake : string_take (Z.to_nat (strlen (sqlite3_errstr err)))
                              (sqlite3_errstr err)
                  = c_str (sqlite3_errstr err)).
  { unfold strlen. rewrite Nat2Z.id. apply string_take_c_str. }
  unfold host_alloc.
  destruct (heap_plan w) as [|[] plan]; rewrite ?Hlen, ?Htake; cbn.
  - eexists. split; [reflexivity|]. cbn.
    split; [reflexivity|]. split; [reflexivity|].
    rewrite <- !app_assoc. reflexivity.
  - eexists. split; [reflexivity|]. cbn.
    split; [reflexivity|]. split; [reflexivity|].
    rewrite <- !app_assoc. reflexivity.
  - eexists. split; [reflexivity|]. cbn.
    split; [reflexivity|]. split; [reflexivity|]. split; reflexivity.
Qed.

(** X11.  [blame_sql_error] always returns and leaves engine and handles
    as they are.  With memory for the message it blames a fresh String
    holding the engine's text for the code, and releases that String once;
    without, it blames a static text and allocates nothing. *)
Theorem blame_sql_error_outcome
        {E : Type} {SQL : Sqlite3 E} (err : Z) (w : world E) :
  exists w',
    blame_sql_error err w = Ret tt w' /\
    engine w' = engine w /\
    db_field w' = db_field w /\
    (if hd true (heap_plan w) then
       let msg := BERYL_STR (Managed (next_id w)) (c_str (sqlite3_errstr err)) in
       trace w'
       = (trace w ++ [Ev_new (next_id w); Ev_blame msg; Ev_release msg])%list
     else
       next_id w' = next_id w /\
       trace w'
       = (trace w
          ++ [Ev_blame
                (BERYL_CONST_STR
                   "Unable to show error message (out of memory, unable to allocate string)")])%list).
Proof.
  exact (blame_sql_error_runs err w).
Qed.

(** ** Opening a connection *)

(** X12.  Whenever [open] of a String path returns, one of four things
    happened.  The copy of the path could not be allocated: "Out of
    memory", and nothing was called.  Otherwise the engine was asked to
    open the path up to its first NUL byte, and the copy was freed once,
    right after.  Then either the engine refused: the connection pointer it
    produced was closed once, the path and the engine's message were
    blamed, and the result is "Unable to open database"; or the object
    could not be allocated: the connection was closed once and the result
    is "Out of memory"; or the result is a new handle that stores the
    connection, on which a busy timeout of 1000 ms was set.  No connection
    is left open without a handle. *)
Theorem open_outcomes
        {E : Type} {SQL : Sqlite3 E}
        (st : storage) (path : string) (rest : list i_val)
        (w w' : world E) (v : i_val) :
  open_callback (BERYL_STR st path :: rest) w = Ret v w' ->
  (v = BERYL_ERR "Out of memory" /\
   trace w' = trace w /\ db_field w' = db_field w /\ engine w' = engine w) \/
  exists buf,
    let err := fst (fst (sqlite3_open (c_str path) (engine w))) in
    let db := snd (fst (sqlite3_open (c_str path) (engine w))) in
    let opened := (trace w ++ [Ev_talloc buf; Ev_open (c_str path);
                               Ev_tfree (Some buf)])%list in
    (err <> 0 /\
     v = BERYL_ERR "Unable to open database" /\
     db_field w' = db_field w /\
     exists blamed,
       trace w' = (opened ++ Ev_close db :: Ev_blame (BERYL_STR st path)
                          :: blamed)%list /\
       forall k, tally k blamed = 0) \/
    (err = 0 /\
     v = BERYL_ERR "Out of memory" /\
     db_field w' = db_field w /\
     trace w' = (opened ++ [Ev_busy_timeout db 1000; Ev_close db])%list) \/
    (err = 0 /\
     exists id,
       v = handle id /\
       db_field w' id = db /\
       (forall a, a <> id -> db_field w' a = db_field w a) /\
       trace w' = (opened ++ [Ev_busy_timeout db 1000; Ev_new id])%list).
Proof.
  unfold open_callback.
  cbn [is_type BERYL_TYPEOF type_eqb negb]. intros H.
  inv_bind H as p w1 Hpath. unfold beryl_str_to_cstr in Hpath.
  cbn [is_type BERYL_TYPEOF type_eqb beryl_get_raw_str] in Hpath.
  inv_bind Hpath as got w2 Hgot. unfold beryl_talloc in Hgot.
  inv_bind Hgot as a w3 Ha.
  assert (Hsame : trace w3 = trace w /\ db_field w3 = db_field w /\
                  engine w3 = engine w).
  { unfold host_alloc in Ha.
    destruct (heap_plan w) as [|[] plan]; inversion Ha; subst; cbn;
      repeat split; reflexivity. }
  destruct Hsame as (Ht3 & Hd3 & He3).
  destruct a as [buf|].
  2:{ inversion Hgot; subst. inversion Hpath; subst. inversion H; subst.
      left. repeat split; assumption. }
  inv_bind Hgot as u w4 Hlog. unfold log in Hlog.
  inversion Hlog; subst w4 u. clear Hlog.
  inversion Hgot; subst got w2. clear Hgot.
  inversion Hpath; subst p w1. clear Hpath.
  right. exists buf. cbv zeta.
  inv_bind H as o w5 Hopen. unfold engine_call in Hopen.
  cbn [engine heap_plan next_id db_field trace] in Hopen.
  rewrite He3 in Hopen.
  destruct (sqlite3_open (c_str path) (engine w)) as [[err db] e1].
  inversion Hopen; subst o w5. clear Hopen. cbn [fst snd].
  inv_bind H as u w6 Hfree. unfold beryl_tfree, log in Hfree.
  inversion Hfree; subst w6 u. clear Hfree.
  cbn [engine heap_plan next_id db_field trace] in H.
  destruct (err =? 0) eqn:Herr; cbn [negb] in H.
  - apply Z.eqb_eq in Herr. right.
    inv_bind H as r w7 Hbusy. unfold engine_call in Hbusy.
    cbn [engine heap_plan next_id db_field trace] in Hbusy.
    destruct (sqlite3_busy_timeout db 1000 e1) as [r0 e2].
    inversion Hbusy; subst r w7. clear Hbusy.
    inv_bind H as obj w8 Hobj. unfold beryl_new_object in Hobj.
    inv_bind Hobj as a w9 Ha9. unfold host_alloc in Ha9.
    cbn [engine heap_plan next_id db_field trace] in Ha9.
    destruct a as [id|].
    + inv_bind Hobj as u w10 Hlog. unfold log in Hlog.
      inversion Hlog; subst w10 u. clear Hlog.
      inversion Hobj; subst obj w8. clear Hobj.
      cbn [is_type BERYL_TYPEOF type_eqb beryl_as_object] in H.
      inv_bind H as u w11 Hwrite. unfold write_db in Hwrite.
      inversion Hwrite; subst w11 u. clear Hwrite.
      inversion H; subst v w'. clear H.
      right. split; [assumption|]. exists id.
      split; [reflexivity|].
      assert (Hw9 : db_field w9 = db_field w /\
                    trace w9 = ((((trace w3 ++ [Ev_talloc buf])
                                  ++ [Ev_open (c_str path)])
                                 ++ [Ev_tfree (Some buf)])
                                ++ [Ev_busy_timeout db 1000])%list).
      { destruct (heap_plan w3) as [|[] plan]; inversion Ha9; subst; cbn;
          split; assumption || reflexivity. }
      destruct Hw9 as [Hd9 Ht9]. cbn [db_field trace].
      split; [rewrite Nat.eqb_refl; reflexivity|].
      split.
      { intros a Hne. apply Nat.eqb_neq in Hne. rewrite Hne, Hd9.
        reflexivity. }
      rewrite Ht9, Ht3, <- !app_assoc. reflexivity.
    + inversion Hobj; subst obj w8. clear Hobj.
      cbn [is_type BERYL_TYPEOF type_eqb] in H.
      inv_bind H as u w10 Hclose. unfold engine_call in Hclose.
      destruct (sqlite3_close db (engine w9)) as [r1 e3].
      inversion Hclose; subst w10 u. clear Hclose.
      inversion H; subst v w'. clear H.
      assert (Hw9 : db_field w9 = db_field w /\
                    trace w9 = ((((trace w3 ++ [Ev_talloc buf])
                                  ++ [Ev_open (c_str path)])
                                 ++ [Ev_tfree (Some buf)])
                                ++ [Ev_busy_timeout db 1000])%list).
      { destruct (heap_plan w3) as [|[] plan]; inversion Ha9; subst; cbn;
          split; assumption || reflexivity. }
      destruct Hw9 as [Hd9 Ht9]. cbn [db_field trace].
      left. split; [assumption|]. split; [reflexivity|].
      split; [assumption|].
      rewrite Ht9, Ht3, <- !app_assoc. reflexivity.
  - apply Z.eqb_neq in Herr. left. split; [assumption|].
    inv_bind H as r w7 Hclose. unfold engine_call in Hclose.
    cbn [engine heap_plan next_id db_field trace] in Hclose.
    destruct (sqlite3_close db e1) as [r0 e2].
    inversion Hclose; subst r w7. clear Hclose.
    inv_bind H as u w8 Hblame. unfold beryl_blame_arg, log in Hblame.
    inversion Hblame; subst w8 u. clear Hblame.
    cbn [engine heap_plan next_id db_field trace] in H.
    inv_bind H as u w9 Hbl.
    destruct (blame_sql_error_runs err
                (mkWorld e2 (heap_plan w3) (next_id w3) (db_field w3)
                   (((((trace w3 ++ [Ev_talloc buf])
                       ++ [Ev_open (c_str path)])
                      ++ [Ev_tfree (Some buf)])
                     ++ [Ev_close db])
                    ++ [Ev_blame (BERYL_STR st path)])))
      as (wb & Hrun & _ & Hdb & Htr).
    rewrite Hrun in Hbl. inversion Hbl; subst w9 u. clear Hbl.
    inversion H; subst v w'. clear H.
    split; [reflexivity|]. split; [rewrite Hdb; assumption|].
    cbn [heap_plan next_id trace] in Htr.
    destruct (hd true (heap_plan w3)).
    + eexists. split.
      { rewrite Htr, Ht3, <- !app_assoc. cbn [app]. reflexivity. }
      intros []; reflexivity.
    + destruct Htr as [_ Htr]. eexists. split.
      { rewrite Htr, Ht3, <- !app_assoc. cbn [app]. reflexivity. }
      intros []; reflexivity.
Qed.

Lemma open_outcomes_witness :
  open_callback [memory_path] (fresh_world Sim.initial [])
  = Ret (handle 2) opened_world /\
  ((handle 2 = BERYL_ERR "Out of memory" /\
    trace opened_world = trace (fresh_world Sim.initial []) /\
    db_field opened_world = db_field (fresh_world Sim.initial []) /\
    engine opened_world = engine (fresh_world Sim.initial [])) \/
   exists buf,
     let err := fst (fst (sqlite3_open (c_str ":memory:") Sim.initial)) in
     let db := snd (fst (sqlite3_open (c_str ":memory:") Sim.initial)) in
     let opened := ([] ++ [Ev_talloc buf; Ev_open (c_str ":memory:");
                           Ev_tfree (Some buf)])%list in
     (err <> 0 /\
      handle 2 = BERYL_ERR "Unable to open database" /\
      db_field opened_world = db_field (fresh_world Sim.initial []) /\
      exists blamed,
        trace opened_world
        = (opened ++ Ev_close db :: Ev_blame (BERYL_STR Static ":memory:")
                  :: blamed)%list /\
        forall k, tally k blamed = 0) \/
     (err = 0 /\
      handle 2 = BERYL_ERR "Out of memory" /\
      db_field opened_world = db_field (fresh_world Sim.initial []) /\
      trace opened_world
      = (opened ++ [Ev_busy_timeout db 1000; Ev_close db])%list) \/
     (err = 0 /\
      exists id,
        handle 2 = handle id /\
        db_field opened_world id = db /\
        (forall a, a <> id ->
                   db_field opened_world a
                   = db_field (fresh_world Sim.initial []) a) /\
        trace opened_world
        = (opened ++ [Ev_busy_timeout db 1000; Ev_new id])%list)).
Proof.
  split; [vm_compute; reflexivity|].
  apply (open_outcomes Static ":memory:" [] (fresh_world Sim.initial [])
           opened_world (handle 2)).
  vm_compute. reflexivity.
Defined.

(** ** Column descriptors *)

Section ColumnNames.
Context {E : Type} {SQL : Sqlite3 E} {HOST : BerylHost}.

Lemma cstr_to_beryl_str_inv c (w w' : world E) v :
  cstr_to_beryl_str c w = Ret v w' ->
  engine w' = engine w /\
  (v = BERYL_NULL \/
   exists txt id,
     c = Some txt /\ strlen txt <= I_SIZE_MAX /\
     v = BERYL_STR (Managed id) (c_str txt)).
Proof.
  unfold cstr_to_beryl_str. destruct c as [txt|].
  - destruct (I_SIZE_MAX <? strlen txt) eqn:Hlen.
    + intros H. inversion H; subst. split; [reflexivity|]. left. reflexivity.
    + intros H. apply beryl_new_string_inv in H.
      destruct H as [He [-> | [_ [id ->]]]].
      * split; [assumption|]. left. reflexivity.
      * split; [assumption|]. right. exists txt, id.
        split; [reflexivity|]. split; [apply Z.ltb_ge; assumption|].
        cbn [bytes_at]. unfold strlen. rewrite Nat2Z.id, string_take_c_str.
        reflexivity.
  - intros H. inversion H; subst. split; [reflexivity|]. left. reflexivity.
Qed.

Lemma fill_column_names_inv s todo :
  forall i acc (w w' : world E) names,
    fill_column_names s i todo acc w = Ret (None, names) w' ->
    engine w' = engine w /\
    exists new,
      names = (acc ++ new)%list /\
      List.length new = todo /\
      forall k v,
        nth_error new k = Some v ->
        exists txt id,
          sqlite3_column_name s (i + Z.of_nat k) (engine w) = Some txt /\
          strlen txt <= I_SIZE_MAX /\
          v = BERYL_STR (Managed id) (c_str txt).
Proof.
  induction todo as [|todo IH]; intros i acc w w' names H;
    cbn [fill_column_names] in H.
  - inversion H; subst. split; [reflexivity|]. exists [].
    rewrite app_nil_r. split; [reflexivity|]. split; [reflexivity|].
    intros [|k] v Hk; discriminate.
  - inv_bind H as c w1 Hc. unfold engine_read in Hc.
    inversion Hc; subst w1 c. clear Hc.
    inv_bind H as v w2 Hv. apply cstr_to_beryl_str_inv in Hv.
    destruct Hv as [He Hv].
    destruct Hv as [-> | (txt & id & Htxt & Hlen & ->)];
      cbn [is_type BERYL_TYPEOF type_eqb] in H; [discriminate|].
    apply IH in H. destruct H as (He2 & new & -> & Hnew & Hall).
    split; [congruence|].
    exists (BERYL_STR (Managed id) (c_str txt) :: new).
    rewrite <- app_assoc. split; [reflexivity|]. split; [cbn; lia|].
    intros [|k] v Hk; cbn in Hk.
    + inversion Hk; subst. exists txt, id. rewrite Z.add_0_r.
      repeat split; assumption.
    + apply Hall in Hk. destruct Hk as (txt' & id' & Hname & Hl & ->).
      exists txt', id'. rewrite He in Hname.
      replace (i + Z.of_nat (S k)) with (i + 1 + Z.of_nat k) by lia.
      repeat split; assumption.
Qed.
End ColumnNames.

(** X13.  When the column descriptors of a statement are all built, there
    is one per column, in column order, and descriptor [k] is a fresh
    String with the bytes of the engine's name of column [k], a name that
    is not null and no longer than [I_SIZE_MAX]. *)
Theorem column_names_follow_engine
        {E : Type} {SQL : Sqlite3 E} {HOST : BerylHost}
        (s : option stmt) (n : nat) (w w' : world E) (names : list i_val) :
  fill_column_names s 0 n [] w = Ret (None, names) w' ->
  List.length names = n /\
  engine w' = engine w /\
  forall k v,
    nth_error names k = Some v ->
    exists txt id,
      sqlite3_column_name s (Z.of_nat k) (engine w) = Some txt /\
      strlen txt <= I_SIZE_MAX /\
      v = BERYL_STR (Managed id) (c_str txt).
Proof.
  intros H. apply fill_column_names_inv in H.
  destruct H as (He & new & -> & Hlen & Hall). cbn [app].
  split; [assumption|]. split; [assumption|]. exact Hall.
Qed.

Lemma column_names_follow_engine_witness :
  fill_column_names (HOST := host32) (Some 2%nat) 0 3 [] row_world
  = Ret (None, [BERYL_STR (Managed 3) "a"; BERYL_STR (Managed 4) "b";
                BERYL_STR (Managed 5) "c"])
        (world_after (fill_column_names (HOST := host32) (Some 2%nat) 0 3 [])
                     row_world) /\
  List.length [BERYL_STR (Managed 3) "a"; BERYL_STR (Managed 4) "b";
               BERYL_STR (Managed 5) "c"] = 3%nat.
Proof.
  split; [vm_compute; reflexivity|].
  apply (column_names_follow_engine (HOST := host32) (Some 2%nat) 3 row_world
           (world_after (fill_column_names (HOST := host32) (Some 2%nat) 0 3 [])
                        row_world)).
  vm_compute. reflexivity.
Defined.

(** ** The busy exit *)

Section BusyExit.
Context {E : Type} {SQL : Sqlite3 E} {HOST : BerylHost}.

Lemma release_loop_trace (names : list i_val) : forall k i (w : world E),
  0 <= i ->
  (Z.to_nat i + k <= List.length names)%nat ->
  for_range i k (fun j => bind (array_get names j) (fun v => beryl_release v)) w
  = Ret tt (with_trace w
              (trace w ++ map Ev_release
                              (firstn k (skipn (Z.to_nat i) names)))).
Proof.
  induction k as [|k IH]; intros i w Hi Hlen; cbn [for_range].
  - cbn. rewrite app_nil_r. destruct w; reflexivity.
  - destruct (nth_error names (Z.to_nat i)) as [v|] eqn:Hnth.
    2:{ apply nth_error_None in Hnth. lia. }
    unfold bind at 1. unfold bind at 1. unfold array_get. rewrite Hnth.
    destruct (0 <=? i) eqn:H0; [|apply Z.leb_gt in H0; lia].
    unfold ret, beryl_release, log.
    rewrite IH by (cbn [trace]; rewrite ?Z2Nat.inj_add; lia).
    rewrite (firstn_skipn_cons names (Z.to_nat i) k v Hnth).
    unfold with_trace. cbn [engine heap_plan next_id db_field trace map].
    rewrite <- app_assoc. cbn [app].
    replace (Z.to_nat (i + 1)) with (S (Z.to_nat i)) by lia.
    reflexivity.
Qed.
End BusyExit.

(** X14.  The busy exit.  When the engine answers [SQLITE_BUSY] to a step,
    the row loop does not step again: it finalizes the statement, releases
    the rows collected so far, releases each column descriptor, in order,
    frees their buffer, each exactly once, and returns "Database is busy
    (timeout)". *)
Theorem busy_step_cleans_up
        {E : Type} {SQL : Sqlite3 E} {HOST : BerylHost}
        (fuel : nat) (s : option stmt) (buf : nat) (names : list i_val)
        (rows : i_val) (w : world E) :
  fst (sqlite3_step s (engine w)) = SQLITE_BUSY ->
  step_rows (S fuel) s (Z.of_nat (List.length names)) buf names rows w
  = Ret (Returned (BERYL_ERR "Database is busy (timeout)"))
        (mkWorld (snd (sqlite3_finalize s (snd (sqlite3_step s (engine w)))))
                 (heap_plan w) (next_id w) (db_field w)
                 (trace w
                  ++ [Ev_step s; Ev_finalize s; Ev_release rows]
                  ++ map Ev_release names
                  ++ [Ev_tfree (Some buf)])).
Proof.
  intros Hbusy. cbn [step_rows].
  unfold bind at 1. unfold engine_call at 1.
  destruct (sqlite3_step s (engine w)) as [res e1]. cbn [fst snd] in *.
  subst res. change (SQLITE_BUSY =? SQLITE_DONE) with false.
  change (SQLITE_BUSY =? SQLITE_BUSY) with true. cbv iota.
  unfold bind at 1. unfold engine_call at 1.
  cbn [engine heap_plan next_id db_field trace].
  destruct (sqlite3_finalize s e1) as [r e2]. cbn [snd].
  unfold bind at 1. unfold beryl_release at 1, log.
  unfold bind at 1. unfold release_columns.
  rewrite release_loop_trace by (cbn; rewrite ?Nat2Z.id; lia).
  unfold with_trace. cbn [engine heap_plan next_id db_field trace].
  unfold bind, beryl_tfree, log, ret.
  cbn [engine heap_plan next_id db_field trace].
  rewrite Nat2Z.id. cbn [Z.to_nat skipn]. rewrite firstn_all.
  rewrite <- !app_assoc. reflexivity.
Qed.

Lemma busy_step_cleans_up_witness :
  fst (sqlite3_step (Some 2%nat) (engine locked_stmt_world)) = SQLITE_BUSY /\
  step_rows (HOST := host32) 1 (Some 2%nat)
            (Z.of_nat (List.length [BERYL_STR (Managed 5) "a";
                                    BERYL_STR (Managed 6) "b"]))
            4 [BERYL_STR (Managed 5) "a"; BERYL_STR (Managed 6) "b"]
            (BERYL_ARRAY 3 []) locked_stmt_world
  = Ret (Returned (BERYL_ERR "Database is busy (timeout)"))
        (mkWorld (snd (sqlite3_finalize (Some 2%nat)
                         (snd (sqlite3_step (Some 2%nat)
                                            (engine locked_stmt_world)))))
                 (heap_plan locked_stmt_world) (next_id locked_stmt_world)
                 (db_field locked_stmt_world)
                 (trace locked_stmt_world
                  ++ [Ev_step (Some 2%nat); Ev_finalize (Some 2%nat);
                      Ev_release (BERYL_ARRAY 3 [])]
                  ++ map Ev_release [BERYL_STR (Managed 5) "a";
                                     BERYL_STR (Managed 6) "b"]
                  ++ [Ev_tfree (Some 4%nat)])).
Proof.
  split; [reflexivity|].
  apply (busy_step_cleans_up (HOST := host32) 0 (Some 2%nat) 4
           [BERYL_STR (Managed 5) "a"; BERYL_STR (Managed 6) "b"]
           (BERYL_ARRAY 3 []) locked_stmt_world).
  reflexivity.
Defined.

(** ** Loading the module *)

(** X15.  The export table is built by the first load only.  Once a load
    with a matching version has returned, the module is marked loaded, and
    every later load, in whatever world, returns the same value without
    allocating or calling anything; this also holds when the first load
    ran out of memory and returned an Error. *)
Theorem load_initialises_once
        {E : Type} (g g1 : module_state) (w w1 : world E) (v : i_val) :
  beryl_lib_load true g w = Ret (v, g1) w1 ->
  loaded g1 = true /\
  lib_val g1 = v /\
  (loaded g = false ->
   (v = BERYL_ERR "Out of memory" /\ trace w1 = trace w) \/
   (exists id entries,
      v = BERYL_TABLE id entries /\
      trace w1 = (trace w ++ [Ev_new id])%list)) /\
  forall w2 : world E,
    beryl_lib_load true g1 w2
    = Ret (v, mkModule true v (S (lib_refs g1))) w2.
Proof.
  unfold beryl_lib_load. cbn [negb].
  destruct (loaded g) eqn:Hl; cbn [negb].
  - unfold bind, ret. intros H. inversion H; subst. cbn [loaded lib_val lib_refs].
    rewrite Hl. cbn [negb].
    split; [reflexivity|]. split; [reflexivity|].
    split; [discriminate|]. intros w2. reflexivity.
  - intros H. inv_bind H as g' w' Hinit. unfold ret in H.
    inversion H; subst v g1 w1. clear H. cbn [loaded lib_val lib_refs].
    inv_bind Hinit as u wi Hi. unfold ret in Hinit.
    inversion Hinit; subst g' w'. clear Hinit.
    cbn [loaded lib_val negb]. unfold bind, ret.
    split; [reflexivity|]. split; [reflexivity|].
    split; [|intros w2; reflexivity].
    intros _. unfold init_lib in Hi.
    inv_bind Hi as table wt Ht.
    unfold beryl_new_table, host_alloc, bind, log, ret in Ht.
    destruct (heap_plan w) as [|[] plan]; inversion Ht; subst table wt;
      clear Ht; cbn [is_type BERYL_TYPEOF type_eqb] in Hi; unfold ret in Hi;
      inversion Hi; subst u wi; clear Hi; cbn [trace].
    + right. cbn [fns fold_left]. unfold beryl_table_insert.
      eexists _, _. split; reflexivity.
    + right. cbn [fns fold_left]. unfold beryl_table_insert.
      eexists _, _. split; reflexivity.
    + left. split; reflexivity.
Qed.

Lemma load_initialises_once_witness :
  beryl_lib_load true
                 (mkModule false BERYL_NULL 0)
                 (fresh_world Sim.initial [false])
  = Ret (BERYL_ERR "Out of memory",
         mkModule true (BERYL_ERR "Out of memory") 1)
        (fresh_world Sim.initial []) /\
  beryl_lib_load true
                 (mkModule true (BERYL_ERR "Out of memory") 1)
                 (fresh_world Sim.initial [true])
  = Ret (BERYL_ERR "Out of memory",
         mkModule true (BERYL_ERR "Out of memory") 2)
        (fresh_world Sim.initial [true]).
Proof.
  split; [reflexivity|].
  apply (load_initialises_once
           (mkModule false BERYL_NULL 0)
           (mkModule true (BERYL_ERR "Out of memory") 1)
           (fresh_world Sim.initial [false]) (fresh_world Sim.initial [])
           (BERYL_ERR "Out of memory")).
  reflexivity.
Defined.

(** ** Column buffers *)

(** X16.  The column buffer.  An invocation allocates at most one buffer
    per statement it prepares and frees at most one buffer, never more
    than it allocated.  When it returns an Array, it has allocated one
    buffer for every statement and freed none of them. *)
Theorem column_buffers_of_an_invocation
        {E : Type} {SQL : Sqlite3 E} {HOST : BerylHost}
        (fuel obj : nat) (args : list i_val) (w w' : world E) (v : i_val) :
  beryl_sqldb_object_call fuel obj args w = Ret v w' ->
  calls K_buffer_alloc w w' <= calls K_prepare w w' /\
  calls K_buffer_free w w' <= calls K_buffer_alloc w w' /\
  calls K_buffer_free w w' <= 1 /\
  (is_array v = true ->
   calls K_buffer_alloc w w' = calls K_prepare w w' /\
   calls K_buffer_free w w' = 0).
Proof.
  intros H. apply call_inv in H.
  destruct H as [(Hd & Hk & Hv) | (Hopen & id & params & expr & w1 & Hd1 & Ht1 & H)].
  - rewrite !Hk. split; [lia|]. split; [lia|]. split; [lia|].
    intros _. split; reflexivity.
  - apply run_script_inv in H. destruct H as (Hd & Hc & Hb & Hv).
    split; [tally_solve|]. split; [tally_solve|]. split; [tally_solve|].
    intros Harr.
    destruct Hv as [(new & -> & _ & _ & _ & _ & Hba & Hbf)
                   | [(-> & _) | (msg & _ & _ & -> & _)]];
      [|discriminate|discriminate].
    split; tally_solve.
Qed.

Lemma column_buffers_of_an_invocation_witness :
  returned (beryl_sqldb_object_call (HOST := host32) 5 2
              [BERYL_STR Static "SELECT 1;SELECT 1;"] opened_world)
  = Some (BERYL_ARRAY 3
            [BERYL_TABLE 6 [(BERYL_STR (Managed 5) "1",
                             BERYL_NUMBER (double_of_int64 1))];
             BERYL_TABLE 10 [(BERYL_STR (Managed 9) "1",
                              BERYL_NUMBER (double_of_int64 1))]]) /\
  calls K_prepare opened_world
        (world_after (beryl_sqldb_object_call (HOST := host32) 5 2
                        [BERYL_STR Static "SELECT 1;SELECT 1;"])
                     opened_world) = 2 /\
  calls K_buffer_alloc opened_world
        (world_after (beryl_sqldb_object_call (HOST := host32) 5 2
                        [BERYL_STR Static "SELECT 1;SELECT 1;"])
                     opened_world) = 2 /\
  calls K_buffer_free opened_world
        (world_after (beryl_sqldb_object_call (HOST := host32) 5 2
                        [BERYL_STR Static "SELECT 1;SELECT 1;"])
                     opened_world) = 0.
Proof.
  split; [vm_compute; reflexivity|].
  split; [vm_compute; reflexivity|].
  pose proof (column_buffers_of_an_invocation (HOST := host32) 5 2
                [BERYL_STR Static "SELECT 1;SELECT 1;"] opened_world
                (world_after (beryl_sqldb_object_call (HOST := host32) 5 2
                                [BERYL_STR Static "SELECT 1;SELECT 1;"])
                             opened_world)
                (BERYL_ARRAY 3
                   [BERYL_TABLE 6 [(BERYL_STR (Managed 5) "1",
                                    BERYL_NUMBER (double_of_int64 1))];
                    BERYL_TABLE 10 [(BERYL_STR (Managed 9) "1",
                                     BERYL_NUMBER (double_of_int64 1))]]))
    as H.
  apply H; vm_compute; reflexivity.
Defined.

(** ** Arguments of the wrong type *)

(** X17.  A first argument a callback does not accept (not a String for
    [open], not a database object for [close] and
    [get-last-insert-rowid]) is blamed once and answered with an Error;
    nothing else happens: the engine, the heap and the handles are as
    before.  [get-last-insert-rowid] answers with the message of
    [close]. *)
Theorem rejected_argument_is_blamed
        {E : Type} {SQL : Sqlite3 E} {HOST : BerylHost}
        (cb : callback) (arg : i_val) (rest : list i_val) (w : world E) :
  accepts cb arg = false ->
  run_callback cb (arg :: rest) w
  = Ret (BERYL_ERR
           (match cb with
            | Cb_open =>
                "Expected string path as first argument for 'sql.open'"
            | Cb_close =>
                "Expected database object as argument for 'close'"
            | Cb_get_last_insert_rowid =>
                "Expected database object as argument for 'close'"
            end))
        (with_trace w (trace w ++ [Ev_blame arg])).
Proof.
  intros H. destruct cb; cbn [accepts] in H;
    cbn [run_callback open_callback close_callback
         get_last_insert_rowid_callback];
    rewrite H; reflexivity.
Qed.

Lemma rejected_argument_is_blamed_witness :
  run_callback (HOST := host32) Cb_get_last_insert_rowid
               [BERYL_NUMBER (double_of_int64 7)] opened_world
  = Ret (BERYL_ERR "Expected database object as argument for 'close'")
        (with_trace opened_world
           (trace opened_world
            ++ [Ev_blame (BERYL_NUMBER (double_of_int64 7))])).
Proof.
  apply (rejected_argument_is_blamed (HOST := host32)
           Cb_get_last_insert_rowid (BERYL_NUMBER (double_of_int64 7)) []
           opened_world).
  reflexivity.
Defined.
